(** * gaia-mcp-go: transport, image acquisition and chunked upload

    A shallow embedding of the client core of gaia-mcp-go:

    - [HttpClient]  : pkg/httpclient (retrying transport, typed decoding);
    - [ImageUtil]   : pkg/imageutil (download, bounded resize, re-encoding);
    - [Api]         : internal/api (chunked upload orchestration), in the
                      two revisions of [uploadChunk], [initUploadImage] and
                      [completeUpload] that the sources contain.

    Go's [int] and [time.Duration] are 64-bit; they are modelled as [Z] with
    the wrap-around written out ([wrap64]).  Byte slices are [list byte],
    Go strings are [string], maps with string keys are [gmap string _].
    Everything the program takes from the Go standard library without
    defining it (JSON and image codecs, base64, URL validation, the network
    itself) is gathered in one record of parameters, [GoRuntime]. *)

From Stdlib Require Import ZArith Lia List String Ascii Floats DecimalString QArith Qround Qminmax.
From Stdlib.Strings Require Import Byte.
From stdpp Require Import base option list strings gmap.

Open Scope string_scope.
Open Scope list_scope.
Open Scope Z_scope.

(* ===================================================================== *)
(** * Machine integers, byte slices, strings *)

Abbreviation bytes := (list byte).

Definition max_int : Z := 2 ^ 63 - 1.
Definition min_int : Z := - 2 ^ 63.

(** Two's-complement wrap-around of 64-bit signed arithmetic. *)
Definition wrap64 (z : Z) : Z := (z + 2 ^ 63) mod 2 ^ 64 - 2 ^ 63.

(** [len(s)] of a slice, as a Go [int]. *)
Definition len {A} (s : list A) : Z := Z.of_nat (length s).

(** [fmt.Sprintf("%d", z)]. *)
Definition itoa (z : Z) : string := NilZero.string_of_int (Z.to_int z).

(** [strings.HasPrefix(s, p)]. *)
Fixpoint HasPrefix (s p : string) : bool :=
  match p, s with
  | EmptyString, _ => true
  | String _ _, EmptyString => false
  | String b p', String a s' => if Ascii.eqb a b then HasPrefix s' p' else false
  end.

(** Dropping and taking a [Z] number of elements, by recursion on the list
    (so that a ten-megabyte offset costs nothing on a short list). *)
Fixpoint dropZ {A} (n : Z) (l : list A) : list A :=
  match l with
  | [] => []
  | x :: t => if n <=? 0 then l else dropZ (n - 1) t
  end.

Fixpoint takeZ {A} (n : Z) (l : list A) : list A :=
  match l with
  | [] => []
  | x :: t => if n <=? 0 then [] else x :: takeZ (n - 1) t
  end.

(** The slice expression [s[low:high]].  Go panics unless
    [0 <= low <= high <= cap(s)]; the capacity of the buffers sliced here is
    not visible in the source and is taken to be their length. *)
Definition slice {A} (s : list A) (low high : Z) : option (list A) :=
  if (0 <=? low) && (low <=? high) && (high <=? len s)
  then Some (takeZ (high - low) (dropZ low s))
  else None.

(* ===================================================================== *)
(** * Errors and results *)

(** [*httpclient.APIError]. *)
Record APIError := mkAPIError { StatusCode : Z; Message : string }.

(** Go [error] values, by the way the program builds them. *)
Inductive error : Type :=
| LibError (origin msg : string)      (* built by the standard library *)
| ErrAPI (e : APIError)               (* &APIError{...} *)
| Errorf (msg : string)               (* fmt.Errorf without %w *)
| Wrapf (msg : string) (cause : error) (* fmt.Errorf("msg: %w", cause) *)
| FailedFiles (failed : list (string * string)).
                 (* fmt.Errorf("failed to upload some files: %v", failedFiles) *)

(** The [Error()] method. *)
Fixpoint Error (e : error) : string :=
  match e with
  | LibError _ msg => msg
  | ErrAPI a => "API Error " +:+ itoa (StatusCode a) +:+ ": " +:+ Message a
  | Errorf msg => msg
  | Wrapf msg cause => msg +:+ ": " +:+ Error cause
  | FailedFiles failed =>
      "failed to upload some files: ["
      +:+ String.concat " "
           (map (fun f => "map[error:" +:+ snd f +:+ " url:" +:+ fst f +:+ "]") failed)
      +:+ "]"
  end.

(** The type assertion of an error to a pointer to APIError. *)
Definition is_APIError (e : error) : bool :=
  match e with ErrAPI _ => true | _ => false end.

(** A Go pair [(value, error)] in which exactly one side is meaningful. *)
Inductive result (A : Type) : Type :=
| Ok (a : A)
| Err (e : error).
Arguments Ok {A} a.
Arguments Err {A} e.

(* ===================================================================== *)
(** * HTTP messages and the world *)

Record Request := mkRequest {
  req_Method : string;
  req_URL : string;
  req_Header : gmap string string;
  req_Body : bytes
}.

(** What [io.ReadAll(resp.Body)] returns: the bytes read and the error that
    stopped the read, if any. *)
Record BodyStream := mkBody { body_data : bytes; body_err : option error }.

Record Response := mkResponse {
  resp_StatusCode : Z;
  resp_Header : gmap string string;
  resp_Body : BodyStream
}.

(** One call of [http.Client.Do]: how many bytes of the request body the
    client read while writing the request, and what came back. *)
Record RoundTrip := mkRoundTrip {
  rt_read : Z;
  rt_result : result Response
}.

(** The observable world: every request handed to an HTTP client, in order,
    and every [time.Sleep]. *)
Record World := mkWorld {
  sent : list Request;
  slept : list Z
}.

Definition world0 : World := mkWorld [] [].

(** Results of running Go code: a value, or a run-time panic. *)
Inductive Outcome (A : Type) : Type :=
| Val (a : A)
| Panic (msg : string).
Arguments Val {A} a.
Arguments Panic {A} msg.

Definition M (A : Type) : Type := World -> Outcome A * World.

Definition ret {A} (a : A) : M A := fun w => (Val a, w).

Definition bind {A B} (m : M A) (f : A -> M B) : M B :=
  fun w =>
    match m w with
    | (Val a, w') => f a w'
    | (Panic msg, w') => (Panic msg, w')
    end.

Definition panic {A} (msg : string) : M A := fun w => (Panic msg, w).

Notation "'let*' x ':=' m 'in' f" := (bind m (fun x => f))
  (at level 10, x name, m at level 100, f at level 200).
Notation "m1 '>>' m2" := (bind m1 (fun _ => m2))
  (at level 100, m2 at level 200, right associativity).

(** [time.Sleep(d)]. *)
Definition Sleep (d : Z) : M unit :=
  fun w => (Val tt, mkWorld (sent w) (slept w ++ [d])).

(* ===================================================================== *)
(** * Images and API data *)

(** A decoded image, or the RGBA destination of a bilinear rescale of one
    ([image.NewRGBA] followed by [draw.BiLinear.Scale]). *)
Inductive Image : Type :=
| Decoded (w h : Z) (pixels : bytes)
| BiLinearScaled (w h : Z) (src : Image).

(** [img.Bounds().Dx()] and [.Dy()]; [image.Rect] orders its corners. *)
Definition Dx (img : Image) : Z :=
  match img with Decoded w _ _ => w | BiLinearScaled w _ _ => Z.abs w end.
Definition Dy (img : Image) : Z :=
  match img with Decoded _ h _ => h | BiLinearScaled _ h _ => Z.abs h end.

(** internal/api/type.go (the opaque [Metadata] map is left out). *)
Record UploadFile := mkUploadFile {
  file_Id : string;
  file_Name : string;
  file_Size : Z;
  file_MimeType : string;
  file_Url : option string;
  file_OwnerUid : string;
  file_CreatedAt : string;
  file_Uploaded : bool
}.

Record UploadPart := mkUploadPart { ETag : string; PartNumber : Z }.

Record InitUploadResponse := mkInitUploadResponse {
  Key : string;
  Filename : string;
  UploadId : string;
  UploadUrls : list string;
  File : UploadFile
}.

(** The values the program passes as request payloads ([interface{}]). *)
Inductive Payload : Type :=
| PBytes (b : bytes)
    (* a []byte *)
| PInitUpload (filename : string) (w h fileSize : Z) (assoc : string) (chunkSize : Z)
    (* the map built by initUploadImage *)
| PComplete (key uploadId : string) (parts : list UploadPart)
    (* the map built by completeUpload *)
| PCompleteList (key uploadId : string) (parts : list UploadPart)
    (* the one-element slice of maps built by the later completeUpload *)
| PRawJSON (doc : bytes).
    (* any other value, given by its JSON text (a json.RawMessage) *)

(** What the program takes from the Go standard library and from the
    network. *)
Record GoRuntime := mkGoRuntime {
  json_Marshal : Payload -> result bytes;
  json_Unmarshal_APIError : bytes -> result APIError;
  json_Unmarshal_Init : bytes -> result InitUploadResponse;
  json_Unmarshal_InitList : bytes -> result (list InitUploadResponse);
  (* whether http.NewRequestWithContext accepts this method and URL *)
  http_NewRequest_ok : string -> string -> bool;
  (* http.Client.Do, given the requests made so far *)
  http_Do : list Request -> Request -> RoundTrip;
  image_Decode : bytes -> result (Image * string);
  png_Encode : Image -> result bytes;
  jpeg_Encode : Z -> Image -> result bytes;
  base64_EncodeToString : bytes -> string;
  base64_DecodeString : string -> result bytes;
  (* time.Now().Unix(), as a function of the requests made so far *)
  time_Now_Unix : list Request -> Z
}.

(** [http.Client.Do(req)]: the request reaches the client and is recorded. *)
Definition Do (rt : GoRuntime) (req : Request) : M RoundTrip :=
  fun w => (Val (http_Do rt (sent w) req), mkWorld (sent w ++ [req]) (slept w)).

(** The requests made between two worlds. *)
Definition sent_since (w w' : World) : list Request :=
  drop (length (sent w)) (sent w').

(* ===================================================================== *)
(** * pkg/httpclient *)

Module HttpClient.

(** ** Header keys

    [http.Header.Set] and [.Get] canonicalise the key the way
    net/textproto does: a key made of token bytes only has the first letter
    and every letter after a hyphen in upper case and the others in lower
    case; any other key is left as it is. *)

Definition isLower (c : ascii) : bool :=
  let n := nat_of_ascii c in Nat.leb 97 n && Nat.leb n 122.
Definition isUpper (c : ascii) : bool :=
  let n := nat_of_ascii c in Nat.leb 65 n && Nat.leb n 90.
Definition isDigit (c : ascii) : bool :=
  let n := nat_of_ascii c in Nat.leb 48 n && Nat.leb n 57.

Definition validHeaderFieldByte (c : ascii) : bool :=
  isLower c || isUpper c || isDigit c
  || existsb (Ascii.eqb c) (list_ascii_of_string "!#$%&'*+-.^_`|~").

Fixpoint canonLetters (upper : bool) (s : string) : string :=
  match s with
  | EmptyString => EmptyString
  | String c s' =>
      let n := nat_of_ascii c in
      let c' := if upper && isLower c then ascii_of_nat (n - 32)
                else if negb upper && isUpper c then ascii_of_nat (n + 32)
                else c in
      String c' (canonLetters (Ascii.eqb c' "-") s')
  end.

Definition CanonicalMIMEHeaderKey (s : string) : string :=
  if forallb validHeaderFieldByte (list_ascii_of_string s)
  then canonLetters true s else s.

(** [h.Set(key, value)] and [h.Get(key)]. *)
Definition Header_Set (h : gmap string string) (key value : string)
  : gmap string string :=
  <[CanonicalMIMEHeaderKey key := value]> h.

Definition Header_Get (h : gmap string string) (key : string) : string :=
  default "" (h !! CanonicalMIMEHeaderKey key).

Definition req_Set (req : Request) (key value : string) : Request :=
  mkRequest (req_Method req) (req_URL req)
            (Header_Set (req_Header req) key value) (req_Body req).

(** ** The client *)

(** [type HeaderInterceptor func(req *http.Request) error]: it may change
    the request and may fail. *)
Definition HeaderInterceptor : Type := Request -> result Request.

Record Client := mkClient {
  baseURL : string;
  timeout : Z;
  maxRetries : Z;
  retryDelay : Z;
  debug : bool;
  defaultHeaders : gmap string string;
  headerInterceptors : list HeaderInterceptor
}.

Record Config := mkConfig {
  cfg_BaseURL : string;
  cfg_Timeout : Z;
  cfg_MaxRetries : Z;
  cfg_RetryDelay : Z;
  cfg_Debug : bool;
  cfg_DefaultHeaders : gmap string string
}.

Definition Second : Z := 1000000000.

(** [New]: zero fields of the configuration take their defaults (a nil map
    of default headers and an empty one are the same [gmap]). *)
Definition New (config : Config) : Client :=
  mkClient (cfg_BaseURL config)
           (if cfg_Timeout config =? 0 then 30 * Second else cfg_Timeout config)
           (if cfg_MaxRetries config =? 0 then 3 else cfg_MaxRetries config)
           (if cfg_RetryDelay config =? 0 then 1 * Second else cfg_RetryDelay config)
           (cfg_Debug config)
           (cfg_DefaultHeaders config)
           [].

(** [shouldRetry]. *)
Definition shouldRetry (statusCode : Z) : bool :=
  (statusCode =? 429) || (statusCode =? 500) || (statusCode =? 502)
  || (statusCode =? 503) || (statusCode =? 504).

(** [applyHeaders]: standard headers, then the client's defaults, then the
    call's own, then the interceptors in order, stopping at the first that
    fails. *)
Definition setAll (hs : gmap string string) (req : Request) : Request :=
  foldl (fun r kv => req_Set r (fst kv) (snd kv)) req (map_to_list hs).

Fixpoint runInterceptors (ics : list HeaderInterceptor) (req : Request)
  : result Request :=
  match ics with
  | [] => Ok req
  | interceptor :: ics' =>
      match interceptor req with
      | Err e => Err (Wrapf "header interceptor failed" e)
      | Ok req' => runInterceptors ics' req'
      end
  end.

Definition applyHeaders (c : Client) (req : Request)
    (customHeaders : gmap string string) : result Request :=
  let req1 := req_Set req "Content-Type" "application/json" in
  let req2 := req_Set req1 "Accept" "application/json" in
  let req3 := req_Set req2 "User-Agent" "gaia-mcp-go/1.0" in
  let req4 := setAll (defaultHeaders c) req3 in
  let req5 := setAll customHeaders req4 in
  runInterceptors (headerInterceptors c) req5.

Section Transport.

Variable rt : GoRuntime.

(** [http.NewRequestWithContext(ctx, method, url, body)].  [body] is the
    reader handed over: [None] for a nil reader, [Some b] for a reader with
    [b] still unread.  The request carries what is unread at this moment. *)
Definition NewRequest (method url : string) (body : option bytes)
  : result Request :=
  if http_NewRequest_ok rt method url
  then Ok (mkRequest method url ∅ (default [] body))
  else Err (LibError "net/http" "invalid method or URL").

(** The retry loop of [doRequest].  [n] counts the iterations that
    [attempt <= c.maxRetries] still allows; [body] is the one buffer made
    before the loop, which every attempt's request reads from and which
    [Do] advances. *)
Fixpoint attempts (c : Client) (method url : string)
    (headers : gmap string string) (n : nat) (attempt : Z)
    (lastErr : option error) (body : option bytes)
  : M (option Response * option error) :=
  match n with
  | O => ret (None, lastErr)
  | S n' =>
      match NewRequest method url body with
      | Err e => ret (None, Some (Wrapf "failed to create request" e))
      | Ok req0 =>
          match applyHeaders c req0 headers with
          | Err e => ret (None, Some (Wrapf "failed to apply headers" e))
          | Ok req =>
              let* r := Do rt req in
              let body' := option_map (dropZ (rt_read r)) body in
              match rt_result r with
              | Err e =>
                  if attempt <? maxRetries c
                  then Sleep (wrap64 (retryDelay c * (attempt + 1))) >>
                       attempts c method url headers n' (attempt + 1) (Some e) body'
                  else ret (None,
                            Some (Wrapf ("request failed after "
                                         +:+ itoa (wrap64 (maxRetries c + 1))
                                         +:+ " attempts") e))
              | Ok resp =>
                  if shouldRetry (resp_StatusCode resp) && (attempt <? maxRetries c)
                  then Sleep (wrap64 (retryDelay c * (attempt + 1))) >>
                       attempts c method url headers n' (attempt + 1) lastErr body'
                  else ret (Some resp, None)
              end
          end
      end
  end.

(** [doRequest]. *)
Definition doRequest (c : Client) (method endpoint : string)
    (payload : option Payload) (headers : gmap string string)
  : M (option Response * option error) :=
  let url := baseURL c +:+ endpoint in
  let loop := attempts c method url headers (Z.to_nat (maxRetries c + 1)) 0 None in
  match payload with
  | None => loop None
  | Some p =>
      match json_Marshal rt p with
      | Err e => ret (None, Some (Wrapf "failed to marshal payload" e))
      | Ok jsonData => loop (Some jsonData)
      end
  end.

(** [GET], [POST], [PUT], [DELETE]. *)
Definition GET c endpoint headers := doRequest c "GET" endpoint None headers.
Definition POST c endpoint payload headers :=
  doRequest c "POST" endpoint (Some payload) headers.
Definition PUT c endpoint payload headers :=
  doRequest c "PUT" endpoint (Some payload) headers.
Definition DELETE c endpoint headers := doRequest c "DELETE" endpoint None headers.

(** [parseJSONResponse], for a target type [T] with its JSON decoder. *)
Definition parseJSONResponse {T} (unmarshal : bytes -> result T)
    (resp : Response) : result T :=
  match body_err (resp_Body resp) with
  | Some e => Err (Wrapf "failed to read response body" e)
  | None =>
      let body := body_data (resp_Body resp) in
      if 400 <=? resp_StatusCode resp then
        match json_Unmarshal_APIError rt body with
        | Ok apiErr =>
            if negb (String.eqb (Message apiErr) "")
            then Err (ErrAPI (mkAPIError (resp_StatusCode resp) (Message apiErr)))
            else Err (ErrAPI (mkAPIError (resp_StatusCode resp)
                                         (string_of_list_byte body)))
        | Err _ =>
            Err (ErrAPI (mkAPIError (resp_StatusCode resp)
                                    (string_of_list_byte body)))
        end
      else
        match unmarshal body with
        | Err e => Err (Wrapf "failed to unmarshal response" e)
        | Ok v => Ok v
        end
  end.

(** [TypedRequestBuilder], [PostJSON] and [As]. *)
Record TypedRequestBuilder := mkTypedRequestBuilder {
  rb_client : Client;
  rb_method : string;
  rb_endpoint : string;
  rb_headers : gmap string string;
  rb_payload : option Payload
}.

Definition GetJSON (c : Client) (endpoint : string)
    (headers : gmap string string) : TypedRequestBuilder :=
  mkTypedRequestBuilder c "GET" endpoint headers None.

Definition PostJSON (c : Client) (endpoint : string) (payload : Payload)
    (headers : gmap string string) : TypedRequestBuilder :=
  mkTypedRequestBuilder c "POST" endpoint headers (Some payload).

(** [As[T](rb)].  When [doRequest] returns neither a response nor an error,
    [parseJSONResponse] dereferences a nil response. *)
Definition As {T} (unmarshal : bytes -> result T) (rb : TypedRequestBuilder)
  : M (result T) :=
  let* r := doRequest (rb_client rb) (rb_method rb) (rb_endpoint rb)
                      (rb_payload rb) (rb_headers rb) in
  match r with
  | (_, Some err) => ret (Err err)
  | (Some resp, None) => ret (parseJSONResponse unmarshal resp)
  | (None, None) => panic "invalid memory address or nil pointer dereference"
  end.

End Transport.

End HttpClient.

(* ===================================================================== *)
(** * pkg/imageutil *)

Module ImageUtil.

(** ** float64

    Go's [float64] is IEEE 754 binary64 with round-to-nearest-even, which is
    what Rocq's primitive floats are. *)

(** The conversion [float64(z)] of an [int]. *)
Definition float64_of_int (z : Z) : float :=
  if z =? min_int then PrimFloat.opp (PrimFloat.mul (PrimFloat.of_uint63 (Uint63.of_Z (2 ^ 62))) 2)
  else if z <? 0 then PrimFloat.opp (PrimFloat.of_uint63 (Uint63.of_Z (- z)))
  else PrimFloat.of_uint63 (Uint63.of_Z z).

(** The conversion [int(f)]: the fraction is discarded.  For a value that
    does not fit (or NaN) the language leaves the result to the
    implementation; amd64 gives the least integer. *)
Definition int_of_float64 (f : float) : Z :=
  match Prim2SF f with
  | S754_zero _ => 0
  | S754_finite s m e =>
      let mag := if 0 <=? e then Z.pos m * 2 ^ e else Z.pos m / 2 ^ (- e) in
      let v := if s then - mag else mag in
      if (min_int <=? v) && (v <=? max_int) then v else min_int
  | _ => min_int
  end.

Record ProcessorConfig := mkProcessorConfig {
  MaxWidth : Z;
  MaxHeight : Z;
  Timeout : Z;
  JPEGQuality : Z;
  UserAgent : string
}.

Definition DefaultConfig : ProcessorConfig :=
  mkProcessorConfig 1024 1024 (30 * HttpClient.Second) 90 "Gaia-MCP-Go/1.0".

(** A [Processor] is its configuration (its HTTP client only carries the
    configured timeout). *)
Record Processor := mkProcessor { config : ProcessorConfig }.

Definition NewProcessor (cfg : ProcessorConfig) : Processor := mkProcessor cfg.
Definition NewDefaultProcessor : Processor := NewProcessor DefaultConfig.

(** The scaling factor computed by [resizeImage]. *)
Definition scaleFactor (maxWidth maxHeight srcWidth srcHeight : Z) : float :=
  let scaleX := PrimFloat.div (float64_of_int maxWidth) (float64_of_int srcWidth) in
  let scaleY := PrimFloat.div (float64_of_int maxHeight) (float64_of_int srcHeight) in
  if PrimFloat.ltb scaleY scaleX then scaleY else scaleX.

(** ** The destination of a rescale

    [image.NewRGBA(image.Rect(0, 0, w, h))].  [image.Rect] orders the
    corners, so the sides of the rectangle are [|w|] and [|h|], in [int]
    arithmetic.  [NewRGBA] computes the length of the pixel buffer,
    [4*Dx*Dy], with [mul3NonNeg] and panics when that fails; [make] then
    panics when the length is more than the runtime can allocate
    ([maxAlloc], 2^48 bytes on linux/amd64).  Memory below that limit is
    taken to be available. *)
Definition mul3NonNeg (x y z : Z) : Z :=
  if (x <? 0) || (y <? 0) || (z <? 0) then -1
  else if 2 ^ 64 <=? x * y then -1
  else if 2 ^ 64 <=? x * y * z then -1
  else if 2 ^ 63 <=? x * y * z then -1
  else x * y * z.

Definition pixelBufferLength (bytesPerPixel dx dy : Z) : Outcome Z :=
  let totalLength := mul3NonNeg bytesPerPixel dx dy in
  if totalLength <? 0
  then Panic "image: NewRGBA Rectangle has huge or negative dimensions"
  else Val totalLength.

Definition maxAlloc : Z := 2 ^ 48.

(** The length of the buffer [NewRGBA] allocates for corners [(0, 0)] and
    [(w, h)], or the panic it ends in. *)
Definition NewRGBA (w h : Z) : Outcome Z :=
  match pixelBufferLength 4 (wrap64 (Z.abs w)) (wrap64 (Z.abs h)) with
  | Panic msg => Panic msg
  | Val n =>
      if maxAlloc <? n then Panic "runtime error: makeslice: len out of range"
      else Val n
  end.

(** [resizeImage]. *)
Definition resizeImage (p : Processor) (src : Image) : Outcome Image :=
  let srcWidth := Dx src in
  let srcHeight := Dy src in
  let maxWidth := MaxWidth (config p) in
  let maxHeight := MaxHeight (config p) in
  if (srcWidth <=? maxWidth) && (srcHeight <=? maxHeight) then Val src
  else
    let scale := scaleFactor maxWidth maxHeight srcWidth srcHeight in
    let newWidth := int_of_float64 (PrimFloat.mul (float64_of_int srcWidth) scale) in
    let newHeight := int_of_float64 (PrimFloat.mul (float64_of_int srcHeight) scale) in
    match NewRGBA newWidth newHeight with
    | Panic msg => Panic msg
    | Val _ => Val (BiLinearScaled newWidth newHeight src)
    end.

Section Acquisition.

Variable rt : GoRuntime.

(** [downloadImage]. *)
Definition downloadImage (p : Processor) (url : string)
  : M (result (Image * string)) :=
  match HttpClient.NewRequest rt "GET" url None with
  | Err e => ret (Err (Wrapf "creating request" e))
  | Ok req0 =>
      let req := HttpClient.req_Set req0 "User-Agent" (UserAgent (config p)) in
      let* r := Do rt req in
      match rt_result r with
      | Err e => ret (Err (Wrapf "downloading image" e))
      | Ok resp =>
          if negb (resp_StatusCode resp =? 200)
          then ret (Err (Errorf ("unexpected status code: "
                                 +:+ itoa (resp_StatusCode resp))))
          else
            match body_err (resp_Body resp) with
            | Some e => ret (Err (Wrapf "reading response body" e))
            | None =>
                match image_Decode rt (body_data (resp_Body resp)) with
                | Err e => ret (Err (Wrapf "decoding image" e))
                | Ok (img, format) => ret (Ok (img, format))
                end
            end
      end
  end.

Definition DownloadImage := downloadImage.

(** [encodeImageToBase64Pure]. *)
Definition encodeImageToBase64Pure (p : Processor) (img : Image)
    (format : string) : result (string * string) :=
  if String.eqb format "jpeg" || String.eqb format "jpg" then
    match jpeg_Encode rt (JPEGQuality (config p)) img with
    | Err e => Err (Wrapf "encoding JPEG" e)
    | Ok buf => Ok (base64_EncodeToString rt buf, "image/jpeg")
    end
  else
    match png_Encode rt img with
    | Err e => Err (Wrapf "encoding PNG" e)
    | Ok buf => Ok (base64_EncodeToString rt buf, "image/png")
    end.

(** [ProcessImageFromURLForMCP]. *)
Definition ProcessImageFromURLForMCP (p : Processor) (imageURL : string)
  : M (result (string * string)) :=
  let* d := downloadImage p imageURL in
  match d with
  | Err e => ret (Err (Wrapf "downloading image" e))
  | Ok (img, format) =>
      match resizeImage p img with
      | Panic msg => panic msg
      | Val resizedImg =>
          match encodeImageToBase64Pure p resizedImg format with
          | Err e => ret (Err (Wrapf "encoding image to base64" e))
          | Ok r => ret (Ok r)
          end
      end
  end.

(** [ProcessImageNoResizeForMCP]. *)
Definition ProcessImageNoResizeForMCP (imageURL : string)
  : M (result (string * string)) :=
  let cfg := mkProcessorConfig 100000 100000 (Timeout DefaultConfig)
                               (JPEGQuality DefaultConfig) (UserAgent DefaultConfig) in
  ProcessImageFromURLForMCP (NewProcessor cfg) imageURL.

(** [GetImageDimensions]. *)
Definition GetImageDimensions (imageURL : string) : M (result (Z * Z)) :=
  let* d := DownloadImage NewDefaultProcessor imageURL in
  match d with
  | Err e => ret (Err (Wrapf "downloading image" e))
  | Ok (img, _) => ret (Ok (Dx img, Dy img))
  end.

End Acquisition.

End ImageUtil.

(* ===================================================================== *)
(** * internal/api *)

Module Api.

Definition CHUNK_SIZE : Z := 1024 * 1024 * 10.

Record GaiaApiConfig := mkGaiaApiConfig { BaseUrl : string; ApiKey : string }.

(** [gaiaApi] holds the client only. *)
Record gaiaApi := mkGaiaApi { client : HttpClient.Client }.

(** [NewGaiaApi]. *)
Definition NewGaiaApi (cfg : GaiaApiConfig) : gaiaApi :=
  mkGaiaApi
    (HttpClient.New
       (HttpClient.mkConfig (BaseUrl cfg) 0 0 0 false
          {[ "Authorization" := "Bearer " +:+ ApiKey cfg ]})).

(** The outcome of one image of a batch: the uploaded file, or the entry
    appended to [failedFiles]. *)
Inductive ImageResult : Type :=
| Uploaded (file : UploadFile)
| Failed (url reason : string).

(** The two pre-sized slices the chunk tasks write into. *)
Record Slots := mkSlots {
  uploadParts : list (option UploadPart);
  uploadErrs : list (option error)
}.

(** Chunk boundaries of task [i] for a buffer of [n] bytes. *)
Definition chunkBounds (i n : Z) : Z * Z :=
  let start := wrap64 (i * CHUNK_SIZE) in
  let end_ := wrap64 (start + CHUNK_SIZE) in
  (start, if end_ >? n then n else end_).

(** [time.Now().Unix()]. *)
Definition Now_Unix (rt : GoRuntime) : M Z :=
  fun w => (Val (time_Now_Unix rt (sent w)), w).

Section Upload.

Variable rt : GoRuntime.

(** [processImage]. *)
Definition processImage (a : gaiaApi) (imageUrl : string)
  : M (result (bytes * string * Z * Z)) :=
  let* p := ImageUtil.ProcessImageNoResizeForMCP rt imageUrl in
  match p with
  | Err e => ret (Err (Wrapf "failed to process image" e))
  | Ok (base64Data, mimeType) =>
      match base64_DecodeString rt base64Data with
      | Err e => ret (Err (Wrapf "failed to decode base64 data" e))
      | Ok imageData =>
          let* d := ImageUtil.GetImageDimensions rt imageUrl in
          match d with
          | Err e => ret (Err (Wrapf "failed to get image dimensions" e))
          | Ok (w, h) => ret (Ok (imageData, mimeType, w, h))
          end
      end
  end.

(** ** The orchestration shared by both revisions of the file *)

Section Orchestrator.

Variable initUploadImage :
  gaiaApi -> bytes -> Z -> Z -> string -> M (result InitUploadResponse).
Variable uploadChunk :
  gaiaApi -> bytes -> string -> Z -> M (result UploadPart).
Variable completeUpload :
  gaiaApi -> string -> string -> list UploadPart -> M (option error).

(** The body of one chunk goroutine, for index [i] and destination [url]. *)
Definition chunkTask (a : gaiaApi) (imageData : bytes) (i : nat)
    (url : string) (s : Slots) : M Slots :=
  let '(start, end_) := chunkBounds (Z.of_nat i) (len imageData) in
  match slice imageData start end_ with
  | None => panic "slice bounds out of range"
  | Some chunk =>
      let partNumber := wrap64 (Z.of_nat i + 1) in
      let* r := uploadChunk a chunk url partNumber in
      match r with
      | Err err => ret (mkSlots (uploadParts s) (<[i := Some err]> (uploadErrs s)))
      | Ok part => ret (mkSlots (<[i := Some part]> (uploadParts s)) (uploadErrs s))
      end
  end.

(** The goroutines started by the loop over [UploadUrls] and joined by
    [wg.Wait()].  Each writes its own slot only, so they are run here one
    after the other, from index [i] on; a panic in one ends the process. *)
Fixpoint dispatch (a : gaiaApi) (imageData : bytes) (i : nat)
    (urls : list string) (s : Slots) : M Slots :=
  match urls with
  | [] => ret s
  | url :: rest =>
      let* s' := chunkTask a imageData i url s in
      dispatch a imageData (S i) rest s'
  end.

Definition hasErrors (s : Slots) : bool :=
  existsb (fun e => match e with Some _ => true | None => false end) (uploadErrs s).

(** "Convert to slice without nil pointers". *)
Definition nonNilParts (s : Slots) : list UploadPart := omap id (uploadParts s).

(** The code after [wg.Wait()] for one image. *)
Definition finish (a : gaiaApi) (imageUrl : string)
    (init : InitUploadResponse) (s : Slots) : M ImageResult :=
  if hasErrors s then ret (Failed imageUrl "Failed to upload some chunks")
  else
    let* e := completeUpload a (Key init) (UploadId init) (nonNilParts s) in
    match e with
    | Some err => ret (Failed imageUrl (Error err))
    | None => ret (Uploaded (File init))
    end.

(** One iteration of the loop over [imageUrls]. *)
Definition uploadImage (a : gaiaApi) (associatedResource imageUrl : string)
  : M ImageResult :=
  if negb (HasPrefix imageUrl "http")
  then ret (Failed imageUrl "URL must start with http:// or https://")
  else
    let* p := processImage a imageUrl in
    match p with
    | Err err => ret (Failed imageUrl (Error err))
    | Ok (imageData, _, w, h) =>
        let* ini := initUploadImage a imageData w h associatedResource in
        match ini with
        | Err err => ret (Failed imageUrl (Error err))
        | Ok init =>
            let n := length (UploadUrls init) in
            let* s := dispatch a imageData 0 (UploadUrls init)
                               (mkSlots (replicate n None) (replicate n None)) in
            finish a imageUrl init s
        end
    end.

Fixpoint uploadLoop (a : gaiaApi) (associatedResource : string)
    (imageUrls : list string) (uploadedFiles : list UploadFile)
    (failedFiles : list (string * string))
  : M (list UploadFile * list (string * string)) :=
  match imageUrls with
  | [] => ret (uploadedFiles, failedFiles)
  | imageUrl :: rest =>
      let* r := uploadImage a associatedResource imageUrl in
      match r with
      | Uploaded file =>
          uploadLoop a associatedResource rest (uploadedFiles ++ [file]) failedFiles
      | Failed url reason =>
          uploadLoop a associatedResource rest uploadedFiles
                     (failedFiles ++ [(url, reason)])
      end
  end.

(** [UploadImages]. *)
Definition UploadImages (a : gaiaApi) (imageUrls : list string)
    (associatedResource : string) : M (result (list UploadFile)) :=
  let* r := uploadLoop a associatedResource imageUrls [] [] in
  let '(uploadedFiles, failedFiles) := r in
  if 0 <? len failedFiles then ret (Err (FailedFiles failedFiles))
  else ret (Ok uploadedFiles).

End Orchestrator.

End Upload.

(** ** src/internal/api/api.go *)

Module V1.

Section WithRuntime.

Variable rt : GoRuntime.

(** [initUploadImage]: the payload is marshalled here and the bytes are
    handed to [PostJSON] as the payload. *)
Definition initUploadImage (a : gaiaApi) (imageData : bytes) (w h : Z)
    (associatedResource : string) : M (result InitUploadResponse) :=
  let* now := Now_Unix rt in
  let payload := PInitUpload ("image_" +:+ itoa now +:+ ".png") w h
                             (len imageData) associatedResource CHUNK_SIZE in
  match json_Marshal rt payload with
  | Err e => ret (Err (Wrapf "failed to marshal request" e))
  | Ok jsonData =>
      let* r := HttpClient.As rt (json_Unmarshal_Init rt)
                  (HttpClient.PostJSON (client a) "/api/upload/initialize"
                                       (PBytes jsonData) ∅) in
      match r with
      | Err e => ret (Err (Wrapf "failed to send request" e))
      | Ok initUploadResponse => ret (Ok initUploadResponse)
      end
  end.

(** [uploadChunk]: through the client's [PUT]. *)
Definition uploadChunk (a : gaiaApi) (chunk : bytes) (url : string)
    (partNumber : Z) : M (result UploadPart) :=
  let* r := HttpClient.PUT rt (client a) url (PBytes chunk)
              {[ "Content-Type" := "application/octet-stream" ]} in
  match r with
  | (_, Some err) =>
      ret (Err (Wrapf ("failed to upload chunk " +:+ itoa partNumber) err))
  | (Some req, None) =>
      ret (Ok (mkUploadPart (HttpClient.Header_Get (resp_Header req) "ETag")
                            partNumber))
  | (None, None) => panic "invalid memory address or nil pointer dereference"
  end.

(** [completeUpload].  (The message of the last error formats the body
    reader with the verb for strings; that rendering is left out.) *)
Definition completeUpload (a : gaiaApi) (key uploadId : string)
    (parts : list UploadPart) : M (option error) :=
  match json_Marshal rt (PComplete key uploadId parts) with
  | Err e => ret (Some (Wrapf "failed to marshal request" e))
  | Ok jsonData =>
      let* r := HttpClient.POST rt (client a) "/api/upload/complete"
                                (PBytes jsonData) ∅ in
      match r with
      | (_, Some err) => ret (Some (Wrapf "failed to send request" err))
      | (Some res, None) =>
          if negb (resp_StatusCode res =? 200)
          then ret (Some (Errorf "failed to complete upload"))
          else ret None
      | (None, None) => panic "invalid memory address or nil pointer dereference"
      end
  end.

Definition UploadImages :=
  UploadImages rt initUploadImage uploadChunk completeUpload.

End WithRuntime.

End V1.

(** ** src/unnamed/part_006 (and part_008, where the constant is
    [shared.UPLOAD_CHUNK_SIZE]) *)

Module V2.

Section WithRuntime.

Variable rt : GoRuntime.

(** [initUploadImage]: the service answers with a list, of which the first
    element is used. *)
Definition initUploadImage (a : gaiaApi) (imageData : bytes) (w h : Z)
    (associatedResource : string) : M (result InitUploadResponse) :=
  let* now := Now_Unix rt in
  let payload := PInitUpload ("image_" +:+ itoa now +:+ ".png") w h
                             (len imageData) associatedResource CHUNK_SIZE in
  let* r := HttpClient.As rt (json_Unmarshal_InitList rt)
              (HttpClient.PostJSON (client a) "/api/upload/initialize" payload ∅) in
  match r with
  | Err e => ret (Err (Wrapf "failed to send request" e))
  | Ok initUploadResponses =>
      match initUploadResponses with
      | [] => ret (Err (Errorf "no upload responses received"))
      | first :: _ => ret (Ok first)
      end
  end.

(** [uploadChunk]: a request of its own, straight to the presigned URL. *)
Definition uploadChunk (a : gaiaApi) (chunk : bytes) (url : string)
    (partNumber : Z) : M (result UploadPart) :=
  match HttpClient.NewRequest rt "PUT" url (Some chunk) with
  | Err e =>
      ret (Err (Wrapf ("failed to create request for chunk " +:+ itoa partNumber) e))
  | Ok req0 =>
      let req1 := HttpClient.req_Set req0 "Content-Type" "application/octet-stream" in
      let req := HttpClient.req_Set req1 "Content-Length" (itoa (len chunk)) in
      let* r := Do rt req in
      match rt_result r with
      | Err e =>
          ret (Err (Wrapf ("failed to upload chunk " +:+ itoa partNumber) e))
      | Ok resp =>
          if negb (resp_StatusCode resp =? 200) then
            ret (Err (Errorf ("chunk " +:+ itoa partNumber
                              +:+ " upload failed with status "
                              +:+ itoa (resp_StatusCode resp) +:+ ": "
                              +:+ string_of_list_byte (body_data (resp_Body resp)))))
          else
            let etag := HttpClient.Header_Get (resp_Header resp) "ETag" in
            if String.eqb etag ""
            then ret (Err (Errorf ("missing ETag in response for chunk "
                                   +:+ itoa partNumber)))
            else ret (Ok (mkUploadPart etag partNumber))
      end
  end.

(** [completeUpload]. *)
Definition completeUpload (a : gaiaApi) (key uploadId : string)
    (parts : list UploadPart) : M (option error) :=
  let* r := HttpClient.POST rt (client a) "/api/upload/complete"
                            (PCompleteList key uploadId parts) ∅ in
  match r with
  | (_, Some err) => ret (Some (Wrapf "failed to send request" err))
  | (Some res, None) =>
      match body_err (resp_Body res) with
      | Some err => ret (Some (Wrapf "failed to read response body" err))
      | None =>
          if negb (resp_StatusCode res =? 200) && negb (resp_StatusCode res =? 201)
          then ret (Some (Errorf ("failed to complete upload (status "
                                  +:+ itoa (resp_StatusCode res) +:+ "): "
                                  +:+ string_of_list_byte (body_data (resp_Body res)))))
          else ret None
      end
  | (None, None) => panic "invalid memory address or nil pointer dereference"
  end.

Definition UploadImages :=
  UploadImages rt initUploadImage uploadChunk completeUpload.

End WithRuntime.

End V2.

End Api.

(* ===================================================================== *)
(** * Revisions of internal/api, and what is observed of an upload *)

(** The two revisions of the api file among the sources. *)
Inductive Revision : Type :=
| ApiGo      (* src/internal/api/api.go *)
| Part006.   (* src/unnamed/part_006 *)

Section Revisions.

Variable rt : GoRuntime.

Definition initUploadImageOf (rev : Revision) :=
  match rev with
  | ApiGo => Api.V1.initUploadImage rt
  | Part006 => Api.V2.initUploadImage rt
  end.

Definition uploadChunkOf (rev : Revision) :=
  match rev with
  | ApiGo => Api.V1.uploadChunk rt
  | Part006 => Api.V2.uploadChunk rt
  end.

Definition completeUploadOf (rev : Revision) :=
  match rev with
  | ApiGo => Api.V1.completeUpload rt
  | Part006 => Api.V2.completeUpload rt
  end.

Definition chunkTaskOf (rev : Revision) := Api.chunkTask (uploadChunkOf rev).

Definition dispatchOf (rev : Revision) := Api.dispatch (uploadChunkOf rev).

Definition finishOf (rev : Revision) := Api.finish (completeUploadOf rev).

Definition uploadImageOf (rev : Revision) :=
  Api.uploadImage rt (initUploadImageOf rev) (uploadChunkOf rev)
                  (completeUploadOf rev).

Definition UploadImagesOf (rev : Revision) :=
  Api.UploadImages rt (initUploadImageOf rev) (uploadChunkOf rev)
                   (completeUploadOf rev).

End Revisions.

(** The finalize call: a POST to the client's [/api/upload/complete]. *)
Definition is_finalize (a : Api.gaiaApi) (r : Request) : Prop :=
  req_Method r = "POST"
  /\ req_URL r = HttpClient.baseURL (Api.client a) +:+ "/api/upload/complete".

(** Every slot of the error slice is nil and every slot of the part slice
    is filled: each chunk task succeeded. *)
Definition all_succeeded (s : Api.Slots) : Prop :=
  Forall (fun e => e = None) (Api.uploadErrs s)
  /\ Forall (fun p => p <> None) (Api.uploadParts s).

(** Some chunk task recorded a per-part error. *)
Definition some_failed (s : Api.Slots) : Prop :=
  exists (i : nat) (e : error), Api.uploadErrs s !! i = Some (Some e).

(** The empty slots made before the tasks start. *)
Definition emptySlots (n : nat) : Api.Slots :=
  Api.mkSlots (replicate n None) (replicate n None).

(** [m] only appends requests to the world, all of them satisfying [P]. *)
Definition appends {A} (P : Request -> Prop) (m : M A) : Prop :=
  forall w out w',
    m w = (out, w') ->
    exists new, sent w' = sent w ++ new /\ Forall P new.

(** Integer ceiling of [a / b] for positive [b]. *)
Definition ceil_div (a b : Z) : Z := (a + b - 1) / b.

(** Bytes [[i*C, min((i+1)*C, L))] of a buffer. *)
Definition chunk_of (imageData : bytes) (i : Z) : bytes :=
  takeZ (Z.min ((i + 1) * Api.CHUNK_SIZE) (len imageData) - i * Api.CHUNK_SIZE)
        (dropZ (i * Api.CHUNK_SIZE) imageData).

(** The request [uploadChunk] of part_006 makes for a chunk. *)
Definition directPut (url : string) (chunk : bytes) : Request :=
  mkRequest "PUT" url
            (<["Content-Length" := itoa (len chunk)]>
               (<["Content-Type" := "application/octet-stream"]> ∅))
            chunk.

(* ===================================================================== *)
(** * A runtime for running the model on concrete inputs

    The network and the documents the decoders understand are given per
    scenario; encoders are small and fixed.  Base64 is the standard
    alphabet with padding, so a marshalled byte slice reads as Go prints
    it. *)

Module Demo.

Definition quote : string := String "034"%char "".

Definition b64_alphabet : list ascii :=
  list_ascii_of_string
    "ABCDEFGHIJKLMNOPQRSTUVWXYZabcdefghijklmnopqrstuvwxyz0123456789+/".

Definition b64_char (n : N) : ascii := nth (N.to_nat n) b64_alphabet "="%char.

Fixpoint b64_encode (l : bytes) : string :=
  match l with
  | [] => ""
  | [a] =>
      let x := Byte.to_N a in
      String (b64_char (x / 4)) (String (b64_char ((x mod 4) * 16)) "==")
  | [a; b] =>
      let x := Byte.to_N a in
      let y := Byte.to_N b in
      String (b64_char (x / 4))
        (String (b64_char ((x mod 4) * 16 + y / 16))
           (String (b64_char ((y mod 16) * 4)) "="))
  | a :: b :: c :: t =>
      let x := Byte.to_N a in
      let y := Byte.to_N b in
      let z := Byte.to_N c in
      String (b64_char (x / 4))
        (String (b64_char ((x mod 4) * 16 + y / 16))
           (String (b64_char ((y mod 16) * 4 + z / 64))
              (String (b64_char (z mod 64)) (b64_encode t))))
  end%N.

Fixpoint index_of (c : ascii) (l : list ascii) (i : N) : option N :=
  match l with
  | [] => None
  | x :: t => if Ascii.eqb c x then Some i else index_of c t (i + 1)%N
  end.

Definition b64_index (c : ascii) : option N := index_of c b64_alphabet 0%N.

Definition byte_of (n : N) : list byte :=
  match Byte.of_N (n mod 256)%N with Some b => [b] | None => [] end.

Fixpoint b64_decode_chars (l : list ascii) : option bytes :=
  match l with
  | [] => Some []
  | c1 :: c2 :: c3 :: c4 :: t =>
      match b64_index c1, b64_index c2 with
      | Some i1, Some i2 =>
          let b1 := byte_of (i1 * 4 + i2 / 16) in
          if Ascii.eqb c3 "=" then
            if Ascii.eqb c4 "=" then
              match t with [] => Some b1 | _ => None end
            else None
          else
            match b64_index c3 with
            | None => None
            | Some i3 =>
                let b2 := byte_of ((i2 mod 16) * 16 + i3 / 4) in
                if Ascii.eqb c4 "=" then
                  match t with [] => Some (b1 ++ b2) | _ => None end
                else
                  match b64_index c4, b64_decode_chars t with
                  | Some i4, Some rest =>
                      Some (b1 ++ b2 ++ byte_of ((i3 mod 4) * 64 + i4) ++ rest)
                  | _, _ => None
                  end
            end
      | _, _ => None
      end
  | _ => None
  end%N.

Definition b64_decode (s : string) : result bytes :=
  match b64_decode_chars (list_ascii_of_string s) with
  | Some b => Ok b
  | None => Err (LibError "encoding/base64" "illegal base64 data")
  end.

Definition text (s : string) : bytes := list_byte_of_string s.

(** JSON texts of the payloads (without the fields no scenario reads). *)
Definition marshal (p : Payload) : result bytes :=
  match p with
  | PBytes b => Ok (text (quote +:+ b64_encode b +:+ quote))
  | PInitUpload filename w h fileSize assoc chunkSize =>
      Ok (text ("{" +:+ quote +:+ "fileSize" +:+ quote +:+ ":" +:+ itoa fileSize
                +:+ "," +:+ quote +:+ "chunkSize" +:+ quote +:+ ":"
                +:+ itoa chunkSize +:+ "}"))
  | PComplete key uploadId parts =>
      Ok (text ("{" +:+ quote +:+ "uploadId" +:+ quote +:+ ":" +:+ quote
                +:+ uploadId +:+ quote +:+ "," +:+ quote +:+ "parts" +:+ quote
                +:+ ":" +:+ itoa (len parts) +:+ "}"))
  | PCompleteList key uploadId parts =>
      Ok (text ("[{" +:+ quote +:+ "uploadId" +:+ quote +:+ ":" +:+ quote
                +:+ uploadId +:+ quote +:+ "," +:+ quote +:+ "parts" +:+ quote
                +:+ ":" +:+ itoa (len parts) +:+ "}]"))
  | PRawJSON doc => Ok doc
  end.

(** A decoder given by its graph on the documents of a scenario. *)
Fixpoint lookup_doc {A} (docs : list (string * A)) (body : bytes) : result A :=
  match docs with
  | [] => Err (LibError "encoding/json" "invalid character")
  | (d, v) :: rest =>
      if String.eqb d (string_of_list_byte body) then Ok v
      else lookup_doc rest body
  end.

Definition printable (c : ascii) : bool :=
  let n := nat_of_ascii c in Nat.ltb 32 n && Nat.ltb n 127.

Definition request_ok (method url : string) : bool :=
  negb (String.eqb method "") && forallb printable (list_ascii_of_string url).

(** A raster format of two header bytes (width, height) then pixels. *)
Definition decode_image (b : bytes) : result (Image * string) :=
  match b with
  | w :: h :: px => Ok (Decoded (Z.of_N (Byte.to_N w)) (Z.of_N (Byte.to_N h)) px, "png")
  | _ => Err (LibError "image" "unknown format")
  end.

Definition encode_image (img : Image) : result bytes :=
  match img with
  | Decoded w h px => Ok (byte_of (Z.to_N w) ++ byte_of (Z.to_N h) ++ px)
  | BiLinearScaled w h src => Ok (byte_of (Z.to_N w) ++ byte_of (Z.to_N h))
  end.

Definition runtime (net : list Request -> Request -> RoundTrip)
    (errorDocs : list (string * APIError))
    (initDocs : list (string * InitUploadResponse))
    (initListDocs : list (string * list InitUploadResponse)) : GoRuntime :=
  mkGoRuntime marshal (lookup_doc errorDocs) (lookup_doc initDocs)
              (lookup_doc initListDocs) request_ok net decode_image
              encode_image (fun _ => encode_image) b64_encode b64_decode
              (fun _ => 1700000000).

(** A response with a fully read body; the client has written the whole
    request body. *)
Definition respond (req : Request) (status : Z) (hdr : gmap string string)
    (body : string) : RoundTrip :=
  mkRoundTrip (len (req_Body req))
              (Ok (mkResponse status hdr (mkBody (text body) None))).

(** A failure of the client before anything is written. *)
Definition refuse (msg : string) : RoundTrip :=
  mkRoundTrip 0 (Err (LibError "net/http" msg)).

End Demo.

(* ===================================================================== *)
(** * Conditions on the environment used in the statements *)

(** The remote endpoint answers every request with status 503 and a body
    that can be read. *)
Definition always_503 (rt : GoRuntime) : Prop :=
  forall hist req, exists k hdr body,
    http_Do rt hist req
    = mkRoundTrip k (Ok (mkResponse 503 hdr (mkBody body None))).

(** The request of a call can be built: the payload marshals, the method
    and URL are accepted, no interceptor fails. *)
Definition constructible (rt : GoRuntime) (c : HttpClient.Client)
    (method endpoint : string) (payload : option Payload) : Prop :=
  http_NewRequest_ok rt method (HttpClient.baseURL c +:+ endpoint) = true
  /\ (forall req, exists req',
         HttpClient.runInterceptors (HttpClient.headerInterceptors c) req = Ok req')
  /\ match payload with
     | None => True
     | Some p => exists b, json_Marshal rt p = Ok b
     end.

(* ===================================================================== *)
(** * Concrete scenarios *)

Module Scenario.

Import HttpClient.

(** The client [NewGaiaApi] builds for a test service. *)
Definition cfg : Api.GaiaApiConfig :=
  Api.mkGaiaApiConfig "https://api.gaia.test" "test-key".

Definition api : Api.gaiaApi := Api.NewGaiaApi cfg.

(** A service that is always busy. *)
Definition busy : list Request -> Request -> RoundTrip :=
  fun hist req => Demo.respond req 503 ∅ "Service Unavailable".

Definition rt_busy : GoRuntime := Demo.runtime busy [] [] [].

(** A service that is busy once, then accepts. *)
Definition busy_once : list Request -> Request -> RoundTrip :=
  fun hist req =>
    match hist with
    | [] => Demo.respond req 503 ∅ "Service Unavailable"
    | _ => Demo.respond req 200 ∅ "{}"
    end.

Definition rt_busy_once : GoRuntime := Demo.runtime busy_once [] [] [].

(** The JSON text of a small task request. *)
Definition task_doc : bytes :=
  Demo.text ("{" +:+ Demo.quote +:+ "prompt" +:+ Demo.quote +:+ ":"
             +:+ Demo.quote +:+ "a cat" +:+ Demo.quote +:+ "}").

Definition task_path : string := "/api/recipe/agi-tasks/create-task".

(** A response whose body cannot be read to the end. *)
Definition broken_500 : Response :=
  mkResponse 500 ∅
    (mkBody [] (Some (LibError "io" "unexpected EOF"))).

(** Responses with readable bodies. *)
Definition error_doc : string :=
  "{" +:+ Demo.quote +:+ "message" +:+ Demo.quote +:+ ":" +:+ Demo.quote
  +:+ "no available credits" +:+ Demo.quote +:+ "}".

Definition rt_errors : GoRuntime :=
  Demo.runtime busy
    [ (error_doc, mkAPIError 0 "no available credits");
      ("{}", mkAPIError 0 "") ]
    [] [].

Definition structured_402 : Response :=
  mkResponse 402 ∅ (mkBody (Demo.text error_doc) None).

Definition empty_object_404 : Response :=
  mkResponse 404 ∅ (mkBody (Demo.text "{}") None).

Definition plain_404 : Response :=
  mkResponse 404 ∅ (mkBody (Demo.text "404 page not found") None).

Definition garbled_200 : Response :=
  mkResponse 200 ∅ (mkBody (Demo.text "<html>") None).

End Scenario.

(* ===================================================================== *)
(** * Reference definitions used in the statements *)

(** The message of the APIError built from an error body: the message
    field of the body when it parses as an APIError with a non-empty
    message, the raw body text otherwise. *)
Definition structured_message (rt : GoRuntime) (body : bytes) : string :=
  match json_Unmarshal_APIError rt body with
  | Ok apiErr =>
      if String.eqb (Message apiErr) "" then string_of_list_byte body
      else Message apiErr
  | Err _ => string_of_list_byte body
  end.

(** The scale of the specification, over the rationals:
    [min(maxWidth/srcWidth, maxHeight/srcHeight)] for positive sources. *)
Definition spec_scale (maxWidth maxHeight srcWidth srcHeight : Z) : Q :=
  Qmin (Qmake maxWidth (Z.to_pos srcWidth)) (Qmake maxHeight (Z.to_pos srcHeight)).

(** Rounding to the nearest integer (of a non-negative rational). *)
Definition Qround_nearest (q : Q) : Z := Qfloor (Qplus q (Qmake 1 2)).

(** The resampled dimensions in the specification's words:
    [round(srcWidth*scale) x round(srcHeight*scale)]. *)
Definition spec_rounded_dims (maxWidth maxHeight srcWidth srcHeight : Z) : Z * Z :=
  let scale := spec_scale maxWidth maxHeight srcWidth srcHeight in
  (Qround_nearest (Qmult (inject_Z srcWidth) scale),
   Qround_nearest (Qmult (inject_Z srcHeight) scale)).

(** The ratio of two [int]s taken in float64. *)
Definition float64_ratio (a b : Z) : float :=
  PrimFloat.div (ImageUtil.float64_of_int a) (ImageUtil.float64_of_int b).

(** The smaller of two float64 values. *)
Definition float64_min (x y : float) : float :=
  if PrimFloat.leb x y then x else y.

(** The scale of the specification taken in float64:
    [min(maxWidth/srcWidth, maxHeight/srcHeight)]. *)
Definition spec_scale_float64 (maxWidth maxHeight srcWidth srcHeight : Z) : float :=
  float64_min (float64_ratio maxWidth srcWidth) (float64_ratio maxHeight srcHeight).

(** The dimensions of the amended specification:
    [srcWidth*scale x srcHeight*scale] with that scale, the products
    taken in float64 and their fractions discarded. *)
Definition truncated_dims (maxWidth maxHeight srcWidth srcHeight : Z) : Z * Z :=
  let scale := spec_scale_float64 maxWidth maxHeight srcWidth srcHeight in
  (ImageUtil.int_of_float64
     (PrimFloat.mul (ImageUtil.float64_of_int srcWidth) scale),
   ImageUtil.int_of_float64
     (PrimFloat.mul (ImageUtil.float64_of_int srcHeight) scale)).

(** A destination of [w] by [h] pixels can be allocated: the sides fit the
    64-bit products of [mul3NonNeg] and the buffer of [4*|w|*|h|] bytes is
    within [maxAlloc]. *)
Definition allocatable (w h : Z) : Prop :=
  Z.abs w < 2 ^ 62 /\ Z.abs h < 2 ^ 63 /\ 4 * Z.abs w * Z.abs h <= 2 ^ 48.

Module UploadScenario.

Import HttpClient.

Definition api : Api.gaiaApi := Scenario.api.

(** A 2x2 image in the raster format of [Demo]: six bytes. *)
Definition cat_bytes : bytes := [x02; x02; x0a; x0b; x0c; x0d].

Definition cat_url : string := "https://img.test/cat.png".

Definition part1_url : string := "https://s3.test/bucket/key?partNumber=1".
Definition part2_url : string := "https://s3.test/bucket/key?partNumber=2".

Definition cat_file : UploadFile :=
  mkUploadFile "file-1" "image_1700000000.png" 6 "image/png" None "user-1"
               "2025-01-01T00:00:00Z" false.

Definition session (urls : list string) : InitUploadResponse :=
  mkInitUploadResponse "uploads/key" "image_1700000000.png" "upload-1" urls cat_file.

(** The service: the image host serves the image; initialize answers
    with the document [initDoc]; a part destination answers with status
    [putStatus] and an ETag; complete answers 200.  As Go's transport
    does, the client refuses a URL whose scheme is neither http nor
    https before anything is written. *)
Definition service (initDoc : string) (putStatus : Z)
  : list Request -> Request -> RoundTrip :=
  fun hist req =>
    if negb (HasPrefix (req_URL req) "http://" || HasPrefix (req_URL req) "https://")
    then Demo.refuse "unsupported protocol scheme"
    else if String.eqb (req_Method req) "GET"
    then mkRoundTrip 0 (Ok (mkResponse 200 ∅ (mkBody cat_bytes None)))
    else if String.eqb (req_URL req) "https://api.gaia.test/api/upload/initialize"
    then Demo.respond req 200 ∅ initDoc
    else if String.eqb (req_Method req) "PUT"
    then (if putStatus =? 200
          then Demo.respond req 200 {[ "Etag" := "etag-1" ]} ""
          else Demo.respond req putStatus ∅ "AccessDenied")
    else Demo.respond req 200 ∅ "{}".

(** The documents initialize may answer with: one destination, none,
    two. *)
Definition runtime (initDoc : string) (putStatus : Z) : GoRuntime :=
  Demo.runtime (service initDoc putStatus) []
    [ ("one", session [part1_url]);
      ("none", session []);
      ("two", session [part1_url; part2_url]) ]
    [ ("one", [session [part1_url]]);
      ("none", [session []]);
      ("two", [session [part1_url; part2_url]]) ].

End UploadScenario.

(** Two buffers for the chunk boundaries: one of exactly [CHUNK_SIZE]
    bytes, and one of two chunks and five bytes. *)
Definition exact_chunk : bytes := replicate (Z.to_nat Api.CHUNK_SIZE) x00.

Definition long_buffer : bytes :=
  replicate (Z.to_nat (2 * Api.CHUNK_SIZE + 5)) x00.

Definition part3_url : string := "https://s3.test/bucket/key?partNumber=3".

(** After the join, slot [j] holds the outcome of task [j]: a part with
    partNumber [j+1] and no error, or an error and no part. *)
Definition slot_written (s : Api.Slots) (j : nat) : Prop :=
  (exists part,
      Api.uploadParts s !! j = Some (Some part)
      /\ PartNumber part = wrap64 (Z.of_nat j + 1)
      /\ Api.uploadErrs s !! j = Some None)
  \/ (exists e,
         Api.uploadErrs s !! j = Some (Some e)
         /\ Api.uploadParts s !! j = Some None).

(** Slot [j] is still as [make] left it. *)
Definition slot_empty (s : Api.Slots) (j : nat) : Prop :=
  Api.uploadParts s !! j = Some None /\ Api.uploadErrs s !! j = Some None.

(** A part upload succeeded: the destination answered 200 and returned an
    integrity tag. *)
Definition part_upload_succeeded (r : RoundTrip) : Prop :=
  exists resp,
    rt_result r = Ok resp
    /\ resp_StatusCode resp = 200
    /\ HttpClient.Header_Get (resp_Header resp) "ETag" <> "".

(** Writing slot [i] of the part slice, or of the error slice. *)
Definition record_part (s : Api.Slots) (i : nat) (part : UploadPart) : Api.Slots :=
  Api.mkSlots (<[i := Some part]> (Api.uploadParts s)) (Api.uploadErrs s).

Definition record_error (s : Api.Slots) (i : nat) (e : error) : Api.Slots :=
  Api.mkSlots (Api.uploadParts s) (<[i := Some e]> (Api.uploadErrs s)).

(* ===================================================================== *)
(** * The batch, image by image *)

Section BatchModel.

Variable rt : GoRuntime.

(** The loop body run on each reference in turn, collecting the outcomes
    in order. *)
Fixpoint uploadEach (rev : Revision) (a : Api.gaiaApi) (assoc : string)
    (imageUrls : list string) : M (list Api.ImageResult) :=
  match imageUrls with
  | [] => ret []
  | imageUrl :: rest =>
      let* r := uploadImageOf rt rev a assoc imageUrl in
      let* rs := uploadEach rev a assoc rest in
      ret (r :: rs)
  end.

(** The references [imageUrls] were all handled, one after the other from
    the world [w]: each one by the loop body, in the world its predecessor
    left, the body returning (an uploaded file or a failed entry) every
    time. *)
Inductive handled_in_order (rev : Revision) (a : Api.gaiaApi) (assoc : string)
  : list string -> World -> list Api.ImageResult -> World -> Prop :=
| handled_nil (w : World) :
    handled_in_order rev a assoc [] w [] w
| handled_cons (imageUrl : string) (rest : list string) (w w1 w2 : World)
               (r : Api.ImageResult) (rs : list Api.ImageResult) :
    uploadImageOf rt rev a assoc imageUrl w = (Val r, w1) ->
    handled_in_order rev a assoc rest w1 rs w2 ->
    handled_in_order rev a assoc (imageUrl :: rest) w (r :: rs) w2.

End BatchModel.

(** The files of the images that were uploaded, and the entries of those
    that failed, each in the order of the outcomes. *)
Definition uploaded_of (rs : list Api.ImageResult) : list UploadFile :=
  omap (fun r => match r with Api.Uploaded f => Some f | Api.Failed _ _ => None end) rs.

Definition failed_of (rs : list Api.ImageResult) : list (string * string) :=
  omap (fun r => match r with
                 | Api.Uploaded _ => None
                 | Api.Failed url reason => Some (url, reason)
                 end) rs.

(** The message every reference without the prefix is recorded with. *)
Definition validation_message : string := "URL must start with http:// or https://".

(** The initialize call: a POST to the client's [/api/upload/initialize]. *)
Definition is_initialize (a : Api.gaiaApi) (r : Request) : Prop :=
  req_Method r = "POST"
  /\ req_URL r = HttpClient.baseURL (Api.client a) +:+ "/api/upload/initialize".

(* ===================================================================== *)
(** * pkg/httpclient: configuring the client *)

Module ClientSetup.

Import HttpClient.

(** The client is updated in place in Go; here each method returns the
    updated client. *)
Definition withDefaultHeaders (c : Client) (hs : gmap string string) : Client :=
  mkClient (baseURL c) (timeout c) (maxRetries c) (retryDelay c) (debug c)
           hs (headerInterceptors c).

(** [SetDefaultHeader]. *)
Definition SetDefaultHeader (c : Client) (key value : string) : Client :=
  withDefaultHeaders c (<[key := value]> (defaultHeaders c)).

(** [RemoveDefaultHeader]. *)
Definition RemoveDefaultHeader (c : Client) (key : string) : Client :=
  withDefaultHeaders c (delete key (defaultHeaders c)).

(** [AddHeaderInterceptor]. *)
Definition AddHeaderInterceptor (c : Client) (interceptor : HeaderInterceptor)
  : Client :=
  mkClient (baseURL c) (timeout c) (maxRetries c) (retryDelay c) (debug c)
           (defaultHeaders c) (headerInterceptors c ++ [interceptor]).

(** [SetBearerToken]. *)
Definition SetBearerToken (c : Client) (token : string) : Client :=
  SetDefaultHeader c "Authorization" ("Bearer " +:+ token).

(** The value [req.SetBasicAuth(username, password)] gives the
    Authorization header. *)
Definition basicAuth (rt : GoRuntime) (username password : string) : string :=
  "Basic " +:+ base64_EncodeToString rt
                 (list_byte_of_string (username +:+ ":" +:+ password)).

(** [SetBasicAuth]: an interceptor that calls [req.SetBasicAuth]. *)
Definition SetBasicAuth (rt : GoRuntime) (c : Client) (username password : string)
  : Client :=
  AddHeaderInterceptor c
    (fun req => Ok (req_Set req "Authorization" (basicAuth rt username password))).

End ClientSetup.

(** No two keys of the map have the same canonical form (so the order in
    which the map is ranged over does not matter). *)
Definition canonically_distinct (hs : gmap string string) : Prop :=
  forall k1 k2,
    is_Some (hs !! k1) -> is_Some (hs !! k2) ->
    HttpClient.CanonicalMIMEHeaderKey k1 = HttpClient.CanonicalMIMEHeaderKey k2 ->
    k1 = k2.

(** Some key of the map has the canonical form [K]. *)
Definition mentions (hs : gmap string string) (K : string) : Prop :=
  exists k, is_Some (hs !! k) /\ HttpClient.CanonicalMIMEHeaderKey k = K.

(** The three headers every request starts with. *)
Definition standard_headers : gmap string string :=
  <["User-Agent" := "gaia-mcp-go/1.0"]>
    (<["Accept" := "application/json"]>
       (<["Content-Type" := "application/json"]> ∅)).

(** The body reader [doRequest] makes for a payload. *)
Definition request_body (rt : GoRuntime) (payload : option Payload)
    (body : option bytes) : Prop :=
  match payload with
  | None => body = None
  | Some p => exists jsonData, json_Marshal rt p = Ok jsonData /\ body = Some jsonData
  end.

(** Every call of the HTTP client fails before a response arrives. *)
Definition always_unreachable (rt : GoRuntime) : Prop :=
  forall hist req, exists k e, http_Do rt hist req = mkRoundTrip k (Err e).

(** Every call of the HTTP client fails or is answered with a status the
    transport retries. *)
Definition always_transient (rt : GoRuntime) : Prop :=
  forall hist req,
    match rt_result (http_Do rt hist req) with
    | Ok resp => HttpClient.shouldRetry (resp_StatusCode resp) = true
    | Err _ => True
    end.

(** The pauses of a call in which every attempt is retried:
    [retryDelay * 1, retryDelay * 2, ..., retryDelay * maxRetries]. *)
Definition backoff_schedule (c : HttpClient.Client) : list Z :=
  map (fun i => wrap64 (HttpClient.retryDelay c * Z.of_nat i))
      (seq 1 (Z.to_nat (HttpClient.maxRetries c))).

(** Services for running the transport on concrete inputs. *)
Module TransportScenario.

(** A service that cannot be reached. *)
Definition rt_down : GoRuntime :=
  Demo.runtime (fun _ _ => Demo.refuse "connection refused") [] [] [].

(** A service that answers every request with the same status and body. *)
Definition rt_answering (status : Z) (body : string) : GoRuntime :=
  Demo.runtime (fun _ req => Demo.respond req status ∅ body) [] [] [].

(** An endpoint with the control character DEL in it. *)
Definition bad_endpoint : string := "/api/" +:+ String "127"%char "".

End TransportScenario.

(* ===================================================================== *)
(** * pkg/imageutil: the data-URL entry points *)

Module DataURL.

Import ImageUtil.

Section WithRuntime.

Variable rt : GoRuntime.

(** [encodeImageToBase64]. *)
Definition encodeImageToBase64 (p : Processor) (img : Image) (format : string)
  : result string :=
  match encodeImageToBase64Pure rt p img format with
  | Err e => Err e
  | Ok (encoded, mimeType) => Ok ("data:" +:+ mimeType +:+ ";base64," +:+ encoded)
  end.

(** [ProcessImageFromURL]. *)
Definition ProcessImageFromURL (p : Processor) (imageURL : string)
  : M (result string) :=
  let* d := downloadImage rt p imageURL in
  match d with
  | Err e => ret (Err (Wrapf "downloading image" e))
  | Ok (img, format) =>
      match resizeImage p img with
      | Panic msg => panic msg
      | Val resizedImg =>
          match encodeImageToBase64 p resizedImg format with
          | Err e => ret (Err (Wrapf "encoding image to base64" e))
          | Ok base64Str => ret (Ok base64Str)
          end
      end
  end.

End WithRuntime.

End DataURL.

(** The processor [ProcessImageNoResizeForMCP] builds. *)
Definition no_resize_processor : ImageUtil.Processor :=
  ImageUtil.NewProcessor
    (ImageUtil.mkProcessorConfig 100000 100000
       (ImageUtil.Timeout ImageUtil.DefaultConfig)
       (ImageUtil.JPEGQuality ImageUtil.DefaultConfig)
       (ImageUtil.UserAgent ImageUtil.DefaultConfig)).

(** The request [downloadImage] makes for a reference. *)
Definition download_request (p : ImageUtil.Processor) (url : string) : Request :=
  mkRequest "GET" url
            {[ "User-Agent" := ImageUtil.UserAgent (ImageUtil.config p) ]} [].

(* ===================================================================== *)
(** * internal/tools/upload_image.go *)

Module Tools.

(** The values [encoding/json] decodes into an [interface{}]. *)
Local Unset Elimination Schemes.
Inductive JSONValue : Type :=
| JNull
| JBool (b : bool)
| JNumber (f : float)
| JString (s : string)
| JArray (items : list JSONValue)
| JObject (fields : list (string * JSONValue)).
Local Set Elimination Schemes.

(** [mcp.CallToolResult] with its one text content. *)
Record CallToolResult := mkCallToolResult {
  result_Text : string;
  IsError : bool
}.

Definition NewToolResultError (text : string) : CallToolResult :=
  mkCallToolResult text true.

Definition NewToolResultText (text : string) : CallToolResult :=
  mkCallToolResult text false.

Definition newline : string := String "010"%char "".

(** [shared.FileAssociatedResourceStyle]. *)
Definition FileAssociatedResourceStyle : string := "STYLE".

(** The loop that converts the elements to strings, from index [i]: the
    index of the first element that is not a string, or the strings. *)
Fixpoint toStrings (items : list JSONValue) (i : Z) : Z + list string :=
  match items with
  | [] => inr []
  | JString urlStr :: rest =>
      match toStrings rest (i + 1) with
      | inl j => inl j
      | inr imageUrls => inr (urlStr :: imageUrls)
      end
  | _ :: _ => inl i
  end.

(** The text of a successful result. *)
Definition resultMsg (uploadedFiles : list UploadFile) : string :=
  foldl (fun msg file =>
           match file_Url file with
           | Some url => msg +:+ "- " +:+ url +:+ newline
           | None => msg
           end)
        ("Uploaded " +:+ itoa (len uploadedFiles) +:+ " images successfully"
         +:+ newline +:+ "File urls:" +:+ newline)
        uploadedFiles.

Section WithRuntime.

Variable rt : GoRuntime.

(** [Handler], for a tool over the API of revision [rev]. *)
Definition Handler (rev : Revision) (a : Api.gaiaApi)
    (args : gmap string JSONValue) : M CallToolResult :=
  match args !! "image_urls" with
  | None => ret (NewToolResultError "image_urls parameter is required")
  | Some (JArray imageUrlsInterface) =>
      match toStrings imageUrlsInterface 0 with
      | inl i =>
          ret (NewToolResultError ("image_urls[" +:+ itoa i +:+ "] must be a string"))
      | inr imageUrls =>
          let* r := UploadImagesOf rt rev a imageUrls FileAssociatedResourceStyle in
          match r with
          | Err err => ret (NewToolResultError (Error err))
          | Ok uploadedFiles => ret (NewToolResultText (resultMsg uploadedFiles))
          end
      end
  | Some _ => ret (NewToolResultError "image_urls must be an array")
  end.

End WithRuntime.

(** Whether a decoded value is a string. *)
Definition isString (v : JSONValue) : bool :=
  match v with JString _ => true | _ => false end.

End Tools.

(** [body] is the JSON encoding of the JSON encoding of [p]: what
    [json.Marshal] makes of the byte slice [json.Marshal] made of [p]. *)
Definition marshalled_twice (rt : GoRuntime) (p : Payload) (body : bytes) : Prop :=
  exists jsonData,
    json_Marshal rt p = Ok jsonData /\ json_Marshal rt (PBytes jsonData) = Ok body.

(* ===================================================================== *)
(** * Properties of the transport *)

Section TransportFacts.

Import HttpClient.

Variable rt : GoRuntime.

Lemma Do_run (req : Request) (w : World) :
  Do rt req w = (Val (http_Do rt (sent w) req), mkWorld (sent w ++ [req]) (slept w)).
Proof. reflexivity. Qed.

Lemma sent_since_app (w w' : World) (new : list Request) :
  sent w' = sent w ++ new -> sent_since w w' = new.
Proof.
  intros E. unfold sent_since. rewrite E. by rewrite drop_app_length.
Qed.

Lemma shouldRetry_503 : shouldRetry 503 = true.
Proof. reflexivity. Qed.

(** One iteration of the retry loop. *)
Lemma attempts_S (c : Client) (method url : string)
    (headers : gmap string string) (n : nat) (attempt : Z)
    (lastErr : option error) (body : option bytes) :
  attempts rt c method url headers (S n) attempt lastErr body
  = match NewRequest rt method url body with
    | Err e => ret (None, Some (Wrapf "failed to create request" e))
    | Ok req0 =>
        match applyHeaders c req0 headers with
        | Err e => ret (None, Some (Wrapf "failed to apply headers" e))
        | Ok req =>
            let* r := Do rt req in
            let body' := option_map (dropZ (rt_read r)) body in
            match rt_result r with
            | Err e =>
                if attempt <? maxRetries c
                then (Sleep (wrap64 (retryDelay c * (attempt + 1))) >>
                      attempts rt c method url headers n (attempt + 1) (Some e) body')
                else ret (None,
                          Some (Wrapf ("request failed after "
                                       +:+ itoa (wrap64 (maxRetries c + 1))
                                       +:+ " attempts") e))
            | Ok resp =>
                if shouldRetry (resp_StatusCode resp) && (attempt <? maxRetries c)
                then (Sleep (wrap64 (retryDelay c * (attempt + 1))) >>
                      attempts rt c method url headers n (attempt + 1) lastErr body')
                else ret (Some resp, None)
            end
        end
    end.
Proof. reflexivity. Qed.

(** When no interceptor fails, [applyHeaders] succeeds. *)
Lemma applyHeaders_ok (c : Client) (req0 : Request) (headers : gmap string string) :
  (forall req, exists req', runInterceptors (headerInterceptors c) req = Ok req') ->
  exists req, applyHeaders c req0 headers = Ok req.
Proof. intros Hic. unfold applyHeaders. apply Hic. Qed.

(** Against an endpoint that always answers 503, the loop started at
    [attempt] with [S n] iterations left uses all of them and hands back
    the response of the last one. *)
Lemma attempts_always_503 (c : Client) (method url : string)
    (headers : gmap string string) :
  always_503 rt ->
  http_NewRequest_ok rt method url = true ->
  (forall req, exists req', runInterceptors (headerInterceptors c) req = Ok req') ->
  forall (n : nat) (attempt : Z) (lastErr : option error) (body : option bytes)
         (w : World),
    Z.of_nat (S n) = maxRetries c + 1 - attempt ->
    exists w' new hist last resp,
      attempts rt c method url headers (S n) attempt lastErr body w
      = (Val (Some resp, None), w')
      /\ sent w' = sent w ++ new
      /\ length new = S n
      /\ sent w' = hist ++ [last]
      /\ rt_result (http_Do rt hist last) = Ok resp
      /\ resp_StatusCode resp = 503
      /\ body_err (resp_Body resp) = None.
Proof.
  intros H503 Hok Hic.
  induction n as [|n IH]; intros attempt lastErr body w Hn;
    rewrite attempts_S; unfold NewRequest; rewrite Hok;
    destruct (applyHeaders_ok c (mkRequest method url ∅ (default [] body))
                headers Hic) as [req ->];
    unfold bind at 1; rewrite Do_run;
    destruct (H503 (sent w) req) as (k & hdr & b & Hdo);
    rewrite Hdo; cbn [rt_result resp_StatusCode rt_read];
    rewrite shouldRetry_503.
  - assert ((attempt <? maxRetries c) = false) as -> by (apply Z.ltb_ge; lia).
    cbn [andb]. unfold ret.
    eexists _, [req], (sent w), req, _.
    split; [reflexivity|].
    cbn [sent]. rewrite Hdo. cbn. done.
  - assert ((attempt <? maxRetries c) = true) as -> by (apply Z.ltb_lt; lia).
    cbn [andb]. unfold bind at 1. unfold Sleep at 1.
    set (w1 := mkWorld _ _).
    destruct (IH (attempt + 1) lastErr (option_map (dropZ k) body) w1)
      as (w' & new & hist & last & resp & Hrun & Hsent & Hlen & Hlast & Hdo' & Hst & Hbe).
    { lia. }
    exists w', (req :: new), hist, last, resp.
    split; [exact Hrun|].
    split.
    { rewrite Hsent. subst w1. cbn [sent]. by rewrite <- app_assoc. }
    split; [cbn; lia|]. done.
Qed.

End TransportFacts.

(** A 503 with a readable body decodes to the APIError carrying that
    status and the message of the body. *)
Lemma parseJSONResponse_503 (rt : GoRuntime) {T} (unmarshal : bytes -> result T)
    (resp : Response) :
  resp_StatusCode resp = 503 ->
  body_err (resp_Body resp) = None ->
  HttpClient.parseJSONResponse rt unmarshal resp
  = Err (ErrAPI (mkAPIError 503
                   (structured_message rt (body_data (resp_Body resp))))).
Proof.
  intros Hst Hbe. unfold HttpClient.parseJSONResponse, structured_message.
  rewrite Hbe, Hst. change (400 <=? 503) with true. cbn iota.
  destruct (json_Unmarshal_APIError rt _) as [apiErr|e]; [|reflexivity].
  by destruct (String.eqb (Message apiErr) "").
Qed.

(** C2, as stated, fails: the number of attempts is not the configured
    MaxRetries plus one.  [New] takes a configured 0 for "not set" and
    makes it 3, so against a service that always answers 503 a client
    configured with MaxRetries 0 makes four attempts, not one. *)
Lemma configured_zero_retries_makes_four_attempts :
  let config := HttpClient.mkConfig "https://api.gaia.test" 0 0 0 false ∅ in
  HttpClient.cfg_MaxRetries config = 0
  /\ always_503 Scenario.rt_busy
  /\ let '(out, w') :=
       HttpClient.doRequest Scenario.rt_busy (HttpClient.New config)
         "GET" Scenario.task_path None ∅ world0 in
     len (sent w') = 4
     /\ len (sent w') <> HttpClient.cfg_MaxRetries config + 1.
Proof.
  split; [reflexivity|]. split.
  - intros hist req. eexists _, _, _. reflexivity.
  - vm_compute. split; [reflexivity|discriminate].
Qed.

(** C2, amended.  Let a client be configured with [MaxRetries >= 0], so
    that it retries [MaxRetries] times, or three times when [MaxRetries]
    was left at 0.  Against an endpoint that answers every attempt with
    status 503 and a body that can be read, a call whose request can be
    built makes exactly that number of attempts plus one; [doRequest]
    hands back the response of the last attempt, and the typed caller
    receives the APIError built from that very response: status 503 and
    the message of its body. *)
Theorem retry_bound_always_503 :
  forall (rt : GoRuntime) (T : Type) (unmarshal : bytes -> result T)
         (config : HttpClient.Config) (c : HttpClient.Client)
         (method endpoint : string)
         (payload : option Payload) (headers : gmap string string) (w : World),
    0 <= HttpClient.cfg_MaxRetries config ->
    HttpClient.maxRetries c = HttpClient.maxRetries (HttpClient.New config) ->
    always_503 rt ->
    constructible rt c method endpoint payload ->
    let retries := if HttpClient.cfg_MaxRetries config =? 0 then 3
                   else HttpClient.cfg_MaxRetries config in
    exists w' hist last resp,
      HttpClient.As rt unmarshal
        (HttpClient.mkTypedRequestBuilder c method endpoint headers payload) w
      = (Val (Err (ErrAPI (mkAPIError 503
                             (structured_message rt
                                (body_data (resp_Body resp)))))), w')
      /\ HttpClient.doRequest rt c method endpoint payload headers w
         = (Val (Some resp, None), w')
      /\ len (sent_since w w') = retries + 1
      /\ sent w' = hist ++ [last]
      /\ rt_result (http_Do rt hist last) = Ok resp
      /\ resp_StatusCode resp = 503.
Proof.
  intros rt T unmarshal config c method endpoint payload headers w Hcfg Hc H503
         (Hok & Hic & Hpay) retries.
  assert (HttpClient.maxRetries c = retries /\ 0 <= retries) as [Hr Hmax].
  { rewrite Hc. subst retries. cbn [HttpClient.New HttpClient.maxRetries].
    destruct (HttpClient.cfg_MaxRetries config =? 0) eqn:E; [lia|].
    apply Z.eqb_neq in E. lia. }
  assert (exists body,
             HttpClient.doRequest rt c method endpoint payload headers
             = HttpClient.attempts rt c method (HttpClient.baseURL c +:+ endpoint)
                 headers (Z.to_nat (HttpClient.maxRetries c + 1)) 0 None body)
    as [body Hdo].
  { unfold HttpClient.doRequest. destruct payload as [p|]; [|eauto].
    destruct Hpay as [b ->]. eauto. }
  destruct (Z.to_nat (HttpClient.maxRetries c + 1)) as [|n] eqn:Hn; [lia|].
  destruct (attempts_always_503 rt c method _ headers H503 Hok Hic n 0 None body w)
    as (w' & new & hist & last & resp & Hrun & Hsent & Hlen & Hlast & Hrt & Hst & Hbe).
  { lia. }
  pose proof (parseJSONResponse_503 rt unmarshal resp Hst Hbe) as Hmsg.
  exists w', hist, last, resp.
  split.
  { unfold HttpClient.As. cbn [HttpClient.rb_client HttpClient.rb_method
      HttpClient.rb_endpoint HttpClient.rb_payload HttpClient.rb_headers].
    unfold bind. rewrite Hdo, Hrun. unfold ret. by rewrite Hmsg. }
  split; [by rewrite Hdo|].
  split.
  { rewrite (sent_since_app w w' new Hsent). unfold len. lia. }
  done.
Qed.

(** The busy service and the client of [NewGaiaApi], which leaves
    MaxRetries at 0: four attempts. *)
Lemma retry_bound_always_503_witness :
  exists w' hist last resp,
    HttpClient.As Scenario.rt_busy (json_Unmarshal_Init Scenario.rt_busy)
      (HttpClient.mkTypedRequestBuilder (Api.client Scenario.api) "POST"
         Scenario.task_path ∅ (Some (PRawJSON Scenario.task_doc))) world0
    = (Val (Err (ErrAPI (mkAPIError 503
                           (structured_message Scenario.rt_busy
                              (body_data (resp_Body resp)))))), w')
    /\ HttpClient.doRequest Scenario.rt_busy (Api.client Scenario.api) "POST"
         Scenario.task_path (Some (PRawJSON Scenario.task_doc)) ∅ world0
       = (Val (Some resp, None), w')
    /\ len (sent_since world0 w') = 3 + 1
    /\ sent w' = hist ++ [last]
    /\ rt_result (http_Do Scenario.rt_busy hist last) = Ok resp
    /\ resp_StatusCode resp = 503.
Proof.
  apply (retry_bound_always_503 Scenario.rt_busy InitUploadResponse
           (json_Unmarshal_Init Scenario.rt_busy)
           (HttpClient.mkConfig "https://api.gaia.test" 0 0 0 false
              {[ "Authorization" := "Bearer test-key" ]})
           (Api.client Scenario.api)
           "POST" Scenario.task_path (Some (PRawJSON Scenario.task_doc)) ∅ world0).
  - vm_compute. discriminate.
  - reflexivity.
  - intros hist req. eexists _, _, _. reflexivity.
  - split; [vm_compute; reflexivity|].
    split; [intros req; eexists; reflexivity|].
    eexists. reflexivity.
Defined.

(** The client made by [New] never has zero retries: a configuration
    that leaves [MaxRetries] at zero gets three. *)
Lemma New_maxRetries (config : HttpClient.Config) :
  HttpClient.maxRetries (HttpClient.New config)
  = if HttpClient.cfg_MaxRetries config =? 0 then 3
    else HttpClient.cfg_MaxRetries config.
Proof. reflexivity. Qed.

(** With a negative [maxRetries] the loop body never runs: nothing is sent
    and [doRequest] returns neither a response nor an error. *)
Lemma doRequest_negative_maxRetries (rt : GoRuntime) (c : HttpClient.Client)
    (method endpoint : string) (headers : gmap string string) (w : World) :
  HttpClient.maxRetries c < 0 ->
  HttpClient.doRequest rt c method endpoint None headers w = (Val (None, None), w).
Proof.
  intros H. unfold HttpClient.doRequest.
  replace (Z.to_nat (HttpClient.maxRetries c + 1)) with O by lia.
  reflexivity.
Qed.

(* ===================================================================== *)
(** * What each operation sends *)

Section Appends.

Variable rt : GoRuntime.

Lemma appends_ret {A} (P : Request -> Prop) (a : A) : appends P (ret a).
Proof.
  intros w out w' E. inversion E; subst. exists []. by rewrite app_nil_r.
Qed.

Lemma appends_panic {A} (P : Request -> Prop) (msg : string) :
  appends P (@panic A msg).
Proof.
  intros w out w' E. inversion E; subst. exists []. by rewrite app_nil_r.
Qed.

Lemma appends_bind {A B} (P : Request -> Prop) (m : M A) (f : A -> M B) :
  appends P m -> (forall a, appends P (f a)) -> appends P (bind m f).
Proof.
  intros Hm Hf w out w' E. unfold bind in E.
  destruct (m w) as [[a|msg] w1] eqn:Em.
  - destruct (Hm _ _ _ Em) as (new1 & E1 & F1).
    destruct (Hf a _ _ _ E) as (new2 & E2 & F2).
    exists (new1 ++ new2). split.
    + by rewrite E2, E1, app_assoc.
    + by apply Forall_app.
  - inversion E; subst. eauto.
Qed.

Lemma appends_weaken {A} (P Q : Request -> Prop) (m : M A) :
  (forall r, P r -> Q r) -> appends P m -> appends Q m.
Proof.
  intros HPQ Hm w out w' E. destruct (Hm _ _ _ E) as (new & E1 & F1).
  exists new. split; [done|]. eapply Forall_impl; eauto.
Qed.

Lemma appends_Do (P : Request -> Prop) (req : Request) :
  P req -> appends P (Do rt req).
Proof.
  intros HP w out w' E. rewrite Do_run in E. inversion E; subst.
  exists [req]. split; [done|]. by constructor.
Qed.

Lemma appends_Sleep (P : Request -> Prop) (d : Z) : appends P (Sleep d).
Proof.
  intros w out w' E. inversion E; subst. exists []. by rewrite app_nil_r.
Qed.

Lemma appends_Now_Unix (P : Request -> Prop) : appends P (Api.Now_Unix rt).
Proof.
  intros w out w' E. inversion E; subst. exists []. by rewrite app_nil_r.
Qed.

(** Setting headers leaves method, URL and body alone. *)
Lemma req_Set_same (r : Request) (k v : string) :
  req_Method (HttpClient.req_Set r k v) = req_Method r
  /\ req_URL (HttpClient.req_Set r k v) = req_URL r
  /\ req_Body (HttpClient.req_Set r k v) = req_Body r.
Proof. done. Qed.

Lemma setAll_same (hs : gmap string string) (r : Request) :
  req_Method (HttpClient.setAll hs r) = req_Method r
  /\ req_URL (HttpClient.setAll hs r) = req_URL r
  /\ req_Body (HttpClient.setAll hs r) = req_Body r.
Proof.
  unfold HttpClient.setAll. generalize (map_to_list hs). intros l.
  revert r. induction l as [|kv l IH]; intros r; [done|].
  cbn [foldl]. destruct (IH (HttpClient.req_Set r kv.1 kv.2)) as (E1 & E2 & E3).
  rewrite E1, E2, E3. done.
Qed.

Lemma applyHeaders_same (c : HttpClient.Client) (r r' : Request)
    (headers : gmap string string) :
  HttpClient.headerInterceptors c = [] ->
  HttpClient.applyHeaders c r headers = Ok r' ->
  req_Method r' = req_Method r /\ req_URL r' = req_URL r
  /\ req_Body r' = req_Body r.
Proof.
  intros Hic E. unfold HttpClient.applyHeaders in E. rewrite Hic in E.
  cbn [HttpClient.runInterceptors] in E. inversion E; subst; clear E.
  destruct (setAll_same headers (HttpClient.setAll (HttpClient.defaultHeaders c)
    (HttpClient.req_Set (HttpClient.req_Set (HttpClient.req_Set r "Content-Type" "application/json")
        "Accept" "application/json") "User-Agent" "gaia-mcp-go/1.0")))
    as (E1 & E2 & E3).
  destruct (setAll_same (HttpClient.defaultHeaders c)
    (HttpClient.req_Set (HttpClient.req_Set (HttpClient.req_Set r "Content-Type" "application/json")
        "Accept" "application/json") "User-Agent" "gaia-mcp-go/1.0"))
    as (E4 & E5 & E6).
  rewrite E1, E2, E3, E4, E5, E6. done.
Qed.

(** Every attempt of a client without interceptors goes out with the
    method and URL of the call. *)
Lemma appends_attempts (c : HttpClient.Client) (method url : string)
    (headers : gmap string string) :
  HttpClient.headerInterceptors c = [] ->
  forall (n : nat) (attempt : Z) (lastErr : option error) (body : option bytes),
    appends (fun r => req_Method r = method /\ req_URL r = url)
            (HttpClient.attempts rt c method url headers n attempt lastErr body).
Proof.
  intros Hic. induction n as [|n IH]; intros attempt lastErr body.
  - apply appends_ret.
  - rewrite attempts_S. unfold HttpClient.NewRequest.
    destruct (http_NewRequest_ok rt method url); [|apply appends_ret].
    destruct (HttpClient.applyHeaders c _ headers) as [req|e] eqn:Eh;
      [|apply appends_ret].
    destruct (applyHeaders_same _ _ _ _ Hic Eh) as (E1 & E2 & _).
    apply appends_bind; [by apply appends_Do|].
    intros r. destruct (rt_result r) as [resp|e].
    + destruct (_ && _); [|apply appends_ret].
      apply appends_bind; [apply appends_Sleep|]. intros _. apply IH.
    + destruct (_ <? _); [|apply appends_ret].
      apply appends_bind; [apply appends_Sleep|]. intros _. apply IH.
Qed.

Lemma appends_doRequest (c : HttpClient.Client) (method endpoint : string)
    (payload : option Payload) (headers : gmap string string) :
  HttpClient.headerInterceptors c = [] ->
  appends (fun r => req_Method r = method
                    /\ req_URL r = HttpClient.baseURL c +:+ endpoint)
          (HttpClient.doRequest rt c method endpoint payload headers).
Proof.
  intros Hic. unfold HttpClient.doRequest.
  destruct payload as [p|]; [|by apply appends_attempts].
  destruct (json_Marshal rt p); [by apply appends_attempts|apply appends_ret].
Qed.

Lemma appends_As {T} (unmarshal : bytes -> result T)
    (rb : HttpClient.TypedRequestBuilder) :
  HttpClient.headerInterceptors (HttpClient.rb_client rb) = [] ->
  appends (fun r => req_Method r = HttpClient.rb_method rb
                    /\ req_URL r = HttpClient.baseURL (HttpClient.rb_client rb)
                                   +:+ HttpClient.rb_endpoint rb)
          (HttpClient.As rt unmarshal rb).
Proof.
  intros Hic. unfold HttpClient.As.
  apply appends_bind; [by apply appends_doRequest|].
  intros [[resp|] [e|]]; first [apply appends_ret | apply appends_panic].
Qed.

End Appends.

(** In general: when an attempt is answered with a retryable status after
    the client has read [k] bytes of the body, the next attempt goes out
    with the same method and URL and with what was left unread as its
    body. *)
Lemma retry_body_is_unread_rest (rt : GoRuntime) (c : HttpClient.Client)
    (method url : string) (headers : gmap string string) (n : nat)
    (attempt : Z) (lastErr : option error) (b : bytes) (w : World)
    (req1 : Request) (k : Z) (resp : Response) :
  HttpClient.headerInterceptors c = [] ->
  http_NewRequest_ok rt method url = true ->
  HttpClient.applyHeaders c (mkRequest method url ∅ b) headers = Ok req1 ->
  http_Do rt (sent w) req1 = mkRoundTrip k (Ok resp) ->
  HttpClient.shouldRetry (resp_StatusCode resp) = true ->
  attempt < HttpClient.maxRetries c ->
  exists out w' req2 rest,
    HttpClient.attempts rt c method url headers (S (S n)) attempt lastErr (Some b) w
    = (out, w')
    /\ sent w' = sent w ++ req1 :: req2 :: rest
    /\ req_Body req1 = b
    /\ req_Body req2 = dropZ k b
    /\ req_Method req2 = req_Method req1
    /\ req_URL req2 = req_URL req1.
Proof.
  intros Hic Hok Hreq1 Hdo Hretry Hlt.
  rewrite attempts_S. unfold HttpClient.NewRequest at 1. rewrite Hok.
  cbn [default from_option id]. rewrite Hreq1.
  unfold bind at 1. rewrite Do_run, Hdo. cbn [rt_result rt_read].
  rewrite Hretry.
  assert ((attempt <? HttpClient.maxRetries c) = true) as -> by (apply Z.ltb_lt; lia).
  cbn [andb option_map]. unfold bind at 1. unfold Sleep at 1.
  rewrite attempts_S. unfold HttpClient.NewRequest at 1. rewrite Hok.
  cbn [default from_option id].
  destruct (HttpClient.applyHeaders c (mkRequest method url ∅ (dropZ k b)) headers)
    as [req2|e] eqn:Hreq2.
  2:{ unfold HttpClient.applyHeaders in Hreq2. rewrite Hic in Hreq2. discriminate. }
  unfold bind at 1. rewrite Do_run. cbn [sent slept].
  set (w2 := mkWorld ((sent w ++ [req1]) ++ [req2]) _).
  set (m := match rt_result _ with Ok _ => _ | Err _ => _ end).
  destruct (m w2) as [out w'] eqn:Em.
  assert (appends (fun r => req_Method r = method /\ req_URL r = url) m) as Happ.
  { subst m. destruct (rt_result _) as [resp2|e2].
    - destruct (_ && _); [|apply appends_ret].
      apply appends_bind; [apply appends_Sleep|]. intros _.
      by apply appends_attempts.
    - destruct (_ <? _); [|apply appends_ret].
      apply appends_bind; [apply appends_Sleep|]. intros _.
      by apply appends_attempts. }
  destruct (Happ _ _ _ Em) as (rest & Hsent & _).
  destruct (applyHeaders_same _ _ _ _ Hic Hreq1) as (M1 & U1 & B1).
  destruct (applyHeaders_same _ _ _ _ Hic Hreq2) as (M2 & U2 & B2).
  exists out, w', req2, rest. split; [reflexivity|]. split.
  { rewrite Hsent. subst w2. cbn [sent]. by rewrite <- !app_assoc. }
  cbn in *. repeat split; congruence.
Qed.

(** C3.  A POST with a payload, answered 503 once and then accepted: the
    retry goes out with the same method and URL, but its body is empty,
    because both requests read from the one buffer made before the loop
    and the first attempt has read it to the end. *)
Theorem retry_sends_drained_body :
  let '(out, w') :=
    HttpClient.doRequest Scenario.rt_busy_once (Api.client Scenario.api) "POST"
      Scenario.task_path (Some (PRawJSON Scenario.task_doc)) ∅ world0 in
  map (fun r => (req_Method r, req_URL r, req_Body r)) (sent w')
  = [ ("POST", "https://api.gaia.test/api/recipe/agi-tasks/create-task",
       Scenario.task_doc);
      ("POST", "https://api.gaia.test/api/recipe/agi-tasks/create-task", []) ]
  /\ Scenario.task_doc <> []
  /\ exists resp, out = Val (Some resp, None) /\ resp_StatusCode resp = 200.
Proof.
  vm_compute. split; [reflexivity|]. split; [discriminate|].
  eexists. split; reflexivity.
Qed.

(* ===================================================================== *)
(** * Decoding *)

(** C4, as stated, fails: a response with status 500 whose body cannot be
    read to the end decodes to a read error, which is not an APIError;
    and a 404 whose body is the empty JSON object, which parses as an
    APIError with an empty message, gets the raw body text as message. *)
Lemma unreadable_error_body_is_not_structured :
  400 <= resp_StatusCode Scenario.broken_500
  /\ HttpClient.parseJSONResponse Scenario.rt_errors
       (json_Unmarshal_Init Scenario.rt_errors) Scenario.broken_500
     = Err (Wrapf "failed to read response body" (LibError "io" "unexpected EOF"))
  /\ is_APIError (Wrapf "failed to read response body"
                        (LibError "io" "unexpected EOF")) = false
  /\ json_Unmarshal_APIError Scenario.rt_errors
       (body_data (resp_Body Scenario.empty_object_404))
     = Ok (mkAPIError 0 "")
  /\ HttpClient.parseJSONResponse Scenario.rt_errors
       (json_Unmarshal_Init Scenario.rt_errors) Scenario.empty_object_404
     = Err (ErrAPI (mkAPIError 404 "{}")).
Proof.
  vm_compute. split; [discriminate|]. repeat split; reflexivity.
Qed.

(** C4, amended.  A response whose body cannot be read decodes to a read
    error whatever its status.  When the body is read: status 400 or more
    always gives the APIError with that status, whose message is the
    body's message field if the body parses as an APIError with a
    non-empty message and the raw body text otherwise; a lower status
    with a body that does not decode into the target gives a decoding
    error that is not an APIError, and with one that does, the value. *)
Theorem parseJSONResponse_classification :
  forall (rt : GoRuntime) (T : Type) (unmarshal : bytes -> result T)
         (resp : Response),
    let body := body_data (resp_Body resp) in
    let r := HttpClient.parseJSONResponse rt unmarshal resp in
    (forall e, body_err (resp_Body resp) = Some e ->
               r = Err (Wrapf "failed to read response body" e))
    /\ (body_err (resp_Body resp) = None -> 400 <= resp_StatusCode resp ->
        r = Err (ErrAPI (mkAPIError (resp_StatusCode resp)
                                    (structured_message rt body))))
    /\ (body_err (resp_Body resp) = None -> resp_StatusCode resp < 400 ->
        forall e, unmarshal body = Err e ->
                  r = Err (Wrapf "failed to unmarshal response" e)
                  /\ is_APIError (Wrapf "failed to unmarshal response" e) = false)
    /\ (body_err (resp_Body resp) = None -> resp_StatusCode resp < 400 ->
        forall v, unmarshal body = Ok v -> r = Ok v).
Proof.
  intros rt T unmarshal resp body r. subst r body.
  unfold HttpClient.parseJSONResponse, structured_message.
  split; [|split; [|split]].
  - intros e ->. reflexivity.
  - intros -> Hs.
    assert ((400 <=? resp_StatusCode resp) = true) as -> by (apply Z.leb_le; lia).
    destruct (json_Unmarshal_APIError rt _) as [a|e]; [|reflexivity].
    destruct (String.eqb (Message a) ""); reflexivity.
  - intros -> Hs e He.
    assert ((400 <=? resp_StatusCode resp) = false) as -> by (apply Z.leb_gt; lia).
    by rewrite He.
  - intros -> Hs v Hv.
    assert ((400 <=? resp_StatusCode resp) = false) as -> by (apply Z.leb_gt; lia).
    by rewrite Hv.
Qed.

(** A structured 402, a plain-text 404 and a 200 that does not decode. *)
Lemma parseJSONResponse_classification_witness :
  HttpClient.parseJSONResponse Scenario.rt_errors
    (json_Unmarshal_Init Scenario.rt_errors) Scenario.structured_402
  = Err (ErrAPI (mkAPIError 402 "no available credits"))
  /\ HttpClient.parseJSONResponse Scenario.rt_errors
       (json_Unmarshal_Init Scenario.rt_errors) Scenario.plain_404
     = Err (ErrAPI (mkAPIError 404 "404 page not found"))
  /\ HttpClient.parseJSONResponse Scenario.rt_errors
       (json_Unmarshal_Init Scenario.rt_errors) Scenario.garbled_200
     = Err (Wrapf "failed to unmarshal response"
                  (LibError "encoding/json" "invalid character")).
Proof.
  split; [|split].
  - apply (proj1 (proj2 (parseJSONResponse_classification Scenario.rt_errors _
                           (json_Unmarshal_Init Scenario.rt_errors)
                           Scenario.structured_402)));
      [reflexivity | vm_compute; discriminate].
  - apply (proj1 (proj2 (parseJSONResponse_classification Scenario.rt_errors _
                           (json_Unmarshal_Init Scenario.rt_errors)
                           Scenario.plain_404)));
      [reflexivity | vm_compute; discriminate].
  - apply (proj1 (proj2 (proj2 (parseJSONResponse_classification
                                  Scenario.rt_errors _
                                  (json_Unmarshal_Init Scenario.rt_errors)
                                  Scenario.garbled_200))));
      [reflexivity | vm_compute; reflexivity | vm_compute; reflexivity].
Defined.

(* ===================================================================== *)
(** * Resizing *)

(** The guard of [resizeImage] is the specification's [scale >= 1]. *)
Lemma spec_scale_ge_1 (maxWidth maxHeight srcWidth srcHeight : Z) :
  0 < srcWidth -> 0 < srcHeight ->
  Qle 1 (spec_scale maxWidth maxHeight srcWidth srcHeight)
  <-> srcWidth <= maxWidth /\ srcHeight <= maxHeight.
Proof.
  intros Hw Hh. unfold spec_scale. rewrite Q.min_glb_iff.
  unfold Qle. cbn [Qnum Qden]. rewrite !Z2Pos.id by lia. lia.
Qed.

(** ** float64 comparisons *)

Lemma SFcompare_antisym (x y : spec_float) :
  SFcompare y x = option_map CompOpp (SFcompare x y).
Proof.
  destruct x as [sx|sx| |sx mx ex], y as [sy|sy| |sy my ey];
    try reflexivity;
    try (destruct sx; reflexivity);
    try (destruct sy; reflexivity);
    try (destruct sx, sy; reflexivity).
  destruct sx, sy; cbn [SFcompare option_map]; try reflexivity;
    rewrite (Z.compare_antisym ex ey);
    destruct (ex ?= ey); cbn [CompOpp]; try reflexivity.
  - rewrite (Pos.compare_cont_antisym mx my Eq). reflexivity.
  - rewrite (Pos.compare_cont_antisym mx my Eq). cbn [CompOpp]. reflexivity.
Qed.

Lemma is_nan_false (x : float) :
  PrimFloat.is_nan x = false -> Prim2SF x <> S754_nan.
Proof.
  unfold PrimFloat.is_nan. rewrite FloatAxioms.eqb_spec. intros H E.
  rewrite E in H. discriminate.
Qed.

Lemma SFcompare_numbers (x y : spec_float) :
  x <> S754_nan -> y <> S754_nan -> exists c, SFcompare x y = Some c.
Proof.
  intros Hx Hy.
  destruct x as [sx|sx| |sx mx ex], y as [sy|sy| |sy my ey];
    try done; cbn [SFcompare]; eauto.
Qed.

(** The scale [resizeImage] picks is the smaller of the two ratios. *)
Lemma scaleFactor_min (maxWidth maxHeight srcWidth srcHeight : Z) :
  PrimFloat.is_nan (float64_ratio maxWidth srcWidth) = false ->
  PrimFloat.is_nan (float64_ratio maxHeight srcHeight) = false ->
  ImageUtil.scaleFactor maxWidth maxHeight srcWidth srcHeight
  = spec_scale_float64 maxWidth maxHeight srcWidth srcHeight.
Proof.
  intros Hx Hy.
  unfold ImageUtil.scaleFactor, spec_scale_float64, float64_min.
  fold (float64_ratio maxWidth srcWidth) (float64_ratio maxHeight srcHeight).
  set (x := float64_ratio maxWidth srcWidth) in *.
  set (y := float64_ratio maxHeight srcHeight) in *.
  rewrite FloatAxioms.ltb_spec, FloatAxioms.leb_spec. unfold SFltb, SFleb.
  rewrite (SFcompare_antisym (Prim2SF x) (Prim2SF y)).
  destruct (SFcompare_numbers (Prim2SF x) (Prim2SF y)
              (is_nan_false x Hx) (is_nan_false y Hy)) as [c ->].
  by destruct c.
Qed.

(** ** The destination buffer *)

Lemma int_of_float64_range (f : float) :
  min_int <= ImageUtil.int_of_float64 f <= max_int.
Proof.
  assert (min_int <= 0 <= max_int /\ min_int <= min_int <= max_int) as [H0 Hm]
    by (unfold max_int, min_int; change (2 ^ 63) with 9223372036854775808; lia).
  unfold ImageUtil.int_of_float64. destruct (Prim2SF f) as [s|s| |s m e]; try done.
  match goal with
  | |- context [if (min_int <=? ?v) && (?v <=? max_int) then _ else _] =>
      destruct ((min_int <=? v) && (v <=? max_int)) eqn:E
  end; [|done].
  apply andb_true_iff in E as [E1 E2].
  apply Z.leb_le in E1. apply Z.leb_le in E2. done.
Qed.

Lemma wrap64_abs (z : Z) :
  min_int <= z <= max_int ->
  (Z.abs z < 2 ^ 63 /\ wrap64 (Z.abs z) = Z.abs z)
  \/ (Z.abs z = 2 ^ 63 /\ wrap64 (Z.abs z) = - 2 ^ 63).
Proof.
  unfold max_int, min_int, wrap64.
  change (2 ^ 63) with 9223372036854775808.
  change (2 ^ 64) with 18446744073709551616. intros H.
  destruct (decide (z = -9223372036854775808)) as [->|Hne].
  - right. split; reflexivity.
  - left. split; [lia|]. rewrite Z.mod_small; lia.
Qed.

(** [mul3NonNeg] is the product when the factors are not negative and
    the product fits, and [-1] otherwise. *)
Lemma mul3NonNeg_cases (x y z : Z) :
  (0 <= x /\ 0 <= y /\ 0 <= z /\ x * y < 2 ^ 64 /\ x * y * z < 2 ^ 63
   /\ ImageUtil.mul3NonNeg x y z = x * y * z)
  \/ ((x < 0 \/ y < 0 \/ z < 0 \/ 2 ^ 64 <= x * y \/ 2 ^ 63 <= x * y * z)
      /\ ImageUtil.mul3NonNeg x y z = -1).
Proof.
  unfold ImageUtil.mul3NonNeg.
  change (2 ^ 63) with 9223372036854775808.
  change (2 ^ 64) with 18446744073709551616.
  destruct (x <? 0) eqn:Ex; [apply Z.ltb_lt in Ex; right; cbn; lia|].
  destruct (y <? 0) eqn:Ey; [apply Z.ltb_lt in Ey; right; cbn; lia|].
  destruct (z <? 0) eqn:Ez; [apply Z.ltb_lt in Ez; right; cbn; lia|].
  apply Z.ltb_ge in Ex, Ey, Ez. cbn [orb].
  destruct (18446744073709551616 <=? x * y) eqn:E1;
    [apply Z.leb_le in E1; right; lia|apply Z.leb_gt in E1].
  destruct (18446744073709551616 <=? x * y * z) eqn:E2;
    [apply Z.leb_le in E2; right; lia|apply Z.leb_gt in E2].
  destruct (9223372036854775808 <=? x * y * z) eqn:E3;
    [apply Z.leb_le in E3; right; lia|apply Z.leb_gt in E3].
  left. lia.
Qed.

Lemma NewRGBA_Val (w h : Z) :
  min_int <= w <= max_int -> min_int <= h <= max_int ->
  (exists n, ImageUtil.NewRGBA w h = Val n) <-> allocatable w h.
Proof.
  intros Hw Hh.
  unfold allocatable, ImageUtil.NewRGBA, ImageUtil.pixelBufferLength,
    ImageUtil.maxAlloc.
  pose proof (Z.abs_nonneg w) as Aw. pose proof (Z.abs_nonneg h) as Ah.
  destruct (mul3NonNeg_cases 4 (wrap64 (Z.abs w)) (wrap64 (Z.abs h)))
    as [(_ & Hx & Hy & H1 & H2 & ->)|(Hbad & ->)];
    destruct (wrap64_abs w Hw) as [[Bw Ew]|[Bw Ew]],
             (wrap64_abs h Hh) as [[Bh Eh]|[Bh Eh]];
    rewrite Ew, Eh in *;
    change (2 ^ 48) with 281474976710656 in *;
    change (2 ^ 62) with 4611686018427387904 in *;
    change (2 ^ 63) with 9223372036854775808 in *;
    change (2 ^ 64) with 18446744073709551616 in *;
    try lia.
  - assert ((4 * Z.abs w * Z.abs h <? 0) = false) as -> by (apply Z.ltb_ge; nia).
    destruct (281474976710656 <? 4 * Z.abs w * Z.abs h) eqn:E;
      [apply Z.ltb_lt in E|apply Z.ltb_ge in E].
    + split; [intros [n Hn]; discriminate|lia].
    + split; [intros _; lia|eauto].
  - change (-1 <? 0) with true. cbn iota.
    split; [intros [n Hn]; discriminate|]. intros (A1 & A2 & A3). exfalso. nia.
  - change (-1 <? 0) with true. cbn iota.
    split; [intros [n Hn]; discriminate|]. lia.
  - change (-1 <? 0) with true. cbn iota.
    split; [intros [n Hn]; discriminate|]. lia.
  - change (-1 <? 0) with true. cbn iota.
    split; [intros [n Hn]; discriminate|]. lia.
Qed.

(** [NewRGBA] returns exactly for the sizes that can be allocated, and
    panics for the others. *)
Lemma NewRGBA_allocatable (w h : Z) :
  min_int <= w <= max_int -> min_int <= h <= max_int ->
  (allocatable w h -> exists n, ImageUtil.NewRGBA w h = Val n)
  /\ (~ allocatable w h -> exists msg, ImageUtil.NewRGBA w h = Panic msg).
Proof.
  intros Hw Hh. pose proof (NewRGBA_Val w h Hw Hh) as Hiff. split.
  - intros Ha. by apply Hiff.
  - intros Hn. destruct (ImageUtil.NewRGBA w h) as [n|msg] eqn:E; [|eauto].
    exfalso. apply Hn, Hiff. eauto.
Qed.




(* ===================================================================== *)
(** * What the upload pipeline sends *)

Section ApiAppends.

Variable rt : GoRuntime.
Variable a : Api.gaiaApi.
Hypothesis no_interceptors : HttpClient.headerInterceptors (Api.client a) = [].

Lemma appends_downloadImage (p : ImageUtil.Processor) (url : string) :
  appends (fun r => req_Method r = "GET") (ImageUtil.downloadImage rt p url).
Proof.
  unfold ImageUtil.downloadImage, HttpClient.NewRequest.
  destruct (http_NewRequest_ok rt "GET" url); [|apply appends_ret].
  apply appends_bind; [by apply appends_Do|].
  intros r. destruct (rt_result r) as [resp|e]; [|apply appends_ret].
  destruct (negb _); [apply appends_ret|].
  destruct (body_err _); [apply appends_ret|].
  destruct (image_Decode rt _) as [[img format]|e]; apply appends_ret.
Qed.

Lemma appends_processImage (imageUrl : string) :
  appends (fun r => req_Method r = "GET") (Api.processImage rt a imageUrl).
Proof.
  unfold Api.processImage, ImageUtil.ProcessImageNoResizeForMCP,
    ImageUtil.ProcessImageFromURLForMCP, ImageUtil.GetImageDimensions,
    ImageUtil.DownloadImage.
  apply appends_bind.
  { apply appends_bind; [apply appends_downloadImage|].
    intros [[img format]|e]; [|apply appends_ret].
    destruct (ImageUtil.resizeImage _ img) as [resizedImg|msg];
      [|apply appends_panic].
    destruct (ImageUtil.encodeImageToBase64Pure _ _ _ _); apply appends_ret. }
  intros [[base64Data mimeType]|e]; [|apply appends_ret].
  destruct (base64_DecodeString rt base64Data) as [imageData|e];
    [|apply appends_ret].
  apply appends_bind.
  { apply appends_bind; [apply appends_downloadImage|].
    intros [[img format]|e]; apply appends_ret. }
  intros [[w h]|e]; apply appends_ret.
Qed.

Lemma appends_initUploadImage (rev : Revision) (imageData : bytes) (w h : Z)
    (assoc : string) :
  appends (fun r => req_Method r = "POST"
                    /\ req_URL r = HttpClient.baseURL (Api.client a)
                                   +:+ "/api/upload/initialize")
          (initUploadImageOf rt rev a imageData w h assoc).
Proof.
  destruct rev; cbn [initUploadImageOf];
    unfold Api.V1.initUploadImage, Api.V2.initUploadImage;
    (apply appends_bind; [apply appends_Now_Unix|]); intros now.
  - destruct (json_Marshal rt _) as [jsonData|e]; [|apply appends_ret].
    apply appends_bind; [by apply (appends_As rt)|].
    intros [r|e]; apply appends_ret.
  - apply appends_bind; [by apply (appends_As rt)|].
    intros [[|first rest]|e]; apply appends_ret.
Qed.

Lemma appends_uploadChunk (rev : Revision) (chunk : bytes) (url : string)
    (partNumber : Z) :
  appends (fun r => req_Method r = "PUT")
          (uploadChunkOf rt rev a chunk url partNumber).
Proof.
  destruct rev; cbn [uploadChunkOf];
    unfold Api.V1.uploadChunk, Api.V2.uploadChunk.
  - apply appends_bind.
    { eapply appends_weaken; [|by apply (appends_doRequest rt)].
      by intros r [E _]. }
    intros [[resp|] [e|]]; first [apply appends_ret | apply appends_panic].
  - unfold HttpClient.NewRequest.
    destruct (http_NewRequest_ok rt "PUT" url); [|apply appends_ret].
    apply appends_bind; [by apply appends_Do|].
    intros r. destruct (rt_result r) as [resp|e]; [|apply appends_ret].
    destruct (negb _); [apply appends_ret|].
    destruct (String.eqb _ _); apply appends_ret.
Qed.

Lemma appends_chunkTask (rev : Revision) (imageData : bytes) (i : nat)
    (url : string) (s : Api.Slots) :
  appends (fun r => req_Method r = "PUT")
          (chunkTaskOf rt rev a imageData i url s).
Proof.
  unfold chunkTaskOf, Api.chunkTask.
  destruct (Api.chunkBounds _ _) as [start end_].
  destruct (slice imageData start end_) as [chunk|]; [|apply appends_panic].
  apply appends_bind; [apply appends_uploadChunk|].
  intros [part|e]; apply appends_ret.
Qed.

Lemma appends_dispatch (rev : Revision) (imageData : bytes)
    (urls : list string) :
  forall (i : nat) (s : Api.Slots),
    appends (fun r => req_Method r = "PUT")
            (dispatchOf rt rev a imageData i urls s).
Proof.
  induction urls as [|url rest IH]; intros i s.
  - apply appends_ret.
  - unfold dispatchOf. cbn [Api.dispatch].
    apply appends_bind; [apply appends_chunkTask|].
    intros s'. apply IH.
Qed.

Lemma append_inj_l (p x y : string) : p +:+ x = p +:+ y -> x = y.
Proof.
  induction p as [|c p IH]; cbn; [done|]. intros E. apply IH. by inversion E.
Qed.

Lemma GET_not_finalize (r : Request) : req_Method r = "GET" -> ~ is_finalize a r.
Proof. intros E [F _]. rewrite E in F. discriminate. Qed.

Lemma PUT_not_finalize (r : Request) : req_Method r = "PUT" -> ~ is_finalize a r.
Proof. intros E [F _]. rewrite E in F. discriminate. Qed.

Lemma initialize_not_finalize (r : Request) :
  req_Method r = "POST"
  /\ req_URL r = HttpClient.baseURL (Api.client a) +:+ "/api/upload/initialize" ->
  ~ is_finalize a r.
Proof.
  intros [_ E] [_ F]. rewrite E in F. apply append_inj_l in F. discriminate.
Qed.

End ApiAppends.

(* ===================================================================== *)
(** * The result slots *)

Section SlotFacts.

Variable rt : GoRuntime.
Variable a : Api.gaiaApi.

Lemma uploadChunk_PartNumber (rev : Revision) (chunk : bytes) (url : string)
    (partNumber : Z) (w w' : World) (part : UploadPart) :
  uploadChunkOf rt rev a chunk url partNumber w = (Val (Ok part), w') ->
  PartNumber part = partNumber.
Proof.
  destruct rev; cbn [uploadChunkOf];
    unfold Api.V1.uploadChunk, Api.V2.uploadChunk, bind.
  - destruct (HttpClient.PUT _ _ _ _ _ _) as [[[[resp|] [e|]]|msg] w1];
      unfold ret, panic; intros E; inversion E; done.
  - destruct (HttpClient.NewRequest _ _ _ _) as [req0|e];
      [|unfold ret; intros E; inversion E].
    rewrite Do_run.
    destruct (rt_result _) as [resp|e]; [|unfold ret; intros E; inversion E].
    destruct (negb _); [unfold ret; intros E; inversion E|].
    destruct (String.eqb _ _); unfold ret; intros E; inversion E; done.
Qed.

(** One task writes its own slot and no other. *)
Lemma chunkTask_slots (rev : Revision) (imageData : bytes) (i : nat)
    (url : string) (s s' : Api.Slots) (w w' : World) :
  chunkTaskOf rt rev a imageData i url s w = (Val s', w') ->
  (exists part,
      PartNumber part = wrap64 (Z.of_nat i + 1)
      /\ Api.uploadParts s' = <[i := Some part]> (Api.uploadParts s)
      /\ Api.uploadErrs s' = Api.uploadErrs s)
  \/ (exists e,
         Api.uploadErrs s' = <[i := Some e]> (Api.uploadErrs s)
         /\ Api.uploadParts s' = Api.uploadParts s).
Proof.
  unfold chunkTaskOf, Api.chunkTask.
  destruct (Api.chunkBounds _ _) as [start end_].
  destruct (slice imageData start end_) as [chunk|];
    [|unfold panic; intros E; inversion E].
  unfold bind.
  destruct (uploadChunkOf rt rev a chunk url _ w) as [[[part|e]|msg] w1] eqn:Eu;
    unfold ret; intros E; inversion E; subst; clear E.
  - left. exists part. apply uploadChunk_PartNumber in Eu. done.
  - right. exists e. done.
Qed.

(** The tasks for [urls], started at index [i] on slots that are empty
    from [i] on, write slots [i .. i + length urls) and leave the others. *)
Lemma dispatch_slots (rev : Revision) (imageData : bytes) (n : nat) :
  forall (urls : list string) (i : nat) (s s' : Api.Slots) (w w' : World),
    dispatchOf rt rev a imageData i urls s w = (Val s', w') ->
    length (Api.uploadParts s) = n ->
    length (Api.uploadErrs s) = n ->
    (i + length urls <= n)%nat ->
    (forall j, (i <= j < n)%nat -> slot_empty s j) ->
    length (Api.uploadParts s') = n
    /\ length (Api.uploadErrs s') = n
    /\ (forall j, (j < i)%nat ->
                  Api.uploadParts s' !! j = Api.uploadParts s !! j
                  /\ Api.uploadErrs s' !! j = Api.uploadErrs s !! j)
    /\ (forall j, (i <= j < i + length urls)%nat -> slot_written s' j)
    /\ (forall j, (i + length urls <= j < n)%nat -> slot_empty s' j).
Proof.
  induction urls as [|url rest IH]; intros i s s' w w' E Hp He Hn Hempty.
  - unfold dispatchOf in E. cbn in E. inversion E; subst.
    repeat split; try done.
    + intros j Hj. cbn in Hj. lia.
    + apply Hempty. cbn in H. lia.
    + apply Hempty. cbn in H. lia.
  - unfold dispatchOf in E. cbn [Api.dispatch] in E. unfold bind in E.
    fold (chunkTaskOf rt rev) in E.
    destruct (chunkTaskOf rt rev a imageData i url s w) as [[s1|msg] w1] eqn:Et;
      [|inversion E].
    fold (dispatchOf rt rev a imageData (S i) rest s1 w1) in E.
    cbn [length] in Hn.
    assert (length (Api.uploadParts s1) = n /\ length (Api.uploadErrs s1) = n
            /\ (forall j, j <> i ->
                          Api.uploadParts s1 !! j = Api.uploadParts s !! j
                          /\ Api.uploadErrs s1 !! j = Api.uploadErrs s !! j)
            /\ slot_written s1 i) as (Hp1 & He1 & Hsame & Hwr).
    { destruct (Hempty i ltac:(lia)) as [Ep Ee].
      unfold slot_written.
      destruct (chunkTask_slots _ _ _ _ _ _ _ _ Et)
        as [(part & Hpn & Eparts & Eerrs)|(e & Eerrs & Eparts)];
        rewrite Eparts, Eerrs; rewrite length_insert;
        (split; [done|]); (split; [done|]); split.
      - intros j Hj. by rewrite list_lookup_insert_ne.
      - left. exists part. rewrite list_lookup_insert_eq by lia. done.
      - intros j Hj. by rewrite list_lookup_insert_ne.
      - right. exists e. rewrite list_lookup_insert_eq by lia. done. }
    destruct (IH (S i) s1 s' w1 w' E Hp1 He1 ltac:(lia)) as (Hp' & He' & Hlt & Hin & Hge).
    { intros j Hj. destruct (Hsame j ltac:(lia)) as [E1 E2].
      destruct (Hempty j ltac:(lia)) as [E3 E4].
      split; congruence. }
    repeat split; try done.
    + destruct (Hlt j ltac:(lia)) as [E1 _].
      destruct (Hsame j ltac:(lia)) as [E2 _]. congruence.
    + destruct (Hlt j ltac:(lia)) as [_ E1].
      destruct (Hsame j ltac:(lia)) as [_ E2]. congruence.
    + intros j Hj. cbn [length] in Hj.
      destruct (decide (j = i)) as [->|Hne].
      * destruct (Hlt i ltac:(lia)) as [E1 E2].
        destruct Hwr as [(part & F1 & F2 & F3)|(e & F1 & F2)].
        -- left. exists part. rewrite E1, E2. done.
        -- right. exists e. rewrite E1, E2. done.
      * apply Hin. lia.
    + apply Hge. cbn [length] in H. lia.
    + apply Hge. cbn [length] in H. lia.
Qed.

Lemma emptySlots_empty (n j : nat) : (j < n)%nat -> slot_empty (emptySlots n) j.
Proof.
  intros Hj. unfold slot_empty, emptySlots. cbn.
  split; by apply lookup_replicate_2.
Qed.

(** After the join on fresh slots, every slot holds its task's outcome. *)
Lemma dispatch_all_written (rev : Revision) (imageData : bytes)
    (urls : list string) (s : Api.Slots) (w w' : World) :
  dispatchOf rt rev a imageData 0 urls (emptySlots (length urls)) w = (Val s, w') ->
  length (Api.uploadParts s) = length urls
  /\ length (Api.uploadErrs s) = length urls
  /\ forall j, (j < length urls)%nat -> slot_written s j.
Proof.
  intros E.
  destruct (dispatch_slots rev imageData (length urls) urls 0 _ _ _ _ E)
    as (Hp & He & _ & Hin & _).
  - unfold emptySlots. cbn. apply length_replicate.
  - unfold emptySlots. cbn. apply length_replicate.
  - lia.
  - intros j Hj. apply emptySlots_empty. lia.
  - repeat split; try done. intros j Hj. apply Hin. lia.
Qed.

Lemma hasErrors_true (s : Api.Slots) : Api.hasErrors s = true <-> some_failed s.
Proof.
  unfold Api.hasErrors, some_failed. rewrite existsb_exists. split.
  - intros ([e|] & Hin & Hx); [|done].
    apply list_elem_of_In, list_elem_of_lookup in Hin as [i Hi]. eauto.
  - intros (i & e & Hi). exists (Some e). split; [|done].
    apply list_elem_of_In, list_elem_of_lookup. eauto.
Qed.

Lemma hasErrors_false (s : Api.Slots) :
  Api.hasErrors s = false <-> Forall (fun e => e = None) (Api.uploadErrs s).
Proof.
  unfold Api.hasErrors. rewrite <- not_true_iff_false, existsb_exists, Forall_forall.
  split.
  - intros H [e|] Hin; [|done]. exfalso. apply H. exists (Some e).
    split; [by apply list_elem_of_In|done].
  - intros H ([e|] & Hin & Hx); [|done].
    apply list_elem_of_In in Hin. by apply H in Hin.
Qed.

(** Without a recorded error after the join, every task left a part. *)
Lemma no_error_all_succeeded (rev : Revision) (imageData : bytes)
    (urls : list string) (s : Api.Slots) (w w' : World) :
  dispatchOf rt rev a imageData 0 urls (emptySlots (length urls)) w = (Val s, w') ->
  Api.hasErrors s = false ->
  all_succeeded s.
Proof.
  intros E Hno. apply hasErrors_false in Hno.
  destruct (dispatch_all_written _ _ _ _ _ _ E) as (Hp & He & Hw).
  split; [done|].
  apply Forall_lookup. intros j p Hj.
  assert (j < length urls)%nat as Hlt.
  { rewrite <- Hp. by apply lookup_lt_Some in Hj. }
  destruct (Hw j Hlt) as [(part & F1 & _)|(e & F1 & _)].
  - rewrite F1 in Hj. by inversion Hj.
  - rewrite Forall_lookup in Hno. by apply Hno in F1.
Qed.

End SlotFacts.

(* ===================================================================== *)
(** * No finalize on partial failure *)

Section Finalize.

Variable rt : GoRuntime.
Variable a : Api.gaiaApi.
Hypothesis no_interceptors : HttpClient.headerInterceptors (Api.client a) = [].

(** Up to the join, nothing that is sent is a finalize call. *)
Lemma before_finish_no_finalize (rev : Revision) (assoc imageUrl : string)
    (imageData : bytes) (mime : string) (wd ht : Z) (w w1 : World)
    (r1 : Outcome (result (bytes * string * Z * Z))) :
  Api.processImage rt a imageUrl w = (r1, w1) ->
  Forall (fun r => ~ is_finalize a r) (sent_since w w1)
  /\ forall r2 w2,
      initUploadImageOf rt rev a imageData wd ht assoc w1 = (r2, w2) ->
      Forall (fun r => ~ is_finalize a r) (sent_since w w2)
      /\ forall urls s0 r3 w3,
          dispatchOf rt rev a imageData 0 urls s0 w2 = (r3, w3) ->
          Forall (fun r => ~ is_finalize a r) (sent_since w w3).
Proof.
  intros E1.
  destruct (appends_processImage rt a imageUrl _ _ _ E1) as (n1 & S1 & F1).
  split.
  { rewrite (sent_since_app _ _ _ S1).
    eapply Forall_impl; [exact F1|]. apply GET_not_finalize. }
  intros r2 w2 E2.
  destruct (appends_initUploadImage rt a no_interceptors rev _ _ _ _ _ _ _ E2)
    as (n2 & S2 & F2).
  assert (sent w2 = sent w ++ (n1 ++ n2)) as S12 by (by rewrite S2, S1, app_assoc).
  split.
  { rewrite (sent_since_app _ _ _ S12). apply Forall_app. split.
    - eapply Forall_impl; [exact F1|]. apply GET_not_finalize.
    - eapply Forall_impl; [exact F2|]. apply initialize_not_finalize. }
  intros urls s0 r3 w3 E3.
  destruct (appends_dispatch rt a no_interceptors rev _ _ _ _ _ _ _ E3)
    as (n3 & S3 & F3).
  assert (sent w3 = sent w ++ (n1 ++ n2 ++ n3)) as S123.
  { by rewrite S3, S12, <- !app_assoc. }
  rewrite (sent_since_app _ _ _ S123). rewrite !Forall_app. repeat split.
  - eapply Forall_impl; [exact F1|]. apply GET_not_finalize.
  - eapply Forall_impl; [exact F2|]. apply initialize_not_finalize.
  - eapply Forall_impl; [exact F3|]. apply PUT_not_finalize.
Qed.

Lemma Forall_Exists_contra (P : Request -> Prop) (l : list Request) :
  Forall (fun r => ~ P r) l -> Exists P l -> False.
Proof.
  intros F E. apply Exists_exists in E as (r & Hin & HP).
  rewrite Forall_forall in F. by apply (F r).
Qed.

End Finalize.

(** [NewGaiaApi] registers no header interceptor. *)
Lemma NewGaiaApi_no_interceptors (cfg : Api.GaiaApiConfig) :
  HttpClient.headerInterceptors (Api.client (Api.NewGaiaApi cfg)) = [].
Proof. reflexivity. Qed.



(* ===================================================================== *)
(** * Validation of the source reference *)

(** A reference that does not start with the four characters "http" is
    rejected on the spot: nothing is sent, in either revision. *)
Lemma no_http_prefix_rejected (rt : GoRuntime) (rev : Revision)
    (a : Api.gaiaApi) (assoc imageUrl : string) (w : World) :
  HasPrefix imageUrl "http" = false ->
  uploadImageOf rt rev a assoc imageUrl w
  = (Val (Api.Failed imageUrl "URL must start with http:// or https://"), w).
Proof.
  intros H. unfold uploadImageOf, Api.uploadImage. by rewrite H.
Qed.

(** [downloadImage] hands every URL the HTTP library accepts to the HTTP
    client, whatever its scheme: exactly one GET goes out. *)
Lemma downloadImage_sends_get (rt : GoRuntime) (p : ImageUtil.Processor)
    (url : string) (w : World) :
  http_NewRequest_ok rt "GET" url = true ->
  exists out,
    ImageUtil.downloadImage rt p url w
    = (Val out,
       mkWorld (sent w ++ [HttpClient.req_Set (mkRequest "GET" url ∅ [])
                             "User-Agent" (ImageUtil.UserAgent (ImageUtil.config p))])
               (slept w)).
Proof.
  intros Hok. unfold ImageUtil.downloadImage, HttpClient.NewRequest.
  rewrite Hok. unfold bind. rewrite Do_run. cbn [default].
  destruct (rt_result _) as [resp|e]; [|eexists; reflexivity].
  destruct (negb _); [eexists; reflexivity|].
  destruct (body_err _); [eexists; reflexivity|].
  destruct (image_Decode rt _) as [[img format]|e]; eexists; reflexivity.
Qed.

(** C9.  The reference "httpx://img.test/cat.png" has a scheme that is
    neither http nor https, yet it passes the check (which looks for the
    prefix "http" only, while its message asks for "http://" or
    "https://"): in both revisions it goes on to processing and is handed
    to the HTTP client in a GET, and the image fails with the fetch
    error, not with the validation message. *)
Theorem httpx_reference_passes_validation :
  HasPrefix "httpx://img.test/cat.png" "http" = true
  /\ HasPrefix "httpx://img.test/cat.png" "http://" = false
  /\ HasPrefix "httpx://img.test/cat.png" "https://" = false
  /\ forall rev,
      let '(out, w') :=
        uploadImageOf (UploadScenario.runtime "one" 200) rev UploadScenario.api
                      "style" "httpx://img.test/cat.png" world0 in
      out = Val (Api.Failed "httpx://img.test/cat.png"
                   "failed to process image: downloading image: downloading image: unsupported protocol scheme")
      /\ map (fun r => (req_Method r, req_URL r)) (sent w')
         = [("GET", "httpx://img.test/cat.png")].
Proof.
  split; [reflexivity|]. split; [reflexivity|]. split; [reflexivity|].
  intros []; vm_compute; split; reflexivity.
Qed.

(* ===================================================================== *)
(** * Chunk boundaries *)

Lemma takeZ_take {A} (l : list A) : forall n, takeZ n l = take (Z.to_nat n) l.
Proof.
  induction l as [|x t IH]; intros n; cbn [takeZ].
  - by rewrite take_nil.
  - destruct (n <=? 0) eqn:E.
    + apply Z.leb_le in E. by replace (Z.to_nat n) with O by lia.
    + apply Z.leb_gt in E.
      replace (Z.to_nat n) with (S (Z.to_nat (n - 1))) by lia.
      cbn. by rewrite IH.
Qed.

Lemma dropZ_drop {A} (l : list A) : forall n, dropZ n l = drop (Z.to_nat n) l.
Proof.
  induction l as [|x t IH]; intros n; cbn [dropZ].
  - by rewrite drop_nil.
  - destruct (n <=? 0) eqn:E.
    + apply Z.leb_le in E. by replace (Z.to_nat n) with O by lia.
    + apply Z.leb_gt in E.
      replace (Z.to_nat n) with (S (Z.to_nat (n - 1))) by lia.
      cbn. by rewrite IH.
Qed.

Lemma len_nonneg {A} (l : list A) : 0 <= len l.
Proof. unfold len. lia. Qed.

Lemma len_takeZ {A} (l : list A) (n : Z) :
  0 <= n -> len (takeZ n l) = Z.min n (len l).
Proof. intros H. rewrite takeZ_take. unfold len. rewrite length_take. lia. Qed.

Lemma len_dropZ {A} (l : list A) (n : Z) :
  0 <= n <= len l -> len (dropZ n l) = len l - n.
Proof. intros H. rewrite dropZ_drop. unfold len in *. rewrite length_drop. lia. Qed.

Lemma CHUNK_SIZE_value : Api.CHUNK_SIZE = 10485760.
Proof. reflexivity. Qed.

Lemma max_int_value : max_int = 9223372036854775807.
Proof. reflexivity. Qed.

Lemma wrap64_id (z : Z) : min_int <= z <= max_int -> wrap64 z = z.
Proof.
  unfold min_int, max_int, wrap64.
  change (2 ^ 63) with 9223372036854775808.
  change (2 ^ 64) with 18446744073709551616.
  intros H. rewrite Z.mod_small; lia.
Qed.

(** Without overflow, task [i] gets [start = i*C] and
    [end = min(start + C, L)]. *)
Lemma chunkBounds_exact (i L : Z) :
  0 <= i -> i * Api.CHUNK_SIZE + Api.CHUNK_SIZE <= max_int ->
  Api.chunkBounds i L
  = (i * Api.CHUNK_SIZE, Z.min (i * Api.CHUNK_SIZE + Api.CHUNK_SIZE) L).
Proof.
  intros Hi Hmax. unfold Api.chunkBounds.
  rewrite CHUNK_SIZE_value, max_int_value in *.
  rewrite (wrap64_id (i * 10485760)) by (rewrite max_int_value; unfold min_int; lia).
  rewrite (wrap64_id (i * 10485760 + 10485760))
    by (rewrite max_int_value; unfold min_int; lia).
  f_equal. destruct (_ >? L) eqn:E.
  - apply Z.gtb_lt in E. lia.
  - rewrite Z.gtb_ltb in E. apply Z.ltb_ge in E. lia.
Qed.

(** A task whose start lies within the buffer gets bytes
    [[i*C, min((i+1)*C, L))]. *)
Lemma slice_within (imageData : bytes) (i : Z) :
  0 <= i ->
  i * Api.CHUNK_SIZE <= len imageData ->
  len imageData + Api.CHUNK_SIZE <= max_int ->
  slice imageData (Api.chunkBounds i (len imageData)).1
                  (Api.chunkBounds i (len imageData)).2
  = Some (chunk_of imageData i).
Proof.
  intros Hi Hin Hmax.
  rewrite chunkBounds_exact by lia. cbn [fst snd].
  unfold slice, chunk_of.
  pose proof (len_nonneg imageData) as HL.
  rewrite CHUNK_SIZE_value in *.
  assert ((0 <=? i * 10485760) = true) as -> by (apply Z.leb_le; lia).
  assert ((i * 10485760 <=? Z.min (i * 10485760 + 10485760) (len imageData)) = true)
    as -> by (apply Z.leb_le; lia).
  assert ((Z.min (i * 10485760 + 10485760) (len imageData) <=? len imageData) = true)
    as -> by (apply Z.leb_le; lia).
  cbn [andb]. do 3 f_equal. lia.
Qed.

(** A task whose start lies beyond the buffer has [end < start]: the
    slice expression panics. *)
Lemma slice_beyond (imageData : bytes) (i : Z) :
  0 <= i ->
  i * Api.CHUNK_SIZE + Api.CHUNK_SIZE <= max_int ->
  len imageData < i * Api.CHUNK_SIZE ->
  (Api.chunkBounds i (len imageData)).2 < (Api.chunkBounds i (len imageData)).1
  /\ slice imageData (Api.chunkBounds i (len imageData)).1
                     (Api.chunkBounds i (len imageData)).2
     = None.
Proof.
  intros Hi Hmax Hout.
  rewrite chunkBounds_exact by lia. cbn [fst snd].
  rewrite CHUNK_SIZE_value in *. split; [lia|].
  unfold slice.
  assert ((i * 10485760 <=? Z.min (i * 10485760 + 10485760) (len imageData)) = false)
    as -> by (apply Z.leb_gt; lia).
  by rewrite andb_false_r.
Qed.

Lemma ceil_div_bounds (L : Z) :
  0 < L ->
  (ceil_div L Api.CHUNK_SIZE - 1) * Api.CHUNK_SIZE < L
  /\ L <= ceil_div L Api.CHUNK_SIZE * Api.CHUNK_SIZE
  /\ 0 < ceil_div L Api.CHUNK_SIZE.
Proof.
  intros HL. unfold ceil_div. rewrite CHUNK_SIZE_value.
  pose proof (Z.div_mod (L + 10485760 - 1) 10485760 ltac:(lia)) as E.
  pose proof (Z.mod_pos_bound (L + 10485760 - 1) 10485760 ltac:(lia)) as B.
  lia.
Qed.

Lemma len_chunk_of (imageData : bytes) (i : Z) :
  0 <= i -> i * Api.CHUNK_SIZE <= len imageData ->
  len (chunk_of imageData i)
  = Z.min ((i + 1) * Api.CHUNK_SIZE) (len imageData) - i * Api.CHUNK_SIZE.
Proof.
  intros Hi Hin. unfold chunk_of. rewrite CHUNK_SIZE_value in *.
  rewrite len_takeZ by lia. rewrite len_dropZ by lia. lia.
Qed.

(** The first [k] chunks, one after the other, are the first
    [min(k*C, L)] bytes of the buffer. *)
Lemma chunks_concat (imageData : bytes) :
  forall k : nat,
    (Z.of_nat k - 1) * Api.CHUNK_SIZE <= len imageData ->
    concat (map (fun i => chunk_of imageData (Z.of_nat i)) (seq 0 k))
    = takeZ (Z.min (Z.of_nat k * Api.CHUNK_SIZE) (len imageData)) imageData.
Proof.
  induction k as [|k IH]; intros Hk.
  - cbn [seq map concat]. rewrite takeZ_take.
    replace (Z.to_nat _) with O; [by rewrite take_0|].
    pose proof (len_nonneg imageData). rewrite CHUNK_SIZE_value. lia.
  - rewrite seq_S, map_app, concat_app. cbn [map concat Nat.add].
    rewrite app_nil_r. rewrite CHUNK_SIZE_value in *.
    rewrite IH by lia. unfold chunk_of. rewrite CHUNK_SIZE_value.
    rewrite (Z.min_l (Z.of_nat k * 10485760)) by lia.
    rewrite !takeZ_take, dropZ_drop.
    rewrite take_take_drop. f_equal.
    pose proof (len_nonneg imageData). lia.
Qed.

Section ChunkTasks.

Variable rt : GoRuntime.
Variable a : Api.gaiaApi.

(** A task whose start lies beyond the buffer panics before it reaches
    [uploadChunk]: nothing is recorded and nothing is sent. *)
Lemma chunkTask_beyond (rev : Revision) (imageData : bytes) (i : nat)
    (url : string) (s : Api.Slots) (w : World) :
  Z.of_nat i * Api.CHUNK_SIZE + Api.CHUNK_SIZE <= max_int ->
  len imageData < Z.of_nat i * Api.CHUNK_SIZE ->
  chunkTaskOf rt rev a imageData i url s w
  = (Panic "slice bounds out of range", w).
Proof.
  intros Hmax Hout.
  destruct (slice_beyond imageData (Z.of_nat i) ltac:(lia) Hmax Hout) as [_ Hs].
  unfold chunkTaskOf, Api.chunkTask.
  destruct (Api.chunkBounds _ _) as [start end_]. cbn [fst snd] in Hs.
  by rewrite Hs.
Qed.

(** A panicking task among those dispatched brings the whole dispatch
    down. *)
Lemma dispatch_panics (rev : Revision) (imageData : bytes) (i : nat) :
  (forall url s w, exists msg,
      chunkTaskOf rt rev a imageData i url s w = (Panic msg, w)) ->
  forall (urls : list string) (i0 : nat) (s : Api.Slots) (w : World),
    (i0 <= i < i0 + length urls)%nat ->
    exists msg w',
      dispatchOf rt rev a imageData i0 urls s w = (Panic msg, w').
Proof.
  intros Hpanic. induction urls as [|url rest IH]; intros i0 s w Hi.
  - cbn in Hi. lia.
  - unfold dispatchOf. cbn [Api.dispatch]. unfold bind.
    fold (chunkTaskOf rt rev).
    destruct (decide (i = i0)) as [->|Hne].
    + destruct (Hpanic url s w) as [msg ->]. eauto.
    + destruct (chunkTaskOf rt rev a imageData i0 url s w) as [[s1|msg] w1];
        [|eauto].
      apply IH. cbn in Hi. lia.
Qed.

End ChunkTasks.

(* ===================================================================== *)
(** * Tasks that return *)

Section Returns.

Variable rt : GoRuntime.

(** With [maxRetries >= 0] the retry loop ends inside its body: with a
    response or with an error, never with neither. *)
Lemma attempts_returns (c : HttpClient.Client) (method url : string)
    (headers : gmap string string) :
  forall (n : nat) (attempt : Z) (lastErr : option error) (body : option bytes)
         (w : World),
    Z.of_nat (S n) = HttpClient.maxRetries c + 1 - attempt ->
    exists r w',
      HttpClient.attempts rt c method url headers (S n) attempt lastErr body w
      = (Val r, w')
      /\ r <> (None, None).
Proof.
  induction n as [|n IH]; intros attempt lastErr body w Hn;
    rewrite attempts_S; unfold HttpClient.NewRequest;
    (destruct (http_NewRequest_ok rt method url);
     [|eexists _, _; split; [reflexivity|done]]);
    (destruct (HttpClient.applyHeaders c _ headers) as [req|e];
     [|eexists _, _; split; [reflexivity|done]]);
    unfold bind at 1; rewrite Do_run;
    destruct (rt_result (http_Do rt (sent w) req)) as [resp|e].
  - assert ((attempt <? HttpClient.maxRetries c) = false) as ->
      by (apply Z.ltb_ge; lia).
    rewrite andb_false_r. eexists _, _. split; [reflexivity|done].
  - assert ((attempt <? HttpClient.maxRetries c) = false) as ->
      by (apply Z.ltb_ge; lia).
    eexists _, _. split; [reflexivity|done].
  - destruct (_ && _); [|eexists _, _; split; [reflexivity|done]].
    unfold bind at 1, Sleep at 1. apply IH. lia.
  - destruct (_ <? _); [|eexists _, _; split; [reflexivity|done]].
    unfold bind at 1, Sleep at 1. apply IH. lia.
Qed.

Lemma doRequest_returns (c : HttpClient.Client) (method endpoint : string)
    (payload : option Payload) (headers : gmap string string) (w : World) :
  0 <= HttpClient.maxRetries c ->
  exists r w',
    HttpClient.doRequest rt c method endpoint payload headers w = (Val r, w')
    /\ r <> (None, None).
Proof.
  intros Hmax. unfold HttpClient.doRequest.
  replace (Z.to_nat (HttpClient.maxRetries c + 1))
    with (S (Z.to_nat (HttpClient.maxRetries c))) by lia.
  destruct payload as [p|]; [|apply attempts_returns; lia].
  destruct (json_Marshal rt p); [apply attempts_returns; lia|].
  eexists _, _. split; [reflexivity|done].
Qed.

(** For the API object [NewGaiaApi] builds, [uploadChunk] returns, in
    both revisions. *)
Lemma uploadChunk_returns (rev : Revision) (cfg : Api.GaiaApiConfig)
    (chunk : bytes) (url : string) (partNumber : Z) (w : World) :
  exists r w',
    uploadChunkOf rt rev (Api.NewGaiaApi cfg) chunk url partNumber w = (Val r, w').
Proof.
  destruct rev; cbn [uploadChunkOf].
  - unfold Api.V1.uploadChunk, HttpClient.PUT, bind.
    destruct (doRequest_returns (Api.client (Api.NewGaiaApi cfg)) "PUT" url
                (Some (PBytes chunk))
                {[ "Content-Type" := "application/octet-stream" ]} w)
      as (r & w' & -> & Hr); [vm_compute; discriminate|].
    destruct r as [[resp|] [e|]]; unfold ret; eauto. done.
  - unfold Api.V2.uploadChunk, HttpClient.NewRequest.
    destruct (http_NewRequest_ok rt "PUT" url); [|unfold ret; eauto].
    unfold bind. rewrite Do_run.
    destruct (rt_result _) as [resp|e]; [|unfold ret; eauto].
    destruct (negb _); [unfold ret; eauto|].
    destruct (String.eqb _ _); unfold ret; eauto.
Qed.

(** A task whose start lies within the buffer hands [uploadChunk] bytes
    [[i*C, min((i+1)*C, L))], its destination and the number [i+1], and
    records the outcome in slot [i]. *)
Lemma chunkTask_within (rev : Revision) (a : Api.gaiaApi) (imageData : bytes)
    (i : nat) (url : string) (s : Api.Slots) :
  len imageData + Api.CHUNK_SIZE <= max_int ->
  Z.of_nat i * Api.CHUNK_SIZE <= len imageData ->
  chunkTaskOf rt rev a imageData i url s
  = (let* r := uploadChunkOf rt rev a (chunk_of imageData (Z.of_nat i)) url
                             (Z.of_nat i + 1) in
     match r with
     | Err err => ret (record_error s i err)
     | Ok part => ret (record_part s i part)
     end).
Proof.
  intros Hmax Hin.
  pose proof (slice_within imageData (Z.of_nat i) ltac:(lia) Hin Hmax) as Hs.
  unfold chunkTaskOf, Api.chunkTask.
  destruct (Api.chunkBounds _ _) as [start end_]. cbn [fst snd] in Hs.
  rewrite Hs.
  rewrite (wrap64_id (Z.of_nat i + 1)); [reflexivity|].
  rewrite max_int_value, CHUNK_SIZE_value in *. unfold min_int. lia.
Qed.

(** When every index starts within the buffer, the dispatch returns. *)
Lemma dispatch_within (rev : Revision) (cfg : Api.GaiaApiConfig)
    (imageData : bytes) :
  len imageData + Api.CHUNK_SIZE <= max_int ->
  forall (urls : list string) (i0 : nat) (s : Api.Slots) (w : World),
    (Z.of_nat i0 + len urls - 1) * Api.CHUNK_SIZE <= len imageData ->
    exists s' w',
      dispatchOf rt rev (Api.NewGaiaApi cfg) imageData i0 urls s w = (Val s', w').
Proof.
  intros Hmax. induction urls as [|url rest IH]; intros i0 s w Hin.
  - unfold dispatchOf. cbn [Api.dispatch]. unfold ret. eauto.
  - unfold dispatchOf. cbn [Api.dispatch]. fold (chunkTaskOf rt rev).
    fold (dispatchOf rt rev).
    assert (Z.of_nat i0 * Api.CHUNK_SIZE <= len imageData) as Hi0.
    { unfold len in *. cbn [length] in Hin. rewrite CHUNK_SIZE_value in *. lia. }
    rewrite (chunkTask_within rev _ imageData i0 url s Hmax Hi0).
    unfold bind at 1 2.
    destruct (uploadChunk_returns rev cfg (chunk_of imageData (Z.of_nat i0)) url
                (Z.of_nat i0 + 1) w) as ([part|err] & w1 & ->);
      unfold ret; apply IH; unfold len in *; cbn [length] in Hin;
      rewrite CHUNK_SIZE_value in *; lia.
Qed.

(** When the last index starts beyond the buffer, the dispatch ends in
    the panic of the first task that does. *)
Lemma dispatch_beyond (rev : Revision) (cfg : Api.GaiaApiConfig)
    (imageData : bytes) :
  len imageData + Api.CHUNK_SIZE <= max_int ->
  forall (urls : list string) (i0 : nat) (s : Api.Slots) (w : World),
    (Z.of_nat i0 + len urls) * Api.CHUNK_SIZE <= max_int ->
    len imageData < (Z.of_nat i0 + len urls - 1) * Api.CHUNK_SIZE ->
    urls <> [] ->
    exists w',
      dispatchOf rt rev (Api.NewGaiaApi cfg) imageData i0 urls s w
      = (Panic "slice bounds out of range", w').
Proof.
  intros Hmax. induction urls as [|url rest IH]; intros i0 s w Hb Hout Hne;
    [done|].
  unfold dispatchOf. cbn [Api.dispatch]. fold (chunkTaskOf rt rev).
  fold (dispatchOf rt rev).
  destruct (decide (len imageData < Z.of_nat i0 * Api.CHUNK_SIZE)) as [Hi|Hi].
  - unfold bind. rewrite chunkTask_beyond; [eauto| |done].
    unfold len in *. cbn [length] in Hb. rewrite CHUNK_SIZE_value in *. lia.
  - assert (Z.of_nat i0 * Api.CHUNK_SIZE <= len imageData) as Hi0 by lia.
    rewrite (chunkTask_within rev _ imageData i0 url s Hmax Hi0).
    unfold bind at 1 2.
    assert (rest <> []) as Hrest.
    { intros ->. unfold len in *. cbn [length] in Hout.
      rewrite CHUNK_SIZE_value in *. lia. }
    destruct (uploadChunk_returns rev cfg (chunk_of imageData (Z.of_nat i0)) url
                (Z.of_nat i0 + 1) w) as ([part|err] & w1 & ->);
      unfold ret; (apply IH; [| |exact Hrest]);
      unfold len in *; cbn [length] in Hb, Hout;
      rewrite CHUNK_SIZE_value in *; lia.
Qed.

End Returns.

Lemma len_exact_chunk : len exact_chunk = Api.CHUNK_SIZE.
Proof.
  unfold len, exact_chunk. rewrite length_replicate.
  apply Z2Nat.id. rewrite CHUNK_SIZE_value. lia.
Qed.

Lemma len_long_buffer : len long_buffer = 2 * Api.CHUNK_SIZE + 5.
Proof.
  unfold len, long_buffer. rewrite length_replicate.
  apply Z2Nat.id. rewrite CHUNK_SIZE_value. lia.
Qed.

#[global] Opaque exact_chunk long_buffer.

(** On a buffer of exactly [CHUNK_SIZE] bytes the task of index 1 gets the
    empty slice, and a dispatch over two URLs returns. *)
Lemma exact_multiple_one_more (rt : GoRuntime) (rev : Revision)
    (cfg : Api.GaiaApiConfig) (imageData : bytes) (urls : list string)
    (s : Api.Slots) (w : World) :
  len imageData = Api.CHUNK_SIZE ->
  len urls = 2 ->
  ceil_div (len imageData) Api.CHUNK_SIZE = 1
  /\ slice imageData (Api.chunkBounds 1 (len imageData)).1
                     (Api.chunkBounds 1 (len imageData)).2
     = Some []
  /\ exists s' w',
      dispatchOf rt rev (Api.NewGaiaApi cfg) imageData 0 urls s w = (Val s', w').
Proof.
  intros HL Hn. rewrite HL. split; [reflexivity|]. split.
  - assert (chunk_of imageData 1 = []) as Hnil.
    { apply length_zero_iff_nil.
      pose proof (len_chunk_of imageData 1 ltac:(lia)
                    ltac:(rewrite HL, CHUNK_SIZE_value; lia)) as Hc.
      rewrite HL, CHUNK_SIZE_value in Hc. unfold len in Hc. lia. }
    rewrite <- HL.
    rewrite (slice_within imageData 1);
      [|lia|rewrite HL, CHUNK_SIZE_value; lia
       |rewrite HL, CHUNK_SIZE_value, max_int_value; lia].
    by rewrite Hnil.
  - apply dispatch_within.
    + rewrite HL, CHUNK_SIZE_value, max_int_value. lia.
    + rewrite HL, Hn, CHUNK_SIZE_value. cbn [Z.of_nat]. lia.
Qed.

(** C10, as stated, fails at the boundary: the precondition
    [#URLs <= ceil(L/C)] is not necessary.  When [L] is a multiple of
    [C], one URL more gets the empty slice [imageData[L:L]]: for a buffer
    of exactly [CHUNK_SIZE] bytes, [ceil(L/C)] is 1, and with two upload
    URLs the second task uploads an empty chunk and the dispatch returns
    without a panic. *)
Lemma extra_url_on_exact_multiple_does_not_panic :
  ceil_div (len exact_chunk) Api.CHUNK_SIZE = 1
  /\ slice exact_chunk (Api.chunkBounds 1 (len exact_chunk)).1
                       (Api.chunkBounds 1 (len exact_chunk)).2
     = Some []
  /\ exists s' w',
      dispatchOf (UploadScenario.runtime "two" 200) Part006
                 (Api.NewGaiaApi Scenario.cfg) exact_chunk 0
                 [UploadScenario.part1_url; UploadScenario.part2_url]
                 (emptySlots 2) world0
      = (Val s', w').
Proof.
  exact (exact_multiple_one_more (UploadScenario.runtime "two" 200) Part006
           Scenario.cfg exact_chunk
           [UploadScenario.part1_url; UploadScenario.part2_url]
           (emptySlots 2) world0 len_exact_chunk eq_refl).
Qed.

(** C10, amended.  With [L = len(imageData)], [C = CHUNK_SIZE] and sizes
    that do not overflow [int], for the API object [NewGaiaApi] builds and
    in both revisions: the slice expression of the task at index [i] is
    within bounds exactly when [i*C <= L]; when [i*C > L] the boundaries
    have [end < start] and the task panics on [imageData[start:end]]
    without recording a per-part error or sending anything.  So the
    dispatch returns when initialize gives at most [floor(L/C) + 1] upload
    URLs and ends in that panic when it gives more.  The bound is
    [ceil(L/C)] unless [L] is a multiple of [C], when it is
    [ceil(L/C) + 1]. *)
Theorem chunk_index_beyond_buffer_panics :
  forall (rt : GoRuntime) (rev : Revision) (cfg : Api.GaiaApiConfig)
         (imageData : bytes) (urls : list string) (w : World),
    len imageData + Api.CHUNK_SIZE <= max_int ->
    (len urls + 1) * Api.CHUNK_SIZE <= max_int ->
    let a := Api.NewGaiaApi cfg in
    let L := len imageData in
    (forall i : nat,
        (i < length urls)%nat ->
        (Z.of_nat i * Api.CHUNK_SIZE <= L ->
         slice imageData (Api.chunkBounds (Z.of_nat i) L).1
                         (Api.chunkBounds (Z.of_nat i) L).2
         = Some (chunk_of imageData (Z.of_nat i)))
        /\ (L < Z.of_nat i * Api.CHUNK_SIZE ->
            (Api.chunkBounds (Z.of_nat i) L).2 < (Api.chunkBounds (Z.of_nat i) L).1
            /\ forall url s w0,
                chunkTaskOf rt rev a imageData i url s w0
                = (Panic "slice bounds out of range", w0)))
    /\ (len urls <= L / Api.CHUNK_SIZE + 1 ->
        exists s w',
          dispatchOf rt rev a imageData 0 urls (emptySlots (length urls)) w
          = (Val s, w'))
    /\ (L / Api.CHUNK_SIZE + 1 < len urls ->
        exists w',
          dispatchOf rt rev a imageData 0 urls (emptySlots (length urls)) w
          = (Panic "slice bounds out of range", w'))
    /\ (L / Api.CHUNK_SIZE + 1
        = if L mod Api.CHUNK_SIZE =? 0
          then ceil_div L Api.CHUNK_SIZE + 1
          else ceil_div L Api.CHUNK_SIZE).
Proof.
  intros rt rev cfg imageData urls w Hmax Hn a L.
  pose proof (len_nonneg imageData) as HL. fold L in HL, Hmax.
  pose proof (Z.div_mod L 10485760 ltac:(lia)) as Ed.
  pose proof (Z.mod_pos_bound L 10485760 ltac:(lia)) as Bd.
  split; [|split; [|split]].
  - intros i Hi. split.
    + intros Hin. by apply slice_within; [lia| |].
    + intros Hout.
      assert (Z.of_nat i * Api.CHUNK_SIZE + Api.CHUNK_SIZE <= max_int) as Hb.
      { unfold len in Hn. rewrite CHUNK_SIZE_value in *. lia. }
      split; [by apply slice_beyond; [lia| |]|].
      intros url s w0. by apply chunkTask_beyond.
  - intros Hle. apply dispatch_within; [done|].
    fold L. rewrite CHUNK_SIZE_value in *. cbn [Z.of_nat]. lia.
  - intros Hgt. apply dispatch_beyond; [done| | |].
    + rewrite CHUNK_SIZE_value in *. cbn [Z.of_nat]. lia.
    + fold L. rewrite CHUNK_SIZE_value in *. cbn [Z.of_nat]. lia.
    + intros ->. unfold len in Hgt. cbn [length] in Hgt.
      rewrite CHUNK_SIZE_value in *. lia.
  - unfold ceil_div. rewrite CHUNK_SIZE_value.
    pose proof (Z.div_mod (L + 10485760 - 1) 10485760 ltac:(lia)) as Ec.
    pose proof (Z.mod_pos_bound (L + 10485760 - 1) 10485760 ltac:(lia)) as Bc.
    destruct (L mod 10485760 =? 0) eqn:E;
      [apply Z.eqb_eq in E|apply Z.eqb_neq in E]; lia.
Qed.

(** Six bytes: one destination is fine, a second one panics. *)
Lemma chunk_index_beyond_buffer_panics_witness :
  slice UploadScenario.cat_bytes
        (Api.chunkBounds 0 (len UploadScenario.cat_bytes)).1
        (Api.chunkBounds 0 (len UploadScenario.cat_bytes)).2
  = Some (chunk_of UploadScenario.cat_bytes 0)
  /\ (Api.chunkBounds 1 (len UploadScenario.cat_bytes)).2
     < (Api.chunkBounds 1 (len UploadScenario.cat_bytes)).1
  /\ (forall url,
         chunkTaskOf (UploadScenario.runtime "two" 200) Part006 UploadScenario.api
                     UploadScenario.cat_bytes 1 url (emptySlots 2) world0
         = (Panic "slice bounds out of range", world0))
  /\ exists w',
      dispatchOf (UploadScenario.runtime "two" 200) Part006 UploadScenario.api
                 UploadScenario.cat_bytes 0
                 [UploadScenario.part1_url; UploadScenario.part2_url]
                 (emptySlots 2) world0
      = (Panic "slice bounds out of range", w').
Proof.
  destruct (chunk_index_beyond_buffer_panics
              (UploadScenario.runtime "two" 200) Part006 Scenario.cfg
              UploadScenario.cat_bytes
              [UploadScenario.part1_url; UploadScenario.part2_url] world0)
    as (Htask & _ & Hpanic & _).
  - vm_compute. discriminate.
  - vm_compute. discriminate.
  - destruct (Htask 0%nat ltac:(simpl; lia)) as [H0 _].
    destruct (Htask 1%nat ltac:(simpl; lia)) as [_ H1].
    destruct (H1 ltac:(vm_compute; reflexivity)) as [H1a H1b].
    split; [apply H0; vm_compute; discriminate|].
    split; [exact H1a|]. split; [intros url; apply H1b|].
    apply Hpanic. vm_compute. reflexivity.
Defined.

(* ===================================================================== *)
(** * The part upload of part_006 *)

Section DirectUpload.

Variable rt : GoRuntime.
Variable a : Api.gaiaApi.

(** The request is a PUT to the destination URL as given, with the chunk
    as body and exactly two headers; there is no Authorization header. *)
Lemma directPut_shape (url : string) (chunk : bytes) :
  req_Method (directPut url chunk) = "PUT"
  /\ req_URL (directPut url chunk) = url
  /\ req_Body (directPut url chunk) = chunk
  /\ req_Header (directPut url chunk) !! "Content-Type"
     = Some "application/octet-stream"
  /\ req_Header (directPut url chunk) !! "Content-Length" = Some (itoa (len chunk))
  /\ req_Header (directPut url chunk) !! "Authorization" = None
  /\ dom (req_Header (directPut url chunk))
     = ({[ "Content-Type"; "Content-Length" ]} : gset string).
Proof.
  unfold directPut. cbn [req_Method req_URL req_Body req_Header].
  split; [reflexivity|]. split; [reflexivity|]. split; [reflexivity|].
  split; [|split; [|split]].
  - rewrite lookup_insert_ne by done. by rewrite lookup_insert_eq.
  - by rewrite lookup_insert_eq.
  - rewrite !lookup_insert_ne by done. apply lookup_empty.
  - rewrite !dom_insert_L, dom_empty_L. set_solver.
Qed.

(** [uploadChunk] makes that one request and nothing else, and answers
    with a part exactly when the part upload succeeded. *)
Lemma direct_uploadChunk_run (chunk : bytes) (url : string) (partNumber : Z)
    (w : World) :
  http_NewRequest_ok rt "PUT" url = true ->
  let r := http_Do rt (sent w) (directPut url chunk) in
  exists out,
    Api.V2.uploadChunk rt a chunk url partNumber w
    = (Val out, mkWorld (sent w ++ [directPut url chunk]) (slept w))
    /\ (forall resp,
           rt_result r = Ok resp -> part_upload_succeeded r ->
           out = Ok (mkUploadPart (HttpClient.Header_Get (resp_Header resp) "ETag")
                                  partNumber))
    /\ (~ part_upload_succeeded r -> exists e, out = Err e).
Proof.
  intros Hok r. unfold Api.V2.uploadChunk, HttpClient.NewRequest.
  rewrite Hok.
  change (HttpClient.req_Set
            (HttpClient.req_Set (mkRequest "PUT" url ∅ (default [] (Some chunk)))
               "Content-Type" "application/octet-stream")
            "Content-Length" (itoa (len chunk)))
    with (directPut url chunk).
  unfold bind. rewrite Do_run. fold r. unfold part_upload_succeeded.
  destruct (rt_result r) as [resp|e] eqn:Er.
  - destruct (resp_StatusCode resp =? 200) eqn:Es; cbn [negb].
    + apply Z.eqb_eq in Es.
      destruct (String.eqb (HttpClient.Header_Get (resp_Header resp) "ETag") "")
        eqn:Ee.
      * apply String.eqb_eq in Ee. eexists. split; [reflexivity|]. split.
        -- intros resp' E (resp'' & E' & _ & Hne). congruence.
        -- eauto.
      * apply String.eqb_neq in Ee. eexists. split; [reflexivity|]. split.
        -- intros resp' E _. congruence.
        -- intros Hn. exfalso. apply Hn. eauto.
    + apply Z.eqb_neq in Es. eexists. split; [reflexivity|]. split.
      * intros resp' E (resp'' & E' & Hs & _). congruence.
      * eauto.
  - eexists. split; [reflexivity|]. split.
    + intros resp E. discriminate.
    + eauto.
Qed.

(** A chunk task within the buffer makes exactly one request, with bytes
    [[i*C, min((i+1)*C, L))] as body; it records a part with partNumber
    [i+1] and the returned tag when the part upload succeeded, and
    otherwise an error in its slot. *)
Lemma direct_chunkTask_run (imageData : bytes) (i : nat) (url : string)
    (s : Api.Slots) (w : World) :
  http_NewRequest_ok rt "PUT" url = true ->
  Z.of_nat i * Api.CHUNK_SIZE <= len imageData ->
  len imageData + Api.CHUNK_SIZE <= max_int ->
  let req := directPut url (chunk_of imageData (Z.of_nat i)) in
  let r := http_Do rt (sent w) req in
  exists s',
    chunkTaskOf rt Part006 a imageData i url s w
    = (Val s', mkWorld (sent w ++ [req]) (slept w))
    /\ (forall resp,
           rt_result r = Ok resp -> part_upload_succeeded r ->
           s' = record_part s i
                  (mkUploadPart (HttpClient.Header_Get (resp_Header resp) "ETag")
                                (Z.of_nat i + 1)))
    /\ (~ part_upload_succeeded r -> exists e, s' = record_error s i e).
Proof.
  intros Hok Hin Hmax req r.
  pose proof (slice_within imageData (Z.of_nat i) ltac:(lia) Hin Hmax) as Hs.
  unfold chunkTaskOf, Api.chunkTask.
  destruct (Api.chunkBounds _ _) as [start end_]. cbn [fst snd] in Hs.
  rewrite Hs. cbn [uploadChunkOf].
  assert (wrap64 (Z.of_nat i + 1) = Z.of_nat i + 1) as ->.
  { apply wrap64_id. pose proof (len_nonneg imageData).
    rewrite max_int_value, CHUNK_SIZE_value in *. unfold min_int. lia. }
  destruct (direct_uploadChunk_run (chunk_of imageData (Z.of_nat i)) url
              (Z.of_nat i + 1) w Hok) as (out & Hrun & Hsucc & Hfail).
  unfold bind. rewrite Hrun. fold req r in Hsucc, Hfail |- *.
  destruct out as [part|e]; unfold ret; eexists; (split; [reflexivity|]); split.
  - intros resp E Hp. specialize (Hsucc resp E Hp). inversion Hsucc; subst.
    reflexivity.
  - intros Hn. destruct (Hfail Hn) as [e He]. discriminate.
  - intros resp E Hp. specialize (Hsucc resp E Hp). discriminate.
  - intros _. exists e. reflexivity.
Qed.

(** The dispatch over destinations that all lie within the buffer sends
    one PUT per destination, in index order, chunk [i] to destination
    [i]. *)
Lemma direct_dispatch_trace (imageData : bytes) :
  len imageData + Api.CHUNK_SIZE <= max_int ->
  forall (urls : list string) (i0 : nat) (s : Api.Slots) (w : World),
    (forall url, url ∈ urls -> http_NewRequest_ok rt "PUT" url = true) ->
    (Z.of_nat i0 + len urls - 1) * Api.CHUNK_SIZE <= len imageData ->
    exists s' w',
      dispatchOf rt Part006 a imageData i0 urls s w = (Val s', w')
      /\ sent w'
         = sent w ++ imap (fun j url =>
                             directPut url (chunk_of imageData (Z.of_nat (i0 + j))))
                          urls.
Proof.
  intros Hmax. induction urls as [|url rest IH]; intros i0 s w Hok Hin.
  - exists s, w. split; [reflexivity|]. cbn. by rewrite app_nil_r.
  - unfold dispatchOf. cbn [Api.dispatch]. unfold bind.
    fold (chunkTaskOf rt Part006).
    assert (Z.of_nat i0 * Api.CHUNK_SIZE <= len imageData) as Hi0.
    { unfold len in *. cbn [length] in Hin. rewrite CHUNK_SIZE_value in *. lia. }
    destruct (direct_chunkTask_run imageData i0 url s w
                (Hok url ltac:(left)) Hi0 Hmax) as (s1 & Hrun & _).
    rewrite Hrun.
    destruct (IH (S i0) s1 (mkWorld (sent w ++ [directPut url
                  (chunk_of imageData (Z.of_nat i0))]) (slept w)))
      as (s' & w' & Hrest & Hsent).
    { intros u Hu. apply Hok. by right. }
    { unfold len in *. cbn [length] in Hin. lia. }
    exists s', w'. split; [exact Hrest|].
    rewrite Hsent. cbn [sent imap]. rewrite <- app_assoc. cbn [app].
    rewrite Nat.add_0_r. do 2 f_equal.
    apply imap_ext. intros j u _. cbn. do 3 f_equal. lia.
Qed.

End DirectUpload.

(* ===================================================================== *)
(** * Partition *)




(* ===================================================================== *)
(** * The part upload of api.go *)

(** C6.  In src/internal/api/api.go the part upload goes through the
    client's PUT: for the destination
    "https://s3.test/bucket/key?partNumber=1" and a six-byte chunk, the
    request that leaves is addressed to the base URL followed by the
    destination, carries the bearer Authorization header and no
    Content-Length header, and its body is the JSON encoding of the chunk
    (a base64 string), not the chunk. *)
Theorem api_go_part_upload_goes_through_client :
  let '(out, w') :=
    Api.V1.uploadChunk (UploadScenario.runtime "one" 200) UploadScenario.api
                       UploadScenario.cat_bytes UploadScenario.part1_url 1 world0 in
  exists req,
    sent w' = [req]
    /\ req_Method req = "PUT"
    /\ req_URL req = "https://api.gaia.testhttps://s3.test/bucket/key?partNumber=1"
    /\ req_URL req <> UploadScenario.part1_url
    /\ req_Header req !! "Authorization" = Some "Bearer test-key"
    /\ req_Header req !! "Content-Type" = Some "application/octet-stream"
    /\ req_Header req !! "Content-Length" = None
    /\ req_Body req = Demo.text (Demo.quote +:+ "AgIKCwwN" +:+ Demo.quote)
    /\ req_Body req <> UploadScenario.cat_bytes.
Proof.
  vm_compute. eexists. split; [reflexivity|].
  repeat split; try reflexivity; discriminate.
Qed.

(** C7.  In src/internal/api/api.go a chunk task whose destination
    answers 403 records an upload part (with an empty tag) and no error;
    and one whose destination answers 503 sends the chunk four times, with
    the transport's pauses in between, and then records a part as well. *)
Theorem api_go_chunk_task_retries_and_records_failures :
  (let '(out, w') :=
     chunkTaskOf (UploadScenario.runtime "one" 403) ApiGo UploadScenario.api
                 UploadScenario.cat_bytes 0 UploadScenario.part1_url
                 (emptySlots 1) world0 in
   out = Val (Api.mkSlots [Some (mkUploadPart "" 1)] [None])
   /\ map req_Method (sent w') = ["PUT"])
  /\ (let '(out, w') :=
        chunkTaskOf (UploadScenario.runtime "one" 503) ApiGo UploadScenario.api
                    UploadScenario.cat_bytes 0 UploadScenario.part1_url
                    (emptySlots 1) world0 in
      out = Val (Api.mkSlots [Some (mkUploadPart "" 1)] [None])
      /\ map req_Method (sent w') = ["PUT"; "PUT"; "PUT"; "PUT"]
      /\ slept w' = [1000000000; 2000000000; 3000000000]).
Proof. vm_compute. repeat split; reflexivity. Qed.

(** With a destination that answers 403, the upload of api.go goes on to
    finalize and reports the image as uploaded, while that of part_006
    records the image as failed. *)
Lemma rejected_part_in_both_revisions :
  (let '(out, w') :=
     uploadImageOf (UploadScenario.runtime "one" 403) ApiGo UploadScenario.api
                   "style" UploadScenario.cat_url world0 in
   out = Val (Api.Uploaded UploadScenario.cat_file))
  /\ (let '(out, w') :=
        uploadImageOf (UploadScenario.runtime "one" 403) Part006 UploadScenario.api
                      "style" UploadScenario.cat_url world0 in
      out = Val (Api.Failed UploadScenario.cat_url "Failed to upload some chunks")).
Proof. vm_compute. split; reflexivity. Qed.

(* ===================================================================== *)
(** * The batch *)

(** [UploadImages] on one reference is the loop body on that reference,
    with the outcome turned into the batch result. *)
Lemma UploadImages_single (rt : GoRuntime) (rev : Revision) (a : Api.gaiaApi)
    (imageUrl assoc : string) (w : World) :
  UploadImagesOf rt rev a [imageUrl] assoc w
  = match uploadImageOf rt rev a assoc imageUrl w with
    | (Val (Api.Uploaded file), w') => (Val (Ok [file]), w')
    | (Val (Api.Failed url reason), w') => (Val (Err (FailedFiles [(url, reason)])), w')
    | (Panic msg, w') => (Panic msg, w')
    end.
Proof.
  unfold UploadImagesOf, Api.UploadImages, uploadImageOf.
  cbn [Api.uploadLoop]. unfold bind.
  destruct (Api.uploadImage _ _ _ _ _ _ _ _) as [[[file|url reason]|msg] w'];
    reflexivity.
Qed.

(* ===================================================================== *)
(** * The batch as a whole *)

Section BatchFacts.

Variable rt : GoRuntime.

(** The loop with its two accumulators is the in-order run of the loop
    body, the outcomes being appended to the accumulators. *)
Lemma uploadLoop_uploadEach (rev : Revision) (a : Api.gaiaApi) (assoc : string) :
  forall (imageUrls : list string) (uploadedFiles : list UploadFile)
         (failedFiles : list (string * string)) (w : World),
    Api.uploadLoop rt (initUploadImageOf rt rev) (uploadChunkOf rt rev)
                   (completeUploadOf rt rev) a assoc imageUrls
                   uploadedFiles failedFiles w
    = match uploadEach rt rev a assoc imageUrls w with
      | (Val rs, w') =>
          (Val (uploadedFiles ++ uploaded_of rs, failedFiles ++ failed_of rs), w')
      | (Panic msg, w') => (Panic msg, w')
      end.
Proof.
  induction imageUrls as [|imageUrl rest IH]; intros uploadedFiles failedFiles w.
  - cbn. unfold ret. by rewrite !app_nil_r.
  - cbn [Api.uploadLoop uploadEach]. unfold bind, uploadImageOf.
    destruct (Api.uploadImage rt _ _ _ a assoc imageUrl w)
      as [[[file|url reason]|msg] w1]; [| |reflexivity].
    + rewrite IH.
      destruct (uploadEach rt rev a assoc rest w1) as [[rs|msg] w2]; [|reflexivity].
      unfold ret. cbn. by rewrite <- !app_assoc.
    + rewrite IH.
      destruct (uploadEach rt rev a assoc rest w1) as [[rs|msg] w2]; [|reflexivity].
      unfold ret. cbn. by rewrite <- !app_assoc.
Qed.

(** A run of the loop body over the batch that returns has handled every
    reference in order. *)
Lemma uploadEach_handled (rev : Revision) (a : Api.gaiaApi) (assoc : string) :
  forall (imageUrls : list string) (w w' : World) (rs : list Api.ImageResult),
    uploadEach rt rev a assoc imageUrls w = (Val rs, w') ->
    handled_in_order rt rev a assoc imageUrls w rs w'.
Proof.
  induction imageUrls as [|imageUrl rest IH]; intros w w' rs H.
  - cbn in H. unfold ret in H. injection H as <- <-. constructor.
  - cbn [uploadEach] in H. unfold bind in H.
    destruct (uploadImageOf rt rev a assoc imageUrl w) as [[r|msg] w1] eqn:E1;
      [|discriminate].
    destruct (uploadEach rt rev a assoc rest w1) as [[rs'|msg] w2] eqn:E2;
      [|discriminate].
    unfold ret in H. injection H as <- <-.
    econstructor; [exact E1|]. by apply IH.
Qed.

(** A run that panics has handled the references before the one whose
    body panicked, and none after it. *)
Lemma uploadEach_panicked (rev : Revision) (a : Api.gaiaApi) (assoc : string) :
  forall (imageUrls : list string) (w w' : World) (msg : string),
    uploadEach rt rev a assoc imageUrls w = (Panic msg, w') ->
    exists (done : list string) (imageUrl : string) (rest : list string)
           (rs : list Api.ImageResult) (w1 : World),
      imageUrls = done ++ imageUrl :: rest
      /\ handled_in_order rt rev a assoc done w rs w1
      /\ uploadImageOf rt rev a assoc imageUrl w1 = (Panic msg, w').
Proof.
  induction imageUrls as [|imageUrl rest IH]; intros w w' msg H.
  - cbn in H. discriminate.
  - cbn [uploadEach] in H. unfold bind in H.
    destruct (uploadImageOf rt rev a assoc imageUrl w) as [[r|msg1] w1] eqn:E1.
    + destruct (uploadEach rt rev a assoc rest w1) as [[rs'|msg2] w2] eqn:E2;
        [discriminate|].
      injection H as <- <-.
      destruct (IH _ _ _ E2) as (done & url & rest' & rs & w3 & -> & Hdone & Hp).
      exists (imageUrl :: done), url, rest', (r :: rs), w3.
      split; [reflexivity|]. split; [|exact Hp].
      econstructor; [exact E1|exact Hdone].
    + injection H as <- <-.
      exists [], imageUrl, rest, [], w.
      split; [reflexivity|]. split; [constructor|exact E1].
Qed.

End BatchFacts.

(** X1.  [UploadImages] handles the references in input order, each one in
    the world its predecessor left, and a reference that failed does not
    stop the batch.  Either every reference was handled, and the answer is
    all-or-nothing: the uploaded files in input order when no image failed,
    and otherwise an error listing every failed reference with its reason
    in input order, the files that were uploaded being dropped.  Or
    handling one reference panicked: the references before it were
    handled, the batch ends in that panic, and the references after it are
    never handled. *)
Theorem UploadImages_all_or_nothing :
  forall (rt : GoRuntime) (rev : Revision) (a : Api.gaiaApi)
         (imageUrls : list string) (assoc : string) (w : World),
    (exists (rs : list Api.ImageResult) (w' : World),
        handled_in_order rt rev a assoc imageUrls w rs w'
        /\ length rs = length imageUrls
        /\ UploadImagesOf rt rev a imageUrls assoc w
           = (Val (match failed_of rs with
                   | [] => Ok (uploaded_of rs)
                   | f :: fs => Err (FailedFiles (f :: fs))
                   end), w'))
    \/ (exists (done : list string) (imageUrl : string) (rest : list string)
               (rs : list Api.ImageResult) (w1 w' : World) (msg : string),
           imageUrls = done ++ imageUrl :: rest
           /\ handled_in_order rt rev a assoc done w rs w1
           /\ uploadImageOf rt rev a assoc imageUrl w1 = (Panic msg, w')
           /\ UploadImagesOf rt rev a imageUrls assoc w = (Panic msg, w')).
Proof.
  intros rt rev a imageUrls assoc w.
  unfold UploadImagesOf, Api.UploadImages, bind.
  rewrite uploadLoop_uploadEach.
  destruct (uploadEach rt rev a assoc imageUrls w) as [[rs|msg] w'] eqn:E.
  - left. exists rs, w'.
    pose proof (uploadEach_handled rt rev a assoc _ _ _ _ E) as Hh.
    split; [exact Hh|]. split.
    + clear E. induction Hh as [|? ? ? ? ? ? ? _ _ IH]; [reflexivity|].
      cbn [length]. by rewrite IH.
    + cbn [app]. destruct (failed_of rs) as [|f fs]; reflexivity.
  - right.
    destruct (uploadEach_panicked rt rev a assoc _ _ _ _ E)
      as (done & url & rest & rs & w1 & Heq & Hdone & Hp).
    exists done, url, rest, rs, w1, w', msg. done.
Qed.

(** A batch of three on a service whose initialize answers with two
    destinations for the six-byte image: the first reference is rejected
    and recorded, the second makes the dispatch slice beyond the buffer,
    and the third is never handled. *)
Example batch_ends_at_the_panic :
  let rt := UploadScenario.runtime "two" 200 in
  exists (r : Api.ImageResult) (w1 w' : World) (msg : string),
    uploadImageOf rt Part006 UploadScenario.api "STYLE" "ftp://img.test/a.png" world0
    = (Val r, w1)
    /\ uploadImageOf rt Part006 UploadScenario.api "STYLE" UploadScenario.cat_url w1
       = (Panic msg, w')
    /\ UploadImagesOf rt Part006 UploadScenario.api
         ["ftp://img.test/a.png"; UploadScenario.cat_url; "ftp://img.test/b.png"]
         "STYLE" world0
       = (Panic msg, w').
Proof.
  eexists _, _, _, _. split; [vm_compute; reflexivity|].
  split; vm_compute; reflexivity.
Qed.

(** The same batch when initialize answers with one destination: the
    rejected references do not stop the batch, the image between them is
    uploaded (downloaded twice, initialized, sent, completed), and the
    answer lists the two rejected references. *)
Example batch_continues_after_a_failure :
  exists (w' : World),
    UploadImagesOf (UploadScenario.runtime "one" 200) Part006 UploadScenario.api
      ["ftp://img.test/a.png"; UploadScenario.cat_url; "ftp://img.test/b.png"]
      "STYLE" world0
    = (Val (Err (FailedFiles [ ("ftp://img.test/a.png", validation_message);
                               ("ftp://img.test/b.png", validation_message) ])),
       w')
    /\ map (fun r => (req_Method r, req_URL r)) (sent w')
       = [ ("GET", UploadScenario.cat_url); ("GET", UploadScenario.cat_url);
           ("POST", "https://api.gaia.test/api/upload/initialize");
           ("PUT", UploadScenario.part1_url);
           ("POST", "https://api.gaia.test/api/upload/complete") ].
Proof.
  eexists. split; vm_compute; reflexivity.
Qed.

(** X2.  When no reference of the batch starts with "http", nothing at
    all is sent: an empty batch succeeds with no file, and a non-empty one
    fails with an error that lists every reference, in order, with the
    validation message. *)
Theorem UploadImages_validation_only :
  forall (rt : GoRuntime) (rev : Revision) (a : Api.gaiaApi)
         (imageUrls : list string) (assoc : string) (w : World),
    Forall (fun url => HasPrefix url "http" = false) imageUrls ->
    UploadImagesOf rt rev a imageUrls assoc w
    = (Val (match imageUrls with
            | [] => Ok []
            | _ :: _ =>
                Err (FailedFiles (map (fun url => (url, validation_message)) imageUrls))
            end), w).
Proof.
  intros rt rev a imageUrls assoc w Hall.
  unfold UploadImagesOf, Api.UploadImages, bind.
  rewrite uploadLoop_uploadEach.
  assert (uploadEach rt rev a assoc imageUrls w
          = (Val (map (fun url => Api.Failed url validation_message) imageUrls), w))
    as ->.
  { clear -Hall. induction Hall as [|url rest Hurl Hrest IH]; [reflexivity|].
    cbn [uploadEach map]. unfold bind.
    rewrite (no_http_prefix_rejected rt rev a assoc url w Hurl).
    by rewrite IH. }
  cbn [app].
  assert (failed_of (map (fun url => Api.Failed url validation_message) imageUrls)
          = map (fun url => (url, validation_message)) imageUrls) as ->.
  { clear. induction imageUrls as [|url rest IH]; [reflexivity|].
    cbn. unfold failed_of in IH. by rewrite IH. }
  destruct imageUrls as [|url rest]; reflexivity.
Qed.

(** Two references with other schemes, against any service. *)
Lemma UploadImages_validation_only_witness :
  UploadImagesOf (UploadScenario.runtime "one" 200) Part006 UploadScenario.api
                 ["ftp://img.test/a.png"; "file:///tmp/b.png"] "STYLE" world0
  = (Val (Err (FailedFiles [ ("ftp://img.test/a.png", validation_message);
                             ("file:///tmp/b.png", validation_message) ])),
     world0).
Proof.
  apply (UploadImages_validation_only (UploadScenario.runtime "one" 200) Part006
           UploadScenario.api ["ftp://img.test/a.png"; "file:///tmp/b.png"]
           "STYLE" world0).
  repeat constructor.
Defined.

(* ===================================================================== *)
(** * What finalize receives *)

(** Reading a slice of filled slots without the nil entries gives the
    parts in slot order. *)
Lemma omap_filled_slots {A} (f : A -> Z) (g : nat -> Z) :
  forall (l : list (option A)) (k : nat),
    (forall j, (j < length l)%nat ->
               exists x, l !! j = Some (Some x) /\ f x = g (k + j)%nat) ->
    map f (omap id l) = map g (seq k (length l)).
Proof.
  induction l as [|o l IH]; intros k H; [reflexivity|].
  destruct (H 0%nat ltac:(cbn; lia)) as (x & Hx & Hf).
  cbn in Hx. inversion Hx; subst o. cbn [omap id length seq map].
  cbn. rewrite Hf, Nat.add_0_r. f_equal.
  apply IH. intros j Hj.
  destruct (H (S j) ltac:(cbn; lia)) as (y & Hy & Hg).
  exists y. split; [exact Hy|]. rewrite Hg. f_equal. lia.
Qed.

(** X3.  When every chunk task of an image has succeeded, the part list
    handed to [completeUpload] has one part per upload URL, with
    partNumbers 1, 2, ..., n in this order, in both revisions. *)
Theorem finalize_parts_in_order :
  forall (rt : GoRuntime) (rev : Revision) (a : Api.gaiaApi) (imageUrl : string)
         (imageData : bytes) (init : InitUploadResponse) (s : Api.Slots)
         (w w' : World),
    len (UploadUrls init) < max_int ->
    dispatchOf rt rev a imageData 0 (UploadUrls init)
               (emptySlots (length (UploadUrls init))) w
    = (Val s, w') ->
    Api.hasErrors s = false ->
    finishOf rt rev a imageUrl init s
    = (let* e := completeUploadOf rt rev a (Key init) (UploadId init)
                                  (Api.nonNilParts s) in
       match e with
       | Some err => ret (Api.Failed imageUrl (Error err))
       | None => ret (Api.Uploaded (File init))
       end)
    /\ map PartNumber (Api.nonNilParts s)
       = map (fun i => Z.of_nat i + 1) (seq 0 (length (UploadUrls init))).
Proof.
  intros rt rev a imageUrl imageData init s w w' Hmax Hrun Hno.
  split.
  { unfold finishOf, Api.finish. by rewrite Hno. }
  destruct (dispatch_all_written rt a rev imageData _ s w w' Hrun) as (Hp & He & Hw).
  apply hasErrors_false in Hno. rewrite Forall_lookup in Hno.
  unfold Api.nonNilParts. rewrite <- Hp.
  apply (omap_filled_slots PartNumber (fun i => Z.of_nat i + 1) _ 0).
  intros j Hj. rewrite Hp in Hj.
  destruct (Hw j Hj) as [(part & F1 & F2 & _)|(e & F1 & _)].
  - exists part. split; [exact F1|]. rewrite F2. cbn [Nat.add].
    apply wrap64_id. unfold len in Hmax. rewrite max_int_value in *.
    unfold min_int. lia.
  - by apply Hno in F1.
Qed.

(** One destination answering 200: the list is part 1 alone. *)
Lemma finalize_parts_in_order_witness :
  exists s w',
    dispatchOf (UploadScenario.runtime "one" 200) Part006 UploadScenario.api
               UploadScenario.cat_bytes 0 [UploadScenario.part1_url]
               (emptySlots 1) world0
    = (Val s, w')
    /\ map PartNumber (Api.nonNilParts s) = [1].
Proof.
  eexists _, _. split; [vm_compute; reflexivity|].
  eapply (proj2 (finalize_parts_in_order (UploadScenario.runtime "one" 200) Part006
                   UploadScenario.api UploadScenario.cat_url UploadScenario.cat_bytes
                   (UploadScenario.session [UploadScenario.part1_url]) _ world0 _
                   ltac:(vm_compute; reflexivity)
                   ltac:(vm_compute; reflexivity)
                   ltac:(vm_compute; reflexivity))).
Defined.

(* ===================================================================== *)
(** * The order of the protocol *)

Lemma appends_completeUpload (rt : GoRuntime) (a : Api.gaiaApi) (rev : Revision)
    (key uploadId : string) (parts : list UploadPart) :
  HttpClient.headerInterceptors (Api.client a) = [] ->
  appends (is_finalize a) (completeUploadOf rt rev a key uploadId parts).
Proof.
  intros Hic. destruct rev; cbn [completeUploadOf];
    unfold Api.V1.completeUpload, Api.V2.completeUpload.
  - destruct (json_Marshal rt _) as [jsonData|e]; [|apply appends_ret].
    apply appends_bind; [by apply (appends_doRequest rt)|].
    intros [[res|] [e|]]; try apply appends_ret; try apply appends_panic.
    destruct (negb _); apply appends_ret.
  - apply appends_bind; [by apply (appends_doRequest rt)|].
    intros [[res|] [e|]]; try apply appends_ret; try apply appends_panic.
    destruct (body_err _); [apply appends_ret|].
    destruct (_ && _); apply appends_ret.
Qed.

Lemma appends_finish (rt : GoRuntime) (a : Api.gaiaApi) (rev : Revision)
    (imageUrl : string) (init : InitUploadResponse) (s : Api.Slots) :
  HttpClient.headerInterceptors (Api.client a) = [] ->
  appends (is_finalize a) (finishOf rt rev a imageUrl init s).
Proof.
  intros Hic. unfold finishOf, Api.finish.
  destruct (Api.hasErrors s); [apply appends_ret|].
  apply appends_bind; [by apply appends_completeUpload|].
  intros [e|]; apply appends_ret.
Qed.

(** X4.  The requests one image causes come in protocol order: first the
    GETs of the source, then the POSTs to initialize, then the PUTs of the
    parts, then the POSTs to complete (each group possibly empty, and
    holding more than one request only through the transport's retries).
    So no part is sent before initialize, and nothing follows finalize. *)
Theorem upload_requests_in_protocol_order :
  forall (rt : GoRuntime) (rev : Revision) (cfg : Api.GaiaApiConfig)
         (assoc imageUrl : string) (w : World),
    exists gets inits puts finals,
      sent_since w (uploadImageOf rt rev (Api.NewGaiaApi cfg) assoc imageUrl w).2
      = gets ++ inits ++ puts ++ finals
      /\ Forall (fun r => req_Method r = "GET") gets
      /\ Forall (is_initialize (Api.NewGaiaApi cfg)) inits
      /\ Forall (fun r => req_Method r = "PUT") puts
      /\ Forall (is_finalize (Api.NewGaiaApi cfg)) finals.
Proof.
  intros rt rev cfg assoc imageUrl w. set (a := Api.NewGaiaApi cfg).
  pose proof (NewGaiaApi_no_interceptors cfg) as Hic. fold a in Hic.
  unfold uploadImageOf, Api.uploadImage.
  destruct (HasPrefix imageUrl "http"); cbn [negb].
  2:{ exists [], [], [], []. unfold ret, sent_since. cbn [snd].
      rewrite drop_all. repeat split; constructor. }
  unfold bind at 1.
  destruct (Api.processImage rt a imageUrl w) as [r1 w1] eqn:E1.
  destruct (appends_processImage rt a imageUrl _ _ _ E1) as (g & S1 & F1).
  destruct r1 as [[[[[imageData mime] wd] ht]|e]|msg].
  2:{ exists g, [], [], []. unfold ret. cbn [snd].
      rewrite (sent_since_app _ _ _ S1), !app_nil_r. repeat split; try constructor.
      exact F1. }
  2:{ exists g, [], [], []. cbn [snd].
      rewrite (sent_since_app _ _ _ S1), !app_nil_r. repeat split; try constructor.
      exact F1. }
  unfold bind at 1.
  destruct (initUploadImageOf rt rev a imageData wd ht assoc w1) as [r2 w2] eqn:E2.
  destruct (appends_initUploadImage rt a Hic rev _ _ _ _ _ _ _ E2) as (i & S2 & F2).
  assert (sent w2 = sent w ++ (g ++ i)) as S12 by (by rewrite S2, S1, app_assoc).
  destruct r2 as [[init|e]|msg].
  2:{ exists g, i, [], []. unfold ret. cbn [snd].
      rewrite (sent_since_app _ _ _ S12), !app_nil_r. repeat split; try constructor;
        done. }
  2:{ exists g, i, [], []. cbn [snd].
      rewrite (sent_since_app _ _ _ S12), !app_nil_r. repeat split; try constructor;
        done. }
  unfold bind at 1.
  destruct (Api.dispatch (uploadChunkOf rt rev) a imageData 0 (UploadUrls init) _ w2)
    as [r3 w3] eqn:E3.
  destruct (appends_dispatch rt a Hic rev _ _ _ _ _ _ _ E3) as (p & S3 & F3).
  assert (sent w3 = sent w ++ (g ++ i ++ p)) as S123
    by (by rewrite S3, S12, <- !app_assoc).
  destruct r3 as [s|msg].
  2:{ exists g, i, p, []. cbn [snd].
      rewrite (sent_since_app _ _ _ S123), !app_nil_r. repeat split; try constructor;
        done. }
  destruct (Api.finish (completeUploadOf rt rev) a imageUrl init s w3)
    as [r4 w4] eqn:E4.
  destruct (appends_finish rt a rev imageUrl init s Hic _ _ _ E4) as (f & S4 & F4).
  exists g, i, p, f. cbn [snd]. split.
  { apply sent_since_app. by rewrite S4, S123, <- !app_assoc. }
  done.
Qed.

(** X5.  An image is reported as uploaded only when its reference passed
    the prefix check, was processed, initialize succeeded, every chunk
    task left a part and no error, and finalize returned no error; the file
    descriptor reported is the one initialize returned. *)
Theorem uploaded_means_every_step_succeeded :
  forall (rt : GoRuntime) (rev : Revision) (a : Api.gaiaApi)
         (assoc imageUrl : string) (w w' : World) (file : UploadFile),
    uploadImageOf rt rev a assoc imageUrl w = (Val (Api.Uploaded file), w') ->
    HasPrefix imageUrl "http" = true
    /\ exists imageData mime wd ht init s w1 w2 w3,
        Api.processImage rt a imageUrl w = (Val (Ok (imageData, mime, wd, ht)), w1)
        /\ initUploadImageOf rt rev a imageData wd ht assoc w1 = (Val (Ok init), w2)
        /\ dispatchOf rt rev a imageData 0 (UploadUrls init)
                      (emptySlots (length (UploadUrls init))) w2
           = (Val s, w3)
        /\ all_succeeded s
        /\ completeUploadOf rt rev a (Key init) (UploadId init) (Api.nonNilParts s) w3
           = (Val None, w')
        /\ file = File init.
Proof.
  intros rt rev a assoc imageUrl w w' file Hrun.
  unfold uploadImageOf, Api.uploadImage in Hrun.
  destruct (HasPrefix imageUrl "http") eqn:Hpre; cbn [negb] in Hrun;
    [|inversion Hrun].
  split; [reflexivity|].
  unfold bind at 1 in Hrun.
  destruct (Api.processImage rt a imageUrl w)
    as [[[[[[imageData mime] wd] ht]|e]|msg] w1] eqn:Hproc;
    [|inversion Hrun|inversion Hrun].
  unfold bind at 1 in Hrun.
  destruct (initUploadImageOf rt rev a imageData wd ht assoc w1)
    as [[[init|e]|msg] w2] eqn:Hinit; [|inversion Hrun|inversion Hrun].
  unfold bind at 1 in Hrun.
  change (Api.dispatch (uploadChunkOf rt rev) a imageData 0 (UploadUrls init)
            (Api.mkSlots (replicate (length (UploadUrls init)) None)
                         (replicate (length (UploadUrls init)) None)) w2)
    with (dispatchOf rt rev a imageData 0 (UploadUrls init)
            (emptySlots (length (UploadUrls init))) w2) in Hrun.
  destruct (dispatchOf rt rev a imageData 0 (UploadUrls init)
              (emptySlots (length (UploadUrls init))) w2)
    as [[s|msg] w3] eqn:Hdisp; [|inversion Hrun].
  unfold Api.finish in Hrun.
  destruct (Api.hasErrors s) eqn:Herr; [inversion Hrun|].
  unfold bind in Hrun.
  destruct (completeUploadOf rt rev a (Key init) (UploadId init)
              (Api.nonNilParts s) w3) as [[[e|]|msg] w4] eqn:Hfin;
    inversion Hrun; subst.
  exists imageData, mime, wd, ht, init, s, w1, w2, w3.
  repeat split; try done.
  - by apply hasErrors_false.
  - by apply (no_error_all_succeeded rt a rev imageData (UploadUrls init) s w2 w3).
Qed.

(** The six-byte image, one destination, every answer 200. *)
Lemma uploaded_means_every_step_succeeded_witness :
  exists init s w3 w',
    completeUploadOf (UploadScenario.runtime "one" 200) Part006 UploadScenario.api
                     (Key init) (UploadId init) (Api.nonNilParts s) w3
    = (Val None, w')
    /\ all_succeeded s
    /\ UploadScenario.cat_file = File init.
Proof.
  destruct (uploaded_means_every_step_succeeded (UploadScenario.runtime "one" 200)
              Part006 UploadScenario.api "STYLE" UploadScenario.cat_url world0
              (uploadImageOf (UploadScenario.runtime "one" 200) Part006
                 UploadScenario.api "STYLE" UploadScenario.cat_url world0).2
              UploadScenario.cat_file ltac:(vm_compute; reflexivity))
    as (_ & imageData & mime & wd & ht & init & s & w1 & w2 & w3 & _ & _ & _ & Hs & Hf & Hfile).
  exists init, s, w3. eexists. split; [exact Hf|]. split; [exact Hs|exact Hfile].
Defined.

(* ===================================================================== *)
(** * The headers a request goes out with *)

Section HeaderFacts.

Import HttpClient.

Lemma foldl_req_Set_other (l : list (string * string)) (K : string) :
  forall r,
    (forall k v, (k, v) ∈ l -> CanonicalMIMEHeaderKey k <> K) ->
    req_Header (foldl (fun r kv => req_Set r (fst kv) (snd kv)) r l) !! K
    = req_Header r !! K.
Proof.
  induction l as [|[k0 v0] l IH]; intros r H; [done|].
  cbn [foldl]. rewrite IH.
  - cbn. unfold Header_Set. apply lookup_insert_ne. apply (H k0 v0).
    apply elem_of_cons. by left.
  - intros k v Hin. apply (H k v). apply elem_of_cons. by right.
Qed.

Lemma foldl_req_Set_last (l : list (string * string)) (k v : string) :
  forall r,
    (k, v) ∈ l ->
    (forall k' v', (k', v') ∈ l ->
       CanonicalMIMEHeaderKey k' = CanonicalMIMEHeaderKey k -> k' = k /\ v' = v) ->
    req_Header (foldl (fun r kv => req_Set r (fst kv) (snd kv)) r l)
      !! CanonicalMIMEHeaderKey k = Some v.
Proof.
  induction l as [|[k0 v0] l IH]; intros r Hin Huniq.
  - by apply elem_of_nil in Hin.
  - cbn [foldl]. destruct (decide ((k, v) ∈ l)) as [Hl|Hl].
    + apply IH; [done|]. intros k' v' H'. apply Huniq.
      apply elem_of_cons. by right.
    + apply elem_of_cons in Hin as [Heq|?]; [|done]. inversion Heq; subst.
      rewrite foldl_req_Set_other.
      * cbn. unfold Header_Set. apply lookup_insert_eq.
      * intros k' v' H' Hc.
        destruct (Huniq k' v') as [-> ->]; [apply elem_of_cons; by right|done|done].
Qed.

(** A key no entry of the map canonicalises to keeps its value. *)
Lemma setAll_other (hs : gmap string string) (r : Request) (K : string) :
  ~ mentions hs K ->
  req_Header (setAll hs r) !! K = req_Header r !! K.
Proof.
  intros Hno. unfold setAll. apply foldl_req_Set_other.
  intros k v Hin Hc. apply Hno. exists k. split; [|done].
  apply elem_of_map_to_list in Hin. by rewrite Hin.
Qed.

(** An entry of a map without canonical clashes is set. *)
Lemma setAll_lookup (hs : gmap string string) (r : Request) (k v : string) :
  canonically_distinct hs ->
  hs !! k = Some v ->
  req_Header (setAll hs r) !! CanonicalMIMEHeaderKey k = Some v.
Proof.
  intros Hd Hk. unfold setAll. apply foldl_req_Set_last.
  - by apply elem_of_map_to_list.
  - intros k' v' Hin Hc. apply elem_of_map_to_list in Hin.
    assert (k' = k) as ->.
    { apply Hd; [by rewrite Hin|by rewrite Hk|done]. }
    split; [done|congruence].
Qed.

Lemma canonically_distinct_empty : canonically_distinct ∅.
Proof. intros k1 k2 [v H]. by rewrite lookup_empty in H. Qed.

Lemma canonically_distinct_singleton (k v : string) :
  canonically_distinct {[ k := v ]}.
Proof.
  intros k1 k2 [v1 H1] [v2 H2] _.
  apply lookup_singleton_Some in H1 as [<- _].
  apply lookup_singleton_Some in H2 as [<- _]. done.
Qed.

Lemma mentions_empty (K : string) : ~ mentions ∅ K.
Proof. intros (k & [v H] & _). by rewrite lookup_empty in H. Qed.

Lemma mentions_singleton (k v K : string) :
  CanonicalMIMEHeaderKey k <> K -> ~ mentions {[ k := v ]} K.
Proof.
  intros Hne (k' & [v' H] & Hc).
  apply lookup_singleton_Some in H as [<- _]. done.
Qed.

Lemma runInterceptors_app (ics1 ics2 : list HeaderInterceptor) (req : Request) :
  runInterceptors (ics1 ++ ics2) req
  = match runInterceptors ics1 req with
    | Ok req' => runInterceptors ics2 req'
    | Err e => Err e
    end.
Proof.
  revert req. induction ics1 as [|i ics1 IH]; intros req; [done|].
  cbn [app runInterceptors]. destruct (i req); [apply IH|done].
Qed.

End HeaderFacts.

(** X6 (applyHeaders, pkg/httpclient): for a client without interceptors
    whose default headers, like the call's own headers, have no two keys
    with the same canonical form, the headers of the outgoing request are
    layered: a header of the call is sent under its canonical key with the
    call's value; a default header the call does not mention is sent with
    the default's value; and a key neither mentions has the standard value
    (Content-Type and Accept application/json, User-Agent gaia-mcp-go/1.0)
    or else what the request already had. *)
Theorem applyHeaders_layers (c : HttpClient.Client) (req : Request)
    (customHeaders : gmap string string) :
  HttpClient.headerInterceptors c = [] ->
  canonically_distinct (HttpClient.defaultHeaders c) ->
  canonically_distinct customHeaders ->
  exists req',
    HttpClient.applyHeaders c req customHeaders = Ok req'
    /\ (forall k v, customHeaders !! k = Some v ->
          req_Header req' !! HttpClient.CanonicalMIMEHeaderKey k = Some v)
    /\ (forall k v, HttpClient.defaultHeaders c !! k = Some v ->
          ~ mentions customHeaders (HttpClient.CanonicalMIMEHeaderKey k) ->
          req_Header req' !! HttpClient.CanonicalMIMEHeaderKey k = Some v)
    /\ (forall K, ~ mentions customHeaders K ->
          ~ mentions (HttpClient.defaultHeaders c) K ->
          req_Header req' !! K = (standard_headers ∪ req_Header req) !! K).
Proof.
  intros Hic Hdd Hdc. unfold HttpClient.applyHeaders. rewrite Hic.
  cbn [HttpClient.runInterceptors]. eexists. split; [reflexivity|].
  split; [|split].
  - intros k v Hk. by apply setAll_lookup.
  - intros k v Hk Hno. rewrite setAll_other by done. by apply setAll_lookup.
  - intros K Hnc Hnd. rewrite !setAll_other by done.
    cbn. unfold HttpClient.Header_Set, standard_headers.
    by rewrite <- !insert_union_l, (left_id_L ∅ (∪)).
Qed.

Lemma applyHeaders_layers_witness :
  exists req',
    HttpClient.applyHeaders
      (HttpClient.New (HttpClient.mkConfig "https://api.gaia.test" 0 0 0 false
                         {[ "authorization" := "Bearer test-key" ]}))
      (mkRequest "GET" "https://api.gaia.test/x" ∅ [])
      {[ "accept" := "text/plain" ]} = Ok req'
    /\ req_Header req' !! "Accept" = Some "text/plain"
    /\ req_Header req' !! "Authorization" = Some "Bearer test-key"
    /\ req_Header req' !! "Content-Type" = Some "application/json".
Proof.
  destruct (applyHeaders_layers
              (HttpClient.New (HttpClient.mkConfig "https://api.gaia.test" 0 0 0 false
                                 {[ "authorization" := "Bearer test-key" ]}))
              (mkRequest "GET" "https://api.gaia.test/x" ∅ [])
              {[ "accept" := "text/plain" ]})
    as (req' & E & Hc & Hd & Hs).
  - reflexivity.
  - apply canonically_distinct_singleton.
  - apply canonically_distinct_singleton.
  - exists req'. split; [exact E|]. split; [|split].
    + apply (Hc "accept" "text/plain"). apply lookup_singleton_eq.
    + apply (Hd "authorization" "Bearer test-key").
      * apply lookup_singleton_eq.
      * apply mentions_singleton. vm_compute. discriminate.
    + rewrite (Hs "Content-Type").
      * reflexivity.
      * apply mentions_singleton. vm_compute. discriminate.
      * apply mentions_singleton. vm_compute. discriminate.
Defined.

(* ===================================================================== *)
(** * The trace of a call of the transport *)

Section TraceFacts.

Import HttpClient.

Variable rt : GoRuntime.

(** Every request of the retry loop is what [applyHeaders] made of a fresh
    request with this method and URL. *)
Lemma appends_attempts_applied (c : Client) (method url : string)
    (headers : gmap string string) :
  forall (n : nat) (attempt : Z) (lastErr : option error) (body : option bytes),
    appends (fun r => exists b,
                 applyHeaders c (mkRequest method url ∅ b) headers = Ok r)
            (attempts rt c method url headers n attempt lastErr body).
Proof.
  induction n as [|n IH]; intros attempt lastErr body.
  - apply appends_ret.
  - rewrite attempts_S. unfold NewRequest.
    destruct (http_NewRequest_ok rt method url); [|apply appends_ret].
    destruct (applyHeaders c _ headers) as [req|e] eqn:Eh; [|apply appends_ret].
    apply appends_bind; [apply appends_Do; eauto|].
    intros r. destruct (rt_result r) as [resp|e].
    + destruct (_ && _); [|apply appends_ret].
      apply appends_bind; [apply appends_Sleep|]. intros _. apply IH.
    + destruct (_ <? _); [|apply appends_ret].
      apply appends_bind; [apply appends_Sleep|]. intros _. apply IH.
Qed.

Lemma appends_doRequest_applied (c : Client) (method endpoint : string)
    (payload : option Payload) (headers : gmap string string) :
  appends (fun r => exists b,
               applyHeaders c (mkRequest method (baseURL c +:+ endpoint) ∅ b)
                            headers = Ok r)
          (doRequest rt c method endpoint payload headers).
Proof.
  unfold doRequest.
  destruct payload as [p|]; [|apply appends_attempts_applied].
  destruct (json_Marshal rt p); [apply appends_attempts_applied|apply appends_ret].
Qed.

Lemma appends_sent_since {A} (P : Request -> Prop) (m : M A) (w : World) :
  appends P m -> Forall P (sent_since w (m w).2).
Proof.
  intros H. destruct (m w) as [out w'] eqn:E.
  destruct (H _ _ _ E) as (new & E1 & F). cbn [snd].
  by rewrite (sent_since_app _ _ _ E1).
Qed.

(** [doRequest] is the retry loop over the marshalled payload. *)
Lemma doRequest_attempts (c : Client) (method endpoint : string)
    (payload : option Payload) (headers : gmap string string)
    (body : option bytes) :
  request_body rt payload body ->
  doRequest rt c method endpoint payload headers
  = attempts rt c method (baseURL c +:+ endpoint) headers
             (Z.to_nat (maxRetries c + 1)) 0 None body.
Proof.
  unfold request_body, doRequest. destruct payload as [p|].
  - intros (jsonData & -> & ->). done.
  - intros ->. done.
Qed.

Lemma constructible_body (c : Client) (method endpoint : string)
    (payload : option Payload) :
  constructible rt c method endpoint payload ->
  exists body, request_body rt payload body.
Proof.
  intros (_ & _ & Hp). unfold request_body. destruct payload as [p|].
  - destruct Hp as [b Hb]. eauto.
  - eauto.
Qed.

Lemma schedule_step (d attempt : Z) (n : nat) :
  [wrap64 (d * (attempt + 1))]
  ++ map (fun i => wrap64 (d * (attempt + 1 + Z.of_nat i))) (seq 1 n)
  = map (fun i => wrap64 (d * (attempt + Z.of_nat i))) (seq 1 (S n)).
Proof.
  change (seq 1 (S n)) with (1%nat :: seq 2 n). cbn [map app].
  rewrite <- (seq_shift n 1), map_map.
  replace (attempt + Z.of_nat 1) with (attempt + 1) by lia.
  f_equal. apply map_ext. intros i.
  replace (attempt + 1 + Z.of_nat i) with (attempt + Z.of_nat (S i)) by lia.
  done.
Qed.

(** When every attempt fails or is answered with a status that is retried,
    the loop uses every iteration, pauses before each but the first, and
    hands back the outcome of the last one. *)
Lemma attempts_always_transient (c : Client) (method url : string)
    (headers : gmap string string) :
  always_transient rt ->
  http_NewRequest_ok rt method url = true ->
  (forall req, exists req', runInterceptors (headerInterceptors c) req = Ok req') ->
  forall (n : nat) (attempt : Z) (lastErr : option error) (body : option bytes)
         (w : World),
    Z.of_nat (S n) = maxRetries c + 1 - attempt ->
    exists w' new hist last,
      attempts rt c method url headers (S n) attempt lastErr body w
      = (Val (match rt_result (http_Do rt hist last) with
              | Ok resp => (Some resp, None)
              | Err e =>
                  (None, Some (Wrapf ("request failed after "
                                      +:+ itoa (wrap64 (maxRetries c + 1))
                                      +:+ " attempts") e))
              end), w')
      /\ sent w' = sent w ++ new
      /\ length new = S n
      /\ sent w' = hist ++ [last]
      /\ slept w'
         = slept w ++ map (fun i => wrap64 (retryDelay c * (attempt + Z.of_nat i)))
                          (seq 1 n).
Proof.
  intros Htr Hok Hic.
  induction n as [|n IH]; intros attempt lastErr body w Hn;
    rewrite attempts_S; unfold NewRequest; rewrite Hok;
    destruct (applyHeaders_ok c (mkRequest method url ∅ (default [] body))
                headers Hic) as [req ->];
    unfold bind at 1; rewrite Do_run;
    pose proof (Htr (sent w) req) as Hretry;
    destruct (rt_result (http_Do rt (sent w) req)) as [resp|e] eqn:Hdo.
  - assert ((attempt <? maxRetries c) = false) as -> by (apply Z.ltb_ge; lia).
    rewrite andb_false_r. unfold ret.
    eexists _, [req], (sent w), req. rewrite Hdo.
    split; [reflexivity|]. cbn. by rewrite app_nil_r.
  - assert ((attempt <? maxRetries c) = false) as -> by (apply Z.ltb_ge; lia).
    unfold ret.
    eexists _, [req], (sent w), req. rewrite Hdo.
    split; [reflexivity|]. cbn. by rewrite app_nil_r.
  - assert ((attempt <? maxRetries c) = true) as -> by (apply Z.ltb_lt; lia).
    rewrite Hretry. cbn [andb]. unfold bind at 1. unfold Sleep at 1.
    set (w1 := mkWorld _ _).
    destruct (IH (attempt + 1) lastErr
                 (option_map (dropZ (rt_read (http_Do rt (sent w) req))) body) w1)
      as (w' & new & hist & last & Hrun & Hsent & Hlen & Hlast & Hslept);
      [lia|].
    exists w', (req :: new), hist, last.
    split; [exact Hrun|]. split.
    { rewrite Hsent. subst w1. cbn [sent]. by rewrite <- app_assoc. }
    split; [cbn; lia|]. split; [done|].
    rewrite Hslept. subst w1. cbn [slept]. rewrite <- app_assoc.
    f_equal. apply schedule_step.
  - assert ((attempt <? maxRetries c) = true) as -> by (apply Z.ltb_lt; lia).
    unfold bind at 1. unfold Sleep at 1.
    set (w1 := mkWorld _ _).
    destruct (IH (attempt + 1) (Some e)
                 (option_map (dropZ (rt_read (http_Do rt (sent w) req))) body) w1)
      as (w' & new & hist & last & Hrun & Hsent & Hlen & Hlast & Hslept);
      [lia|].
    exists w', (req :: new), hist, last.
    split; [exact Hrun|]. split.
    { rewrite Hsent. subst w1. cbn [sent]. by rewrite <- app_assoc. }
    split; [cbn; lia|]. split; [done|].
    rewrite Hslept. subst w1. cbn [slept]. rewrite <- app_assoc.
    f_equal. apply schedule_step.
Qed.

Lemma always_unreachable_transient : always_unreachable rt -> always_transient rt.
Proof.
  intros H hist req. destruct (H hist req) as (k & e & ->). done.
Qed.

End TraceFacts.

(** X7 (SetBearerToken, SetDefaultHeader, applyHeaders, doRequest): after
    [SetBearerToken], every request a call sends, retries included, carries
    [Authorization: Bearer <token>], provided the client has no
    interceptors, no other default header canonicalises to Authorization,
    and the call's own headers do not set it. *)
Theorem bearer_token_on_every_request (rt : GoRuntime) (c : HttpClient.Client)
    (token method endpoint : string) (payload : option Payload)
    (headers : gmap string string) (w : World) :
  HttpClient.headerInterceptors c = [] ->
  canonically_distinct
    (<["Authorization" := "Bearer " +:+ token]> (HttpClient.defaultHeaders c)) ->
  ~ mentions headers "Authorization" ->
  Forall (fun r => HttpClient.Header_Get (req_Header r) "Authorization"
                   = "Bearer " +:+ token)
         (sent_since w
            (HttpClient.doRequest rt (ClientSetup.SetBearerToken c token)
               method endpoint payload headers w).2).
Proof.
  intros Hic Hd Hno.
  eapply Forall_impl; [apply appends_sent_since, appends_doRequest_applied|].
  intros r [b E]. cbn beta in E. unfold HttpClient.applyHeaders in E.
  cbn [ClientSetup.SetBearerToken ClientSetup.SetDefaultHeader
       ClientSetup.withDefaultHeaders HttpClient.headerInterceptors
       HttpClient.defaultHeaders] in E.
  rewrite Hic in E. cbn [HttpClient.runInterceptors] in E.
  inversion E as [E']; clear E E'.
  unfold HttpClient.Header_Get.
  change (HttpClient.CanonicalMIMEHeaderKey "Authorization") with "Authorization".
  rewrite setAll_other by done.
  match goal with
  | |- context [HttpClient.setAll ?hs ?r0] =>
      pose proof (setAll_lookup hs r0 "Authorization" ("Bearer " +:+ token) Hd
                    (lookup_insert_eq _ _ _)) as H
  end.
  change (HttpClient.CanonicalMIMEHeaderKey "Authorization")
    with "Authorization" in H.
  by rewrite H.
Qed.

Lemma bearer_token_on_every_request_witness :
  Forall (fun r => HttpClient.Header_Get (req_Header r) "Authorization"
                   = "Bearer " +:+ "s3cret")
         (sent_since world0
            (HttpClient.doRequest Scenario.rt_busy
               (ClientSetup.SetBearerToken
                  (HttpClient.New (HttpClient.mkConfig "https://api.gaia.test"
                                     0 0 0 false ∅))
                  "s3cret")
               "GET" Scenario.task_path None ∅ world0).2).
Proof.
  apply bearer_token_on_every_request.
  - reflexivity.
  - apply canonically_distinct_singleton.
  - apply mentions_empty.
Defined.

(** X8 (SetBasicAuth, AddHeaderInterceptor, applyHeaders, doRequest): after
    [SetBasicAuth], every request a call sends carries the Basic
    credentials in Authorization, whatever the default headers and the
    call's own headers say: the interceptor runs last. *)
Theorem basic_auth_on_every_request (rt : GoRuntime) (c : HttpClient.Client)
    (username password method endpoint : string) (payload : option Payload)
    (headers : gmap string string) (w : World) :
  Forall (fun r => HttpClient.Header_Get (req_Header r) "Authorization"
                   = ClientSetup.basicAuth rt username password)
         (sent_since w
            (HttpClient.doRequest rt
               (ClientSetup.SetBasicAuth rt c username password)
               method endpoint payload headers w).2).
Proof.
  eapply Forall_impl; [apply appends_sent_since, appends_doRequest_applied|].
  intros r [b E]. cbn beta in E. unfold HttpClient.applyHeaders in E.
  cbn [ClientSetup.SetBasicAuth ClientSetup.AddHeaderInterceptor
       HttpClient.headerInterceptors] in E.
  rewrite runInterceptors_app in E.
  destruct (HttpClient.runInterceptors (HttpClient.headerInterceptors c) _)
    as [r1|e]; [|done].
  cbn [HttpClient.runInterceptors] in E. inversion E as [E']; clear E E'.
  unfold HttpClient.Header_Get, HttpClient.req_Set, HttpClient.Header_Set.
  cbn [req_Header]. by rewrite lookup_insert_eq.
Qed.

(** X9 (doRequest): when the request of a call cannot be built - the
    payload does not marshal, the method or URL is refused, or an
    interceptor fails - the call returns an error naming the step, sends
    nothing and does not pause. *)
Theorem build_failure_sends_nothing (rt : GoRuntime) (c : HttpClient.Client)
    (method endpoint : string) (payload : option Payload)
    (headers : gmap string string) (w : World) :
  0 <= HttpClient.maxRetries c ->
  (exists p e, payload = Some p /\ json_Marshal rt p = Err e)
  \/ http_NewRequest_ok rt method (HttpClient.baseURL c +:+ endpoint) = false
  \/ (forall req, exists e,
        HttpClient.runInterceptors (HttpClient.headerInterceptors c) req = Err e) ->
  exists msg cause,
    HttpClient.doRequest rt c method endpoint payload headers w
    = (Val (None, Some (Wrapf msg cause)), w)
    /\ msg ∈ ["failed to marshal payload"; "failed to create request";
              "failed to apply headers"].
Proof.
  intros Hmax Hfail.
  assert (exists n, Z.to_nat (HttpClient.maxRetries c + 1) = S n) as [n Hn].
  { exists (Z.to_nat (HttpClient.maxRetries c)). lia. }
  assert (forall body,
             (http_NewRequest_ok rt method (HttpClient.baseURL c +:+ endpoint) = false
              \/ (forall req, exists e,
                     HttpClient.runInterceptors (HttpClient.headerInterceptors c) req
                     = Err e)) ->
             exists msg cause,
               HttpClient.attempts rt c method (HttpClient.baseURL c +:+ endpoint)
                 headers (S n) 0 None body w
               = (Val (None, Some (Wrapf msg cause)), w)
               /\ msg ∈ ["failed to marshal payload"; "failed to create request";
                         "failed to apply headers"]) as Hloop.
  { intros body Hf. rewrite attempts_S. unfold HttpClient.NewRequest.
    destruct (http_NewRequest_ok rt method _) eqn:Hok.
    - destruct Hf as [Hf|Hf]; [done|].
      unfold HttpClient.applyHeaders.
      match goal with
      | |- context [HttpClient.runInterceptors _ ?r] =>
          destruct (Hf r) as [e ->]
      end.
      eexists _, _. split; [reflexivity|]. rewrite !elem_of_cons. auto.
    - eexists _, _. split; [reflexivity|]. rewrite !elem_of_cons. auto. }
  unfold HttpClient.doRequest. rewrite Hn.
  destruct Hfail as [(p & e & -> & Hm)|Hf].
  - rewrite Hm. eexists _, _. split; [reflexivity|]. rewrite !elem_of_cons. auto.
  - destruct payload as [p|]; [|by apply Hloop].
    destruct (json_Marshal rt p) as [jsonData|e]; [by apply Hloop|].
    eexists _, _. split; [reflexivity|]. rewrite !elem_of_cons. auto.
Qed.

Lemma build_failure_sends_nothing_witness :
  exists msg cause,
    HttpClient.doRequest Scenario.rt_busy (Api.client Scenario.api)
      "GET" TransportScenario.bad_endpoint None ∅ world0
    = (Val (None, Some (Wrapf msg cause)), world0)
    /\ msg ∈ ["failed to marshal payload"; "failed to create request";
              "failed to apply headers"].
Proof.
  apply build_failure_sends_nothing.
  - vm_compute. discriminate.
  - right. left. vm_compute. reflexivity.
Defined.

(** X10 (doRequest, shouldRetry): a response whose status is not one of
    429, 500, 502, 503, 504 ends the call at the first attempt: one request
    is sent, there is no pause, and the response is handed back as it is,
    whatever its status. *)
Theorem final_status_single_attempt (rt : GoRuntime) (c : HttpClient.Client)
    (method endpoint : string) (payload : option Payload)
    (headers : gmap string string) (body : option bytes)
    (req : Request) (k : Z) (resp : Response) (w : World) :
  0 <= HttpClient.maxRetries c ->
  request_body rt payload body ->
  http_NewRequest_ok rt method (HttpClient.baseURL c +:+ endpoint) = true ->
  HttpClient.applyHeaders c
    (mkRequest method (HttpClient.baseURL c +:+ endpoint) ∅ (default [] body))
    headers = Ok req ->
  http_Do rt (sent w) req = mkRoundTrip k (Ok resp) ->
  HttpClient.shouldRetry (resp_StatusCode resp) = false ->
  HttpClient.doRequest rt c method endpoint payload headers w
  = (Val (Some resp, None), mkWorld (sent w ++ [req]) (slept w)).
Proof.
  intros Hmax Hbody Hok Hreq Hdo Hfinal.
  rewrite (doRequest_attempts rt c method endpoint payload headers body Hbody).
  replace (Z.to_nat (HttpClient.maxRetries c + 1))
    with (S (Z.to_nat (HttpClient.maxRetries c))) by lia.
  rewrite attempts_S. unfold HttpClient.NewRequest. rewrite Hok, Hreq.
  unfold bind at 1. rewrite Do_run, Hdo. cbn [rt_result].
  by rewrite Hfinal.
Qed.

Lemma final_status_single_attempt_witness :
  exists req resp,
    HttpClient.doRequest (TransportScenario.rt_answering 404 "not found")
      (Api.client Scenario.api) "GET" Scenario.task_path None ∅ world0
    = (Val (Some resp, None), mkWorld (sent world0 ++ [req]) (slept world0))
    /\ resp_StatusCode resp = 404.
Proof.
  eexists _, _. split.
  - eapply (final_status_single_attempt
              (TransportScenario.rt_answering 404 "not found")
              (Api.client Scenario.api) "GET" Scenario.task_path None ∅ None).
    + vm_compute. discriminate.
    + reflexivity.
    + vm_compute. reflexivity.
    + vm_compute. reflexivity.
    + vm_compute. reflexivity.
    + vm_compute. reflexivity.
  - reflexivity.
Defined.

(** X11 (doRequest): when every attempt fails before a response arrives,
    the call makes [maxRetries + 1] attempts and returns no response and
    the error of the last attempt wrapped as
    "request failed after <maxRetries + 1> attempts". *)
Theorem unreachable_service_exhausts_attempts (rt : GoRuntime)
    (c : HttpClient.Client) (method endpoint : string)
    (payload : option Payload) (headers : gmap string string) (w : World) :
  0 <= HttpClient.maxRetries c ->
  always_unreachable rt ->
  constructible rt c method endpoint payload ->
  exists w' hist last k e,
    HttpClient.doRequest rt c method endpoint payload headers w
    = (Val (None, Some (Wrapf ("request failed after "
                               +:+ itoa (wrap64 (HttpClient.maxRetries c + 1))
                               +:+ " attempts") e)), w')
    /\ len (sent_since w w') = HttpClient.maxRetries c + 1
    /\ sent w' = hist ++ [last]
    /\ http_Do rt hist last = mkRoundTrip k (Err e).
Proof.
  intros Hmax Hdown Hc.
  destruct (constructible_body rt c method endpoint payload Hc) as [body Hbody].
  destruct Hc as (Hok & Hic & _).
  rewrite (doRequest_attempts rt c method endpoint payload headers body Hbody).
  replace (Z.to_nat (HttpClient.maxRetries c + 1))
    with (S (Z.to_nat (HttpClient.maxRetries c))) by lia.
  destruct (attempts_always_transient rt c method _ headers
              (always_unreachable_transient rt Hdown) Hok Hic
              (Z.to_nat (HttpClient.maxRetries c)) 0 None body w)
    as (w' & new & hist & last & Hrun & Hsent & Hlen & Hlast & _); [lia|].
  destruct (Hdown hist last) as (k & e & Hdo).
  rewrite Hdo in Hrun. cbn [rt_result] in Hrun.
  exists w', hist, last, k, e.
  split; [exact Hrun|]. split; [|done].
  rewrite (sent_since_app _ _ _ Hsent). unfold len. lia.
Qed.

Lemma unreachable_service_exhausts_attempts_witness :
  exists w' hist last k e,
    HttpClient.doRequest TransportScenario.rt_down (Api.client Scenario.api)
      "GET" Scenario.task_path None ∅ world0
    = (Val (None, Some (Wrapf ("request failed after "
                               +:+ itoa (wrap64 (HttpClient.maxRetries
                                                   (Api.client Scenario.api) + 1))
                               +:+ " attempts") e)), w')
    /\ len (sent_since world0 w')
       = HttpClient.maxRetries (Api.client Scenario.api) + 1
    /\ sent w' = hist ++ [last]
    /\ http_Do TransportScenario.rt_down hist last = mkRoundTrip k (Err e).
Proof.
  apply unreachable_service_exhausts_attempts.
  - vm_compute. discriminate.
  - intros hist req. by eexists _, _.
  - split; [vm_compute; reflexivity|]. split; [|exact I].
    intros req. by eexists.
Defined.

(** X12 (doRequest): when every attempt fails or is answered with a status
    that is retried, the call pauses before each retry for
    [retryDelay * attempt] (in 64-bit arithmetic): retryDelay, twice
    retryDelay, ..., [maxRetries] pauses for [maxRetries + 1] requests, and
    none after the last attempt. *)
Theorem retries_back_off_linearly (rt : GoRuntime)
    (c : HttpClient.Client) (method endpoint : string)
    (payload : option Payload) (headers : gmap string string) (w : World) :
  0 <= HttpClient.maxRetries c ->
  always_transient rt ->
  constructible rt c method endpoint payload ->
  let w' := (HttpClient.doRequest rt c method endpoint payload headers w).2 in
  slept w' = slept w ++ backoff_schedule c
  /\ len (sent_since w w') = HttpClient.maxRetries c + 1.
Proof.
  intros Hmax Htr Hc.
  destruct (constructible_body rt c method endpoint payload Hc) as [body Hbody].
  destruct Hc as (Hok & Hic & _).
  rewrite (doRequest_attempts rt c method endpoint payload headers body Hbody).
  replace (Z.to_nat (HttpClient.maxRetries c + 1))
    with (S (Z.to_nat (HttpClient.maxRetries c))) by lia.
  destruct (attempts_always_transient rt c method _ headers Htr Hok Hic
              (Z.to_nat (HttpClient.maxRetries c)) 0 None body w)
    as (w' & new & hist & last & Hrun & Hsent & Hlen & Hlast & Hslept); [lia|].
  rewrite Hrun. cbn [snd]. split.
  - rewrite Hslept. done.
  - rewrite (sent_since_app _ _ _ Hsent). unfold len. lia.
Qed.

Lemma retries_back_off_linearly_witness :
  let w' := (HttpClient.doRequest Scenario.rt_busy (Api.client Scenario.api)
               "GET" Scenario.task_path None ∅ world0).2 in
  slept w' = slept world0 ++ backoff_schedule (Api.client Scenario.api)
  /\ len (sent_since world0 w')
     = HttpClient.maxRetries (Api.client Scenario.api) + 1.
Proof.
  apply retries_back_off_linearly.
  - vm_compute. discriminate.
  - intros hist req. reflexivity.
  - split; [vm_compute; reflexivity|]. split; [|exact I].
    intros req. by eexists.
Defined.

(** X13 (doRequest): a first attempt that fails or is answered with a
    retried status, followed by an attempt answered with any other status,
    makes a call of two requests and one pause of [retryDelay]; the second
    response is the result and the first failure leaves no trace in it.
    The second request is built from what the first attempt left unread of
    the body. *)
Theorem retry_then_answer (rt : GoRuntime) (c : HttpClient.Client)
    (method endpoint : string) (payload : option Payload)
    (headers : gmap string string) (body : option bytes)
    (req1 req2 : Request) (k1 k2 : Z) (r1 : result Response)
    (resp2 : Response) (w : World) :
  0 < HttpClient.maxRetries c ->
  request_body rt payload body ->
  http_NewRequest_ok rt method (HttpClient.baseURL c +:+ endpoint) = true ->
  HttpClient.applyHeaders c
    (mkRequest method (HttpClient.baseURL c +:+ endpoint) ∅ (default [] body))
    headers = Ok req1 ->
  http_Do rt (sent w) req1 = mkRoundTrip k1 r1 ->
  match r1 with
  | Ok resp1 => HttpClient.shouldRetry (resp_StatusCode resp1) = true
  | Err _ => True
  end ->
  HttpClient.applyHeaders c
    (mkRequest method (HttpClient.baseURL c +:+ endpoint) ∅
               (default [] (option_map (dropZ k1) body)))
    headers = Ok req2 ->
  http_Do rt (sent w ++ [req1]) req2 = mkRoundTrip k2 (Ok resp2) ->
  HttpClient.shouldRetry (resp_StatusCode resp2) = false ->
  HttpClient.doRequest rt c method endpoint payload headers w
  = (Val (Some resp2, None),
     mkWorld (sent w ++ [req1; req2])
             (slept w ++ [wrap64 (HttpClient.retryDelay c * 1)])).
Proof.
  intros Hmax Hbody Hok Hreq1 Hdo1 Hretry Hreq2 Hdo2 Hfinal.
  rewrite (doRequest_attempts rt c method endpoint payload headers body Hbody).
  replace (Z.to_nat (HttpClient.maxRetries c + 1))
    with (S (S (Z.to_nat (HttpClient.maxRetries c - 1)))) by lia.
  rewrite attempts_S. unfold HttpClient.NewRequest at 1. rewrite Hok, Hreq1.
  unfold bind at 1. rewrite Do_run, Hdo1. cbn [rt_result rt_read].
  assert ((0 <? HttpClient.maxRetries c) = true) as Hlt by (apply Z.ltb_lt; lia).
  assert (forall lastErr,
             (Sleep (wrap64 (HttpClient.retryDelay c * (0 + 1))) >>
              HttpClient.attempts rt c method (HttpClient.baseURL c +:+ endpoint)
                headers (S (Z.to_nat (HttpClient.maxRetries c - 1))) (0 + 1)
                lastErr (option_map (dropZ k1) body))
               (mkWorld (sent w ++ [req1]) (slept w))
             = (Val (Some resp2, None),
                mkWorld (sent w ++ [req1; req2])
                        (slept w ++ [wrap64 (HttpClient.retryDelay c * 1)])))
    as Hsecond.
  { intros lastErr. unfold bind at 1. unfold Sleep at 1. cbn [sent slept].
    rewrite attempts_S. unfold HttpClient.NewRequest. rewrite Hok, Hreq2.
    unfold bind at 1. rewrite Do_run. cbn [sent slept]. rewrite Hdo2.
    cbn [rt_result]. rewrite Hfinal. cbn [andb]. unfold ret.
    by rewrite <- app_assoc. }
  destruct r1 as [resp1|e].
  - rewrite Hretry, Hlt. cbn [andb]. apply Hsecond.
  - rewrite Hlt. apply Hsecond.
Qed.

Lemma retry_then_answer_witness :
  exists req1 req2 resp2,
    HttpClient.doRequest Scenario.rt_busy_once (Api.client Scenario.api)
      "GET" Scenario.task_path None ∅ world0
    = (Val (Some resp2, None),
       mkWorld (sent world0 ++ [req1; req2])
               (slept world0
                ++ [wrap64 (HttpClient.retryDelay (Api.client Scenario.api) * 1)]))
    /\ resp_StatusCode resp2 = 200.
Proof.
  eexists _, _, _. split.
  - eapply (retry_then_answer Scenario.rt_busy_once (Api.client Scenario.api)
              "GET" Scenario.task_path None ∅ None).
    + vm_compute. reflexivity.
    + reflexivity.
    + vm_compute. reflexivity.
    + vm_compute. reflexivity.
    + vm_compute. reflexivity.
    + vm_compute. reflexivity.
    + vm_compute. reflexivity.
    + vm_compute. reflexivity.
    + vm_compute. reflexivity.
  - reflexivity.
Defined.

(* ===================================================================== *)
(** * Fetching and encoding a reference *)

Section ImageFacts.

Import ImageUtil.

Variable rt : GoRuntime.

(** [downloadImage] makes at most one request and never pauses; what it
    answers is decided by that one exchange. *)
Lemma downloadImage_run (p : Processor) (url : string) (w : World) :
  downloadImage rt p url w
  = if http_NewRequest_ok rt "GET" url
    then
      (Val match rt_result (http_Do rt (sent w) (download_request p url)) with
           | Err e => Err (Wrapf "downloading image" e)
           | Ok resp =>
               if negb (resp_StatusCode resp =? 200)
               then Err (Errorf ("unexpected status code: "
                                 +:+ itoa (resp_StatusCode resp)))
               else
                 match body_err (resp_Body resp) with
                 | Some e => Err (Wrapf "reading response body" e)
                 | None =>
                     match image_Decode rt (body_data (resp_Body resp)) with
                     | Err e => Err (Wrapf "decoding image" e)
                     | Ok (img, format) => Ok (img, format)
                     end
                 end
           end,
       mkWorld (sent w ++ [download_request p url]) (slept w))
    else (Val (Err (Wrapf "creating request"
                          (LibError "net/http" "invalid method or URL"))), w).
Proof.
  unfold downloadImage, HttpClient.NewRequest.
  destruct (http_NewRequest_ok rt "GET" url); [|reflexivity].
  unfold bind. rewrite Do_run.
  assert (HttpClient.req_Set (mkRequest "GET" url ∅ (default [] None))
            "User-Agent" (UserAgent (config p)) = download_request p url) as ->.
  { unfold HttpClient.req_Set, HttpClient.Header_Set, download_request.
    cbn [req_Method req_URL req_Header req_Body default].
    change (HttpClient.CanonicalMIMEHeaderKey "User-Agent") with "User-Agent".
    by rewrite insert_empty. }
  destruct (rt_result (http_Do rt (sent w) (download_request p url)))
    as [resp|e]; [|reflexivity].
  destruct (negb (resp_StatusCode resp =? 200)); [reflexivity|].
  destruct (body_err (resp_Body resp)); [reflexivity|].
  destruct (image_Decode rt (body_data (resp_Body resp))) as [[img format]|e];
    reflexivity.
Qed.

Lemma downloadImage_Ok (p : Processor) (url : string) (w w' : World)
    (img : Image) (format : string) :
  downloadImage rt p url w = (Val (Ok (img, format)), w') ->
  exists resp,
    w' = mkWorld (sent w ++ [download_request p url]) (slept w)
    /\ rt_result (http_Do rt (sent w) (download_request p url)) = Ok resp
    /\ resp_StatusCode resp = 200
    /\ body_err (resp_Body resp) = None
    /\ image_Decode rt (body_data (resp_Body resp)) = Ok (img, format).
Proof.
  rewrite downloadImage_run.
  destruct (http_NewRequest_ok rt "GET" url); [|intros H; inversion H].
  destruct (rt_result (http_Do rt (sent w) (download_request p url)))
    as [resp|e]; [|intros H; inversion H].
  destruct (resp_StatusCode resp =? 200) eqn:Hst; cbn [negb];
    [|intros H; inversion H].
  destruct (body_err (resp_Body resp)) eqn:Hbe; [intros H; inversion H|].
  destruct (image_Decode rt (body_data (resp_Body resp)))
    as [[img' format']|e] eqn:Hdec; intros H; inversion H; subst.
  exists resp. split; [done|]. split; [done|].
  split; [by apply Z.eqb_eq|]. split; done.
Qed.

Lemma encodeImageToBase64Pure_mime (p : Processor) (img : Image)
    (format encoded mimeType : string) :
  encodeImageToBase64Pure rt p img format = Ok (encoded, mimeType) ->
  mimeType = "image/jpeg" \/ mimeType = "image/png".
Proof.
  unfold encodeImageToBase64Pure.
  destruct (_ || _).
  - destruct (jpeg_Encode rt _ img); intros H; inversion H; auto.
  - destruct (png_Encode rt img); intros H; inversion H; auto.
Qed.

End ImageFacts.

(** X14 (processImage of api.go, ProcessImageNoResizeForMCP,
    GetImageDimensions, downloadImage): a reference that is processed
    successfully is downloaded twice, with two identical GET requests and
    no pause.  The bytes to upload are the base64-decoded re-encoding of
    the image decoded from the first response (left at its size when it is
    at most 100000 pixels each way); the width and height are those of the
    image decoded from the second response. *)
Theorem processImage_downloads_twice (rt : GoRuntime) (a : Api.gaiaApi)
    (imageUrl : string) (imageData : bytes) (mimeType : string) (wd ht : Z)
    (w w' : World) :
  Api.processImage rt a imageUrl w = (Val (Ok (imageData, mimeType, wd, ht)), w') ->
  exists resp1 resp2 img1 format1 img2 format2 resized encoded,
    w' = mkWorld (sent w ++ [download_request ImageUtil.NewDefaultProcessor imageUrl;
                             download_request ImageUtil.NewDefaultProcessor imageUrl])
                 (slept w)
    /\ rt_result (http_Do rt (sent w)
                    (download_request ImageUtil.NewDefaultProcessor imageUrl))
       = Ok resp1
    /\ image_Decode rt (body_data (resp_Body resp1)) = Ok (img1, format1)
    /\ rt_result (http_Do rt
                    (sent w ++ [download_request ImageUtil.NewDefaultProcessor imageUrl])
                    (download_request ImageUtil.NewDefaultProcessor imageUrl))
       = Ok resp2
    /\ image_Decode rt (body_data (resp_Body resp2)) = Ok (img2, format2)
    /\ ImageUtil.resizeImage no_resize_processor img1 = Val resized
    /\ ImageUtil.encodeImageToBase64Pure rt no_resize_processor resized format1
       = Ok (encoded, mimeType)
    /\ (Dx img1 <= 100000 -> Dy img1 <= 100000 -> resized = img1)
    /\ base64_DecodeString rt encoded = Ok imageData
    /\ wd = Dx img2 /\ ht = Dy img2.
Proof.
  intros Hrun. unfold Api.processImage in Hrun.
  unfold ImageUtil.ProcessImageNoResizeForMCP, ImageUtil.ProcessImageFromURLForMCP
    in Hrun.
  change (ImageUtil.NewProcessor _) with no_resize_processor in Hrun.
  unfold bind at 1 2 in Hrun.
  destruct (ImageUtil.downloadImage rt no_resize_processor imageUrl w)
    as [[[[img1 format1]|e]|msg] w1] eqn:Hd1;
    [|inversion Hrun|inversion Hrun].
  destruct (downloadImage_Ok rt _ _ _ _ _ _ Hd1)
    as (resp1 & -> & Hdo1 & _ & _ & Hdec1).
  destruct (ImageUtil.resizeImage no_resize_processor img1)
    as [resized|msg] eqn:Hres; [|inversion Hrun].
  destruct (ImageUtil.encodeImageToBase64Pure rt no_resize_processor _ format1)
    as [[encoded mime]|e] eqn:Henc; [|inversion Hrun].
  unfold ret at 1 in Hrun.
  destruct (base64_DecodeString rt encoded) as [data|e] eqn:Hb64;
    [|inversion Hrun].
  unfold ImageUtil.GetImageDimensions, ImageUtil.DownloadImage in Hrun.
  unfold bind at 1 2 in Hrun.
  destruct (ImageUtil.downloadImage rt ImageUtil.NewDefaultProcessor imageUrl _)
    as [[[[img2 format2]|e]|msg] w2] eqn:Hd2;
    [|inversion Hrun|inversion Hrun].
  destruct (downloadImage_Ok rt _ _ _ _ _ _ Hd2)
    as (resp2 & -> & Hdo2 & _ & _ & Hdec2).
  cbn [sent slept] in *. inversion Hrun; subst.
  exists resp1, resp2, img1, format1, img2, format2, resized, encoded.
  split; [by rewrite <- app_assoc|].
  split; [exact Hdo1|]. split; [exact Hdec1|]. split; [exact Hdo2|].
  split; [exact Hdec2|]. split; [exact Hres|]. split; [exact Henc|].
  split; [|done].
  intros Hx Hy. unfold ImageUtil.resizeImage in Hres.
  cbn [no_resize_processor ImageUtil.NewProcessor ImageUtil.config
       ImageUtil.MaxWidth ImageUtil.MaxHeight] in Hres.
  assert ((Dx img1 <=? 100000) = true) as E1 by (apply Z.leb_le; lia).
  assert ((Dy img1 <=? 100000) = true) as E2 by (apply Z.leb_le; lia).
  rewrite E1, E2 in Hres. cbn [andb] in Hres. by inversion Hres.
Qed.

Lemma processImage_downloads_twice_witness :
  exists resp2 img2 format2,
    (Api.processImage (UploadScenario.runtime "one" 200) UploadScenario.api
       UploadScenario.cat_url world0).2
    = mkWorld [download_request ImageUtil.NewDefaultProcessor UploadScenario.cat_url;
               download_request ImageUtil.NewDefaultProcessor UploadScenario.cat_url]
              []
    /\ rt_result (http_Do (UploadScenario.runtime "one" 200)
                    [download_request ImageUtil.NewDefaultProcessor
                       UploadScenario.cat_url]
                    (download_request ImageUtil.NewDefaultProcessor
                       UploadScenario.cat_url))
       = Ok resp2
    /\ image_Decode (UploadScenario.runtime "one" 200)
         (body_data (resp_Body resp2)) = Ok (img2, format2)
    /\ Dx img2 = 2 /\ Dy img2 = 2.
Proof.
  destruct (processImage_downloads_twice (UploadScenario.runtime "one" 200)
              UploadScenario.api UploadScenario.cat_url
              UploadScenario.cat_bytes "image/png" 2 2 world0
              (Api.processImage (UploadScenario.runtime "one" 200)
                 UploadScenario.api UploadScenario.cat_url world0).2
              ltac:(vm_compute; reflexivity))
    as (resp1 & resp2 & img1 & format1 & img2 & format2 & resized & encoded
        & Hw & _ & _ & Hdo2 & Hdec2 & _ & _ & _ & _ & Hwd & Hht).
  exists resp2, img2, format2.
  split; [exact Hw|]. split; [exact Hdo2|]. split; [exact Hdec2|].
  split; [by rewrite <- Hwd|by rewrite <- Hht].
Defined.

(** X15 (UploadImages, processImage, ProcessImageNoResizeForMCP,
    downloadImage): a reference whose host answers with any status other
    than 200 - a retried one such as 503 included - is given up after that
    one request: no retry, no pause, nothing sent to the API, and the
    entry recorded for it reads "failed to process image: downloading
    image: unexpected status code: <status>". *)
Theorem unavailable_reference_fails_after_one_request (rt : GoRuntime)
    (rev : Revision) (a : Api.gaiaApi) (assoc imageUrl : string)
    (k : Z) (resp : Response) (w : World) :
  HasPrefix imageUrl "http" = true ->
  http_NewRequest_ok rt "GET" imageUrl = true ->
  http_Do rt (sent w) (download_request no_resize_processor imageUrl)
  = mkRoundTrip k (Ok resp) ->
  resp_StatusCode resp <> 200 ->
  uploadImageOf rt rev a assoc imageUrl w
  = (Val (Api.Failed imageUrl
            ("failed to process image: downloading image: "
             +:+ "unexpected status code: " +:+ itoa (resp_StatusCode resp))),
     mkWorld (sent w ++ [download_request no_resize_processor imageUrl]) (slept w)).
Proof.
  intros Hpre Hok Hdo Hst.
  unfold uploadImageOf, Api.uploadImage. rewrite Hpre. cbn [negb].
  unfold Api.processImage, ImageUtil.ProcessImageNoResizeForMCP,
    ImageUtil.ProcessImageFromURLForMCP.
  change (ImageUtil.NewProcessor _) with no_resize_processor.
  unfold bind. rewrite downloadImage_run, Hok, Hdo. cbn [rt_result].
  assert ((resp_StatusCode resp =? 200) = false) as -> by (by apply Z.eqb_neq).
  cbn [negb]. unfold ret. reflexivity.
Qed.

Lemma unavailable_reference_fails_after_one_request_witness :
  uploadImageOf (TransportScenario.rt_answering 503 "busy") Part006
    UploadScenario.api "STYLE" UploadScenario.cat_url world0
  = (Val (Api.Failed UploadScenario.cat_url
            ("failed to process image: downloading image: "
             +:+ "unexpected status code: " +:+ itoa 503)),
     mkWorld (sent world0
              ++ [download_request no_resize_processor UploadScenario.cat_url])
             (slept world0)).
Proof.
  apply (unavailable_reference_fails_after_one_request
           (TransportScenario.rt_answering 503 "busy") Part006
           UploadScenario.api "STYLE" UploadScenario.cat_url 0
           (mkResponse 503 ∅ (mkBody (Demo.text "busy") None)) world0).
  - reflexivity.
  - vm_compute. reflexivity.
  - vm_compute. reflexivity.
  - vm_compute. discriminate.
Defined.

(** X16 (ProcessImageFromURL, encodeImageToBase64 against
    ProcessImageFromURLForMCP, encodeImageToBase64Pure): the data-URL entry
    point makes the same requests and fails with the same errors as the
    MCP one, and on success returns "data:<mime>;base64,<data>" for the
    pair the MCP one returns; the MIME type is image/jpeg or image/png,
    whatever the format of the source. *)
Theorem ProcessImageFromURL_is_data_url (rt : GoRuntime)
    (p : ImageUtil.Processor) (imageURL : string) (w : World) :
  DataURL.ProcessImageFromURL rt p imageURL w
  = match ImageUtil.ProcessImageFromURLForMCP rt p imageURL w with
    | (Val (Ok (base64Data, mimeType)), w') =>
        (Val (Ok ("data:" +:+ mimeType +:+ ";base64," +:+ base64Data)), w')
    | (Val (Err e), w') => (Val (Err e), w')
    | (Panic msg, w') => (Panic msg, w')
    end
  /\ forall base64Data mimeType w',
       ImageUtil.ProcessImageFromURLForMCP rt p imageURL w
       = (Val (Ok (base64Data, mimeType)), w') ->
       mimeType = "image/jpeg" \/ mimeType = "image/png".
Proof.
  unfold DataURL.ProcessImageFromURL, ImageUtil.ProcessImageFromURLForMCP,
    DataURL.encodeImageToBase64, bind.
  destruct (ImageUtil.downloadImage rt p imageURL w)
    as [[[[img format]|e]|msg] w1].
  - destruct (ImageUtil.resizeImage p img) as [resizedImg|msg].
    + destruct (ImageUtil.encodeImageToBase64Pure rt p _ format)
        as [[encoded mime]|e] eqn:Henc.
      * split; [reflexivity|]. intros b m w' H. inversion H; subst.
        eapply encodeImageToBase64Pure_mime; eauto.
      * split; [reflexivity|]. intros b m w' H. inversion H.
    + split; [reflexivity|]. intros b m w' H. inversion H.
  - split; [reflexivity|]. intros b m w' H. inversion H.
  - split; [reflexivity|]. intros b m w' H. inversion H.
Qed.

(* ===================================================================== *)
(** * Where the API key travels *)

Section ApiKey.

Variable rt : GoRuntime.
Variable cfg : Api.GaiaApiConfig.

Let keyed (r : Request) : Prop :=
  req_Header r !! "Authorization" = Some ("Bearer " +:+ Api.ApiKey cfg).

Lemma NewGaiaApi_applied_keyed (req0 r : Request) (headers : gmap string string) :
  ~ mentions headers "Authorization" ->
  HttpClient.applyHeaders (Api.client (Api.NewGaiaApi cfg)) req0 headers = Ok r ->
  keyed r.
Proof.
  intros Hno E. unfold HttpClient.applyHeaders in E.
  cbn [Api.NewGaiaApi Api.client HttpClient.New HttpClient.headerInterceptors
       HttpClient.defaultHeaders HttpClient.cfg_DefaultHeaders
       HttpClient.runInterceptors] in E.
  inversion E as [E']; clear E E'. unfold keyed.
  rewrite setAll_other by done.
  match goal with
  | |- context [HttpClient.setAll ?hs ?r0] =>
      pose proof (setAll_lookup hs r0 "Authorization"
                    ("Bearer " +:+ Api.ApiKey cfg)
                    (canonically_distinct_singleton _ _)
                    (lookup_singleton_eq _ _)) as H
  end.
  exact H.
Qed.

Lemma appends_doRequest_keyed (method endpoint : string)
    (payload : option Payload) (headers : gmap string string) :
  ~ mentions headers "Authorization" ->
  appends keyed
    (HttpClient.doRequest rt (Api.client (Api.NewGaiaApi cfg)) method endpoint
       payload headers).
Proof.
  intros Hno. eapply appends_weaken; [|apply appends_doRequest_applied].
  intros r [b E]. by eapply NewGaiaApi_applied_keyed.
Qed.

Lemma appends_As_keyed {T} (unmarshal : bytes -> result T)
    (endpoint : string) (payload : Payload) :
  appends keyed
    (HttpClient.As rt unmarshal
       (HttpClient.PostJSON (Api.client (Api.NewGaiaApi cfg)) endpoint payload ∅)).
Proof.
  unfold HttpClient.As, HttpClient.PostJSON.
  cbn [HttpClient.rb_client HttpClient.rb_method HttpClient.rb_endpoint
       HttpClient.rb_payload HttpClient.rb_headers].
  apply appends_bind; [apply appends_doRequest_keyed, mentions_empty|].
  intros [[resp|] [e|]]; try apply appends_ret. apply appends_panic.
Qed.

Lemma appends_initUploadImage_keyed (rev : Revision) (imageData : bytes)
    (wd ht : Z) (assoc : string) :
  appends keyed
    (initUploadImageOf rt rev (Api.NewGaiaApi cfg) imageData wd ht assoc).
Proof.
  destruct rev; cbn [initUploadImageOf];
    unfold Api.V1.initUploadImage, Api.V2.initUploadImage;
    (apply appends_bind; [apply appends_Now_Unix|]); intros now.
  - destruct (json_Marshal rt _); [|apply appends_ret].
    apply appends_bind; [apply appends_As_keyed|].
    intros [init|e]; apply appends_ret.
  - apply appends_bind; [apply appends_As_keyed|].
    intros [[|first rest]|e]; apply appends_ret.
Qed.

Lemma appends_completeUpload_keyed (rev : Revision) (key uploadId : string)
    (parts : list UploadPart) :
  appends keyed
    (completeUploadOf rt rev (Api.NewGaiaApi cfg) key uploadId parts).
Proof.
  destruct rev; cbn [completeUploadOf];
    unfold Api.V1.completeUpload, Api.V2.completeUpload.
  - destruct (json_Marshal rt _); [|apply appends_ret].
    apply appends_bind; [apply appends_doRequest_keyed, mentions_empty|].
    intros [[res|] [e|]]; try apply appends_ret; [|apply appends_panic].
    destruct (negb _); apply appends_ret.
  - apply appends_bind; [apply appends_doRequest_keyed, mentions_empty|].
    intros [[res|] [e|]]; try apply appends_ret; [|apply appends_panic].
    destruct (body_err _); [apply appends_ret|].
    destruct (_ && _); apply appends_ret.
Qed.

Lemma appends_V1_uploadChunk_keyed (chunk : bytes) (url : string) (partNumber : Z) :
  appends (fun r => keyed r
                    /\ req_URL r = Api.BaseUrl cfg +:+ url)
    (Api.V1.uploadChunk rt (Api.NewGaiaApi cfg) chunk url partNumber).
Proof.
  unfold Api.V1.uploadChunk, HttpClient.PUT.
  apply appends_bind.
  - eapply appends_weaken; [|apply appends_doRequest_applied].
    intros r [b E]. split.
    + eapply NewGaiaApi_applied_keyed; [|exact E].
      apply mentions_singleton. vm_compute. discriminate.
    + by destruct (applyHeaders_same _ _ _ _ (NewGaiaApi_no_interceptors cfg) E)
        as (_ & -> & _).
  - intros [[resp|] [e|]]; try apply appends_ret. apply appends_panic.
Qed.

Lemma appends_V2_uploadChunk_direct (a : Api.gaiaApi) (chunk : bytes)
    (url : string) (partNumber : Z) :
  appends (fun r => r = directPut url chunk)
    (Api.V2.uploadChunk rt a chunk url partNumber).
Proof.
  unfold Api.V2.uploadChunk, HttpClient.NewRequest.
  destruct (http_NewRequest_ok rt "PUT" url); [|apply appends_ret].
  change (HttpClient.req_Set
            (HttpClient.req_Set (mkRequest "PUT" url ∅ (default [] (Some chunk)))
               "Content-Type" "application/octet-stream")
            "Content-Length" (itoa (len chunk)))
    with (directPut url chunk).
  apply appends_bind; [by apply appends_Do|].
  intros r. destruct (rt_result r) as [resp|e]; [|apply appends_ret].
  destruct (negb _); [apply appends_ret|].
  destruct (String.eqb _ _); apply appends_ret.
Qed.

End ApiKey.

(** X17 (NewGaiaApi, applyHeaders, initUploadImage, completeUpload,
    uploadChunk of both revisions): the client [NewGaiaApi] builds puts
    [Authorization: Bearer <ApiKey>] on every request that goes through
    it: every attempt of initialize and of finalize in both revisions, and
    in api.go every attempt of a part upload as well, so that the API key
    is sent along to the address made of the base URL and the upload
    destination.  In part_006 a part upload is the one direct PUT, which
    has no Authorization header. *)
Theorem api_key_travels_with_client_requests (rt : GoRuntime)
    (cfg : Api.GaiaApiConfig) (rev : Revision) (imageData : bytes) (wd ht : Z)
    (assoc key uploadId : string) (parts : list UploadPart)
    (chunk : bytes) (url : string) (partNumber : Z) (w : World) :
  let a := Api.NewGaiaApi cfg in
  let keyed := fun r => HttpClient.Header_Get (req_Header r) "Authorization"
                        = "Bearer " +:+ Api.ApiKey cfg in
  Forall keyed (sent_since w (initUploadImageOf rt rev a imageData wd ht assoc w).2)
  /\ Forall keyed (sent_since w (completeUploadOf rt rev a key uploadId parts w).2)
  /\ Forall (fun r => keyed r /\ req_URL r = Api.BaseUrl cfg +:+ url)
            (sent_since w (Api.V1.uploadChunk rt a chunk url partNumber w).2)
  /\ Forall (fun r => req_URL r = url
                      /\ req_Header r !! "Authorization" = None)
            (sent_since w (Api.V2.uploadChunk rt a chunk url partNumber w).2).
Proof.
  intros a keyed.
  assert (forall r,
             req_Header r !! "Authorization" = Some ("Bearer " +:+ Api.ApiKey cfg) ->
             keyed r) as Hk.
  { intros r H. unfold keyed, HttpClient.Header_Get.
    change (HttpClient.CanonicalMIMEHeaderKey "Authorization") with "Authorization".
    by rewrite H. }
  split; [|split; [|split]].
  - eapply Forall_impl; [apply appends_sent_since, appends_initUploadImage_keyed|].
    exact Hk.
  - eapply Forall_impl; [apply appends_sent_since, appends_completeUpload_keyed|].
    exact Hk.
  - eapply Forall_impl; [apply appends_sent_since, appends_V1_uploadChunk_keyed|].
    intros r [H1 H2]. split; [by apply Hk|done].
  - eapply Forall_impl; [apply appends_sent_since, appends_V2_uploadChunk_direct|].
    intros r ->. destruct (directPut_shape url chunk) as (_ & H2 & _ & _ & _ & H6 & _).
    done.
Qed.

(* ===================================================================== *)
(** * The upload_image tool *)

Section ToolFacts.

Import Tools.

Variable rt : GoRuntime.

Lemma toStrings_all (items : list JSONValue) :
  forall i imageUrls,
    toStrings items i = inr imageUrls -> items = map JString imageUrls.
Proof.
  induction items as [|v rest IH]; intros i imageUrls H.
  - inversion H. done.
  - destruct v; cbn [toStrings] in H; try discriminate.
    destruct (toStrings rest (i + 1)) as [j|l] eqn:E; [discriminate|].
    inversion H; subst. cbn [map]. f_equal. by eapply IH.
Qed.

Lemma toStrings_first (items : list JSONValue) :
  forall i, forallb isString items = false ->
            exists j, toStrings items i = inl j
                      /\ i <= j < i + len items
                      /\ (forall v, items !! Z.to_nat (j - i) = Some v ->
                                    isString v = false)
                      /\ forallb isString (take (Z.to_nat (j - i)) items) = true.
Proof.
  induction items as [|v rest IH]; intros i H; [discriminate|].
  cbn [forallb] in H. unfold len. cbn [length].
  destruct (isString v) eqn:Ev.
  - cbn [andb] in H. destruct v; try discriminate. cbn [toStrings].
    destruct (IH (i + 1) H) as (j & -> & Hj & Hv & Ht). unfold len in Hj.
    exists j. split; [reflexivity|]. split; [lia|].
    replace (Z.to_nat (j - i)) with (S (Z.to_nat (j - (i + 1)))) by lia.
    split; [exact Hv|]. cbn [take forallb isString andb]. exact Ht.
  - exists i. split; [by destruct v|]. split; [lia|].
    replace (Z.to_nat (i - i)) with 0%nat by lia.
    split; [|reflexivity]. intros v' Hv'. cbn in Hv'. congruence.
Qed.

Lemma uploadEach_length (rev : Revision) (a : Api.gaiaApi) (assoc : string) :
  forall (imageUrls : list string) (w w' : World) (rs : list Api.ImageResult),
    uploadEach rt rev a assoc imageUrls w = (Val rs, w') ->
    length rs = length imageUrls.
Proof.
  induction imageUrls as [|imageUrl rest IH]; intros w w' rs H.
  - inversion H. done.
  - cbn [uploadEach] in H. unfold bind in H.
    destruct (uploadImageOf rt rev a assoc imageUrl w) as [[r|msg] w1];
      [|discriminate].
    destruct (uploadEach rt rev a assoc rest w1) as [[rs'|msg] w2] eqn:E;
      [|discriminate].
    inversion H; subst. cbn [length]. f_equal. by eapply IH.
Qed.

Lemma no_failed_all_uploaded (rs : list Api.ImageResult) :
  failed_of rs = [] -> length (uploaded_of rs) = length rs.
Proof.
  induction rs as [|[file|url reason] rs IH]; intros H; [done| |].
  - cbn. f_equal. apply IH. exact H.
  - discriminate.
Qed.

Lemma UploadImages_Ok_length (rev : Revision) (a : Api.gaiaApi)
    (imageUrls : list string) (assoc : string) (w w' : World)
    (files : list UploadFile) :
  UploadImagesOf rt rev a imageUrls assoc w = (Val (Ok files), w') ->
  length files = length imageUrls.
Proof.
  unfold UploadImagesOf, Api.UploadImages, bind.
  rewrite uploadLoop_uploadEach.
  destruct (uploadEach rt rev a assoc imageUrls w) as [[rs|msg] w1] eqn:E;
    [|discriminate].
  cbn [app]. destruct (failed_of rs) as [|f fs] eqn:Ef.
  - intros H. inversion H; subst.
    rewrite (no_failed_all_uploaded _ Ef). by eapply uploadEach_length.
  - intros H. unfold len in H. cbn in H. discriminate.
Qed.

End ToolFacts.

(** X18 (Handler of internal/tools/upload_image.go): the arguments are
    checked as a whole before anything is uploaded.  When image_urls is
    missing, is not a list, or has an element that is not a string - even
    after valid references - the tool answers with an error result and
    not a single request is made; for a list the message names the index
    of the first element that is not a string. *)
Theorem Handler_rejects_before_uploading (rt : GoRuntime) (rev : Revision)
    (a : Api.gaiaApi) (args : gmap string Tools.JSONValue) (w : World) :
  match args !! "image_urls" with
  | Some (Tools.JArray items) => forallb Tools.isString items = false
  | _ => True
  end ->
  exists text,
    Tools.Handler rt rev a args w = (Val (Tools.NewToolResultError text), w)
    /\ match args !! "image_urls" with
       | None => text = "image_urls parameter is required"
       | Some (Tools.JArray items) =>
           exists i, text = "image_urls[" +:+ itoa i +:+ "] must be a string"
                     /\ 0 <= i < len items
                     /\ (forall v, items !! Z.to_nat i = Some v ->
                                   Tools.isString v = false)
                     /\ forallb Tools.isString (take (Z.to_nat i) items) = true
       | Some _ => text = "image_urls must be an array"
       end.
Proof.
  intros Hbad. unfold Tools.Handler.
  destruct (args !! "image_urls") as [[| | | |items|]|];
    try (eexists; split; reflexivity).
  destruct (toStrings_first items 0 Hbad) as (j & -> & Hj & Hv & Ht).
  rewrite Z.sub_0_r in Hv, Ht.
  eexists. split; [reflexivity|]. exists j. split; [done|]. split; [lia|done].
Qed.

Lemma Handler_rejects_before_uploading_witness :
  exists text,
    Tools.Handler (UploadScenario.runtime "one" 200) Part006 UploadScenario.api
      {[ "image_urls" := Tools.JArray [Tools.JString UploadScenario.cat_url;
                                       Tools.JBool true] ]} world0
    = (Val (Tools.NewToolResultError text), world0).
Proof.
  destruct (Handler_rejects_before_uploading (UploadScenario.runtime "one" 200)
              Part006 UploadScenario.api
              {[ "image_urls" := Tools.JArray [Tools.JString UploadScenario.cat_url;
                                               Tools.JBool true] ]} world0)
    as (text & E & _).
  - vm_compute. reflexivity.
  - exists text. exact E.
Defined.

(** X19 (Handler, UploadImages): a result that is not an error means that
    image_urls was a list of strings and that every one of them was
    uploaded: the number of files in "Uploaded <n> images successfully" is
    the number of references given. *)
Theorem Handler_success_counts_every_reference (rt : GoRuntime) (rev : Revision)
    (a : Api.gaiaApi) (args : gmap string Tools.JSONValue)
    (res : Tools.CallToolResult) (w w' : World) :
  Tools.Handler rt rev a args w = (Val res, w') ->
  Tools.IsError res = false ->
  exists imageUrls uploadedFiles,
    args !! "image_urls" = Some (Tools.JArray (map Tools.JString imageUrls))
    /\ UploadImagesOf rt rev a imageUrls "STYLE" w = (Val (Ok uploadedFiles), w')
    /\ len uploadedFiles = len imageUrls
    /\ Tools.result_Text res = Tools.resultMsg uploadedFiles.
Proof.
  unfold Tools.Handler. intros Hrun Hok.
  destruct (args !! "image_urls") as [[| | | |items|]|];
    try (inversion Hrun; subst; discriminate).
  destruct (Tools.toStrings items 0) as [i|imageUrls] eqn:Es;
    [inversion Hrun; subst; discriminate|].
  apply toStrings_all in Es. subst items.
  unfold bind in Hrun. change Tools.FileAssociatedResourceStyle with "STYLE" in Hrun.
  destruct (UploadImagesOf rt rev a imageUrls "STYLE" w)
    as [[[files|e]|msg] w1] eqn:Eu; inversion Hrun; subst; try discriminate.
  exists imageUrls, files. split; [done|]. split; [done|].
  split; [|done]. unfold len. f_equal. by eapply UploadImages_Ok_length.
Qed.

Lemma Handler_success_counts_every_reference_witness :
  exists uploadedFiles w',
    UploadImagesOf (UploadScenario.runtime "one" 200) Part006 UploadScenario.api
      [UploadScenario.cat_url] "STYLE" world0
    = (Val (Ok uploadedFiles), w')
    /\ len uploadedFiles = 1.
Proof.
  assert (Tools.Handler (UploadScenario.runtime "one" 200) Part006
            UploadScenario.api
            {[ "image_urls" := Tools.JArray [Tools.JString UploadScenario.cat_url] ]}
            world0
          = (Val (Tools.NewToolResultText (Tools.resultMsg [UploadScenario.cat_file])),
             (Tools.Handler (UploadScenario.runtime "one" 200) Part006
                UploadScenario.api
                {[ "image_urls" :=
                     Tools.JArray [Tools.JString UploadScenario.cat_url] ]}
                world0).2)) as Hrun by (vm_compute; reflexivity).
  destruct (Handler_success_counts_every_reference _ _ _ _ _ _ _ Hrun eq_refl)
    as (imageUrls & files & Hargs & Hup & Hlen & _).
  rewrite lookup_singleton_eq in Hargs.
  assert (imageUrls = [UploadScenario.cat_url]) as ->.
  { inversion Hargs as [H]. destruct imageUrls as [|u [|u' rest]];
      inversion H. done. }
  exists files. eexists. split; [exact Hup|exact Hlen].
Defined.

(* ===================================================================== *)
(** * Edges of the configuration and of the upload session *)

(** X20 (New, doRequest, As): a negative MaxRetries is kept as it is by
    [New] (only zero takes the default), the retry loop then runs no
    iteration at all, [doRequest] answers with neither a response nor an
    error, and [As] dereferences the nil response: the call panics without
    a single request having been sent. *)
Theorem negative_MaxRetries_panics (rt : GoRuntime) (config : HttpClient.Config)
    {T} (unmarshal : bytes -> result T) (method endpoint : string)
    (headers : gmap string string) (payload : option Payload)
    (body : option bytes) (w : World) :
  HttpClient.cfg_MaxRetries config < 0 ->
  request_body rt payload body ->
  HttpClient.doRequest rt (HttpClient.New config) method endpoint payload headers w
  = (Val (None, None), w)
  /\ HttpClient.As rt unmarshal
       (HttpClient.mkTypedRequestBuilder (HttpClient.New config) method endpoint
          headers payload) w
     = (Panic "invalid memory address or nil pointer dereference", w).
Proof.
  intros Hneg Hbody.
  assert (HttpClient.doRequest rt (HttpClient.New config) method endpoint payload
            headers w = (Val (None, None), w)) as Hdo.
  { rewrite (doRequest_attempts rt _ method endpoint payload headers body Hbody).
    assert (HttpClient.maxRetries (HttpClient.New config)
            = HttpClient.cfg_MaxRetries config) as ->.
    { cbn [HttpClient.New HttpClient.maxRetries].
      destruct (HttpClient.cfg_MaxRetries config =? 0) eqn:E; [|done].
      apply Z.eqb_eq in E. lia. }
    replace (Z.to_nat (HttpClient.cfg_MaxRetries config + 1)) with O by lia.
    reflexivity. }
  split; [exact Hdo|].
  unfold HttpClient.As.
  cbn [HttpClient.rb_client HttpClient.rb_method HttpClient.rb_endpoint
       HttpClient.rb_payload HttpClient.rb_headers].
  unfold bind. by rewrite Hdo.
Qed.

Lemma negative_MaxRetries_panics_witness :
  HttpClient.doRequest Scenario.rt_busy
    (HttpClient.New (HttpClient.mkConfig "https://api.gaia.test" 0 (-1) 0 false ∅))
    "GET" Scenario.task_path None ∅ world0
  = (Val (None, None), world0)
  /\ HttpClient.As Scenario.rt_busy (json_Unmarshal_Init Scenario.rt_busy)
       (HttpClient.mkTypedRequestBuilder
          (HttpClient.New (HttpClient.mkConfig "https://api.gaia.test" 0 (-1) 0
                             false ∅))
          "GET" Scenario.task_path ∅ None) world0
     = (Panic "invalid memory address or nil pointer dereference", world0).
Proof.
  apply (negative_MaxRetries_panics Scenario.rt_busy
           (HttpClient.mkConfig "https://api.gaia.test" 0 (-1) 0 false ∅)
           (json_Unmarshal_Init Scenario.rt_busy) "GET" Scenario.task_path ∅
           None None world0).
  - vm_compute. reflexivity.
  - reflexivity.
Defined.

(** X21 (UploadImages, the loop over UploadUrls, completeUpload): when
    initialize answers with no upload destination, no chunk task is
    started, so no byte of the image is sent; no error slot is set
    either, so the upload goes on to finalize with an empty list of parts
    and the image is reported as uploaded when finalize succeeds. *)
Theorem no_destination_still_finalized (rt : GoRuntime) (rev : Revision)
    (a : Api.gaiaApi) (assoc imageUrl : string) (imageData : bytes)
    (mime : string) (wd ht : Z) (init : InitUploadResponse) (w w1 w2 : World) :
  HasPrefix imageUrl "http" = true ->
  Api.processImage rt a imageUrl w = (Val (Ok (imageData, mime, wd, ht)), w1) ->
  initUploadImageOf rt rev a imageData wd ht assoc w1 = (Val (Ok init), w2) ->
  UploadUrls init = [] ->
  uploadImageOf rt rev a assoc imageUrl w
  = match completeUploadOf rt rev a (Key init) (UploadId init) [] w2 with
    | (Val None, w') => (Val (Api.Uploaded (File init)), w')
    | (Val (Some err), w') => (Val (Api.Failed imageUrl (Error err)), w')
    | (Panic msg, w') => (Panic msg, w')
    end.
Proof.
  intros Hpre Hproc Hinit Hurls.
  unfold uploadImageOf, Api.uploadImage. rewrite Hpre. cbn [negb].
  unfold bind at 1. rewrite Hproc.
  unfold bind at 1. rewrite Hinit, Hurls.
  cbn [length replicate Api.dispatch]. unfold bind at 1, ret at 1.
  unfold Api.finish.
  cbn [Api.hasErrors Api.uploadErrs existsb Api.uploadParts].
  change (Api.nonNilParts (Api.mkSlots [] [])) with (@nil UploadPart).
  unfold bind.
  destruct (completeUploadOf rt rev a (Key init) (UploadId init) [] w2)
    as [[[e|]|msg] w']; reflexivity.
Qed.

Lemma no_destination_still_finalized_witness :
  uploadImageOf (UploadScenario.runtime "none" 200) Part006 UploadScenario.api
    "STYLE" UploadScenario.cat_url world0
  = match completeUploadOf (UploadScenario.runtime "none" 200) Part006
            UploadScenario.api (Key (UploadScenario.session []))
            (UploadId (UploadScenario.session [])) []
            (initUploadImageOf (UploadScenario.runtime "none" 200) Part006
               UploadScenario.api UploadScenario.cat_bytes 2 2 "STYLE"
               (Api.processImage (UploadScenario.runtime "none" 200)
                  UploadScenario.api UploadScenario.cat_url world0).2).2 with
    | (Val None, w') => (Val (Api.Uploaded (File (UploadScenario.session []))), w')
    | (Val (Some err), w') =>
        (Val (Api.Failed UploadScenario.cat_url (Error err)), w')
    | (Panic msg, w') => (Panic msg, w')
    end.
Proof.
  apply (no_destination_still_finalized (UploadScenario.runtime "none" 200)
           Part006 UploadScenario.api "STYLE" UploadScenario.cat_url
           UploadScenario.cat_bytes "image/png" 2 2 (UploadScenario.session [])
           world0
           (Api.processImage (UploadScenario.runtime "none" 200)
              UploadScenario.api UploadScenario.cat_url world0).2
           (initUploadImageOf (UploadScenario.runtime "none" 200) Part006
              UploadScenario.api UploadScenario.cat_bytes 2 2 "STYLE"
              (Api.processImage (UploadScenario.runtime "none" 200)
                 UploadScenario.api UploadScenario.cat_url world0).2).2).
  - reflexivity.
  - vm_compute. reflexivity.
  - vm_compute. reflexivity.
  - reflexivity.
Defined.

(* ===================================================================== *)
(** * The request bodies of api.go *)

Section FirstRequest.

Variable rt : GoRuntime.

(** The first request of a call carries the marshalled payload. *)
Lemma doRequest_first_request (c : HttpClient.Client) (method endpoint : string)
    (payload : option Payload) (headers : gmap string string)
    (body : option bytes) (w : World) :
  0 <= HttpClient.maxRetries c ->
  HttpClient.headerInterceptors c = [] ->
  http_NewRequest_ok rt method (HttpClient.baseURL c +:+ endpoint) = true ->
  request_body rt payload body ->
  exists out w' req rest,
    HttpClient.doRequest rt c method endpoint payload headers w = (out, w')
    /\ sent w' = sent w ++ req :: rest
    /\ req_Method req = method
    /\ req_URL req = HttpClient.baseURL c +:+ endpoint
    /\ req_Body req = default [] body.
Proof.
  intros Hmax Hic Hok Hbody.
  rewrite (doRequest_attempts rt c method endpoint payload headers body Hbody).
  replace (Z.to_nat (HttpClient.maxRetries c + 1))
    with (S (Z.to_nat (HttpClient.maxRetries c))) by lia.
  rewrite attempts_S. unfold HttpClient.NewRequest. rewrite Hok.
  destruct (HttpClient.applyHeaders c _ headers) as [req|e] eqn:Eh.
  2:{ unfold HttpClient.applyHeaders in Eh. rewrite Hic in Eh. discriminate. }
  destruct (applyHeaders_same _ _ _ _ Hic Eh) as (E1 & E2 & E3).
  cbn [req_Method req_URL req_Body] in E1, E2, E3.
  unfold bind at 1. rewrite Do_run.
  set (r := http_Do rt (sent w) req). set (w1 := mkWorld _ _).
  match goal with
  | |- context [?k w1] =>
      assert (appends (fun _ => True) k) as Hk; [|destruct (k w1) as [out w'] eqn:Ek]
  end.
  { destruct (rt_result r) as [resp|e].
    - destruct (_ && _); [|apply appends_ret].
      apply appends_bind; [apply appends_Sleep|]. intros _.
      eapply appends_weaken; [|apply appends_attempts_applied]. done.
    - destruct (_ <? _); [|apply appends_ret].
      apply appends_bind; [apply appends_Sleep|]. intros _.
      eapply appends_weaken; [|apply appends_attempts_applied]. done. }
  destruct (Hk _ _ _ Ek) as (rest & Hsent & _).
  exists out, w', req, rest. split; [reflexivity|].
  split; [|done]. rewrite Hsent. subst w1. cbn [sent]. by rewrite <- app_assoc.
Qed.

End FirstRequest.

(** X22 (initUploadImage and completeUpload of api.go, PostJSON, POST,
    doRequest): api.go marshals the payload of initialize and of finalize
    itself and hands the resulting byte slice to the client, which
    marshals its payload again: the body that reaches the service is the
    JSON encoding of a byte slice (a base64 string), not the JSON object. *)
Theorem api_go_marshals_payloads_twice (rt : GoRuntime) (a : Api.gaiaApi)
    (imageData : bytes) (wd ht : Z) (assoc key uploadId : string)
    (parts : list UploadPart) (w : World) :
  0 <= HttpClient.maxRetries (Api.client a) ->
  HttpClient.headerInterceptors (Api.client a) = [] ->
  http_NewRequest_ok rt "POST"
    (HttpClient.baseURL (Api.client a) +:+ "/api/upload/initialize") = true ->
  http_NewRequest_ok rt "POST"
    (HttpClient.baseURL (Api.client a) +:+ "/api/upload/complete") = true ->
  (forall p, exists b, json_Marshal rt p = Ok b) ->
  (exists req rest,
      sent_since w (Api.V1.initUploadImage rt a imageData wd ht assoc w).2
      = req :: rest
      /\ is_initialize a req
      /\ marshalled_twice rt
           (PInitUpload ("image_" +:+ itoa (time_Now_Unix rt (sent w)) +:+ ".png")
                        wd ht (len imageData) assoc Api.CHUNK_SIZE)
           (req_Body req))
  /\ (exists req rest,
         sent_since w (Api.V1.completeUpload rt a key uploadId parts w).2
         = req :: rest
         /\ is_finalize a req
         /\ marshalled_twice rt (PComplete key uploadId parts) (req_Body req)).
Proof.
  intros Hmax Hic Hok1 Hok2 Hm. split.
  - unfold Api.V1.initUploadImage, bind at 1, Api.Now_Unix.
    destruct (Hm (PInitUpload ("image_" +:+ itoa (time_Now_Unix rt (sent w))
                               +:+ ".png")
                              wd ht (len imageData) assoc Api.CHUNK_SIZE))
      as [jsonData Hj].
    rewrite Hj. destruct (Hm (PBytes jsonData)) as [body Hb].
    unfold HttpClient.As, HttpClient.PostJSON.
    cbn [HttpClient.rb_client HttpClient.rb_method HttpClient.rb_endpoint
         HttpClient.rb_payload HttpClient.rb_headers].
    destruct (doRequest_first_request rt (Api.client a) "POST"
                "/api/upload/initialize" (Some (PBytes jsonData)) ∅ (Some body) w
                Hmax Hic Hok1)
      as (out & w' & req & rest & Hrun & Hsent & E1 & E2 & E3).
    { exists body. done. }
    unfold bind. rewrite Hrun.
    exists req, rest. split.
    + destruct out as [[[resp|] [e|]]|msg]; unfold ret, panic;
        repeat match goal with
               | |- context [match ?x with _ => _ end] => destruct x
               end;
        cbn [snd]; by apply sent_since_app.
    + split; [done|]. exists jsonData. split; [done|]. by rewrite E3.
  - unfold Api.V1.completeUpload.
    destruct (Hm (PComplete key uploadId parts)) as [jsonData Hj].
    rewrite Hj. destruct (Hm (PBytes jsonData)) as [body Hb].
    unfold HttpClient.POST.
    destruct (doRequest_first_request rt (Api.client a) "POST"
                "/api/upload/complete" (Some (PBytes jsonData)) ∅ (Some body) w
                Hmax Hic Hok2)
      as (out & w' & req & rest & Hrun & Hsent & E1 & E2 & E3).
    { exists body. done. }
    unfold bind. rewrite Hrun.
    exists req, rest. split.
    + destruct out as [[[resp|] [e|]]|msg]; unfold ret, panic;
        repeat match goal with
               | |- context [match ?x with _ => _ end] => destruct x
               end;
        cbn [snd]; by apply sent_since_app.
    + split; [done|]. exists jsonData. split; [done|]. by rewrite E3.
Qed.

Lemma api_go_marshals_payloads_twice_witness :
  exists req rest,
    sent_since world0
      (Api.V1.completeUpload (UploadScenario.runtime "one" 200) UploadScenario.api
         "uploads/key" "upload-1" [mkUploadPart "etag-1" 1] world0).2
    = req :: rest
    /\ is_finalize UploadScenario.api req
    /\ marshalled_twice (UploadScenario.runtime "one" 200)
         (PComplete "uploads/key" "upload-1" [mkUploadPart "etag-1" 1])
         (req_Body req).
Proof.
  apply (api_go_marshals_payloads_twice (UploadScenario.runtime "one" 200)
           UploadScenario.api UploadScenario.cat_bytes 2 2 "STYLE"
           "uploads/key" "upload-1" [mkUploadPart "etag-1" 1] world0).
  - vm_compute. discriminate.
  - reflexivity.
  - vm_compute. reflexivity.
  - vm_compute. reflexivity.
  - intros p. destruct p; eexists; reflexivity.
Defined.

(* ===================================================================== *)
(** * Removing a default header *)

Lemma standard_headers_set (req : Request) (K : string) :
  req_Header
    (HttpClient.req_Set
       (HttpClient.req_Set
          (HttpClient.req_Set req "Content-Type" "application/json")
          "Accept" "application/json")
       "User-Agent" "gaia-mcp-go/1.0") !! K
  = (standard_headers ∪ req_Header req) !! K.
Proof.
  cbn. unfold HttpClient.Header_Set, standard_headers.
  by rewrite <- !insert_union_l, (left_id_L ∅ (∪)).
Qed.

(** X23 (RemoveDefaultHeader, applyHeaders, doRequest): after
    [RemoveDefaultHeader key] no request of a call carries the header
    [key] canonicalises to - provided no default header left has that
    canonical form (the removal is by the exact key, while the wire form is
    canonical), the call's own headers do not set it, it is not one of the
    three standard headers, and the client has no interceptors. *)
Theorem removed_default_header_is_not_sent (rt : GoRuntime)
    (c : HttpClient.Client) (key method endpoint : string)
    (payload : option Payload) (headers : gmap string string) (w : World) :
  HttpClient.headerInterceptors c = [] ->
  ~ mentions (delete key (HttpClient.defaultHeaders c))
             (HttpClient.CanonicalMIMEHeaderKey key) ->
  ~ mentions headers (HttpClient.CanonicalMIMEHeaderKey key) ->
  standard_headers !! HttpClient.CanonicalMIMEHeaderKey key = None ->
  Forall (fun r => req_Header r !! HttpClient.CanonicalMIMEHeaderKey key = None
                   /\ HttpClient.Header_Get (req_Header r) key = "")
         (sent_since w
            (HttpClient.doRequest rt (ClientSetup.RemoveDefaultHeader c key)
               method endpoint payload headers w).2).
Proof.
  intros Hic Hnd Hnc Hstd.
  eapply Forall_impl; [apply appends_sent_since, appends_doRequest_applied|].
  intros r [b E]. cbn beta in E. unfold HttpClient.applyHeaders in E.
  cbn [ClientSetup.RemoveDefaultHeader ClientSetup.withDefaultHeaders
       HttpClient.headerInterceptors HttpClient.defaultHeaders] in E.
  rewrite Hic in E. cbn [HttpClient.runInterceptors] in E.
  inversion E as [E']; clear E E'.
  assert (forall r0 : Request,
             req_Header r0 = ∅ ->
             req_Header
               (HttpClient.setAll headers
                  (HttpClient.setAll (delete key (HttpClient.defaultHeaders c))
                     (HttpClient.req_Set
                        (HttpClient.req_Set
                           (HttpClient.req_Set r0 "Content-Type" "application/json")
                           "Accept" "application/json")
                        "User-Agent" "gaia-mcp-go/1.0")))
             !! HttpClient.CanonicalMIMEHeaderKey key = None) as Hnone.
  { intros r0 Hr0. rewrite !setAll_other by done.
    rewrite standard_headers_set, Hr0, (right_id_L ∅ (∪)). exact Hstd. }
  split.
  - by apply Hnone.
  - unfold HttpClient.Header_Get. by rewrite Hnone.
Qed.

Lemma removed_default_header_is_not_sent_witness :
  Forall (fun r => req_Header r !! HttpClient.CanonicalMIMEHeaderKey "Authorization"
                   = None
                   /\ HttpClient.Header_Get (req_Header r) "Authorization" = "")
         (sent_since world0
            (HttpClient.doRequest Scenario.rt_busy
               (ClientSetup.RemoveDefaultHeader (Api.client Scenario.api)
                  "Authorization")
               "GET" Scenario.task_path None ∅ world0).2).
Proof.
  apply removed_default_header_is_not_sent.
  - reflexivity.
  - intros (k & [v Hk] & _). revert Hk.
    cbn [Scenario.api Api.NewGaiaApi Api.client HttpClient.New
         HttpClient.defaultHeaders HttpClient.cfg_DefaultHeaders].
    rewrite delete_singleton_eq, lookup_empty. discriminate.
  - apply mentions_empty.
  - vm_compute. reflexivity.
Defined.
